(** * Device-state monitors of the binder plugin

    A shallow embedding of [src/binder_devmon_ds.c] (the "DS" monitor, which
    reports LOW_DATA_EXPECTED and CHARGING_STATE through sendDeviceState) and
    of [src/binder_devmon_if.c] (the "IF" monitor, which drives
    setIndicationFilter), followed by the properties of the decision rules,
    of the request bookkeeping and of the batman/inotify poll handlers.

    Conventions of the embedding:
    - a C [gboolean] that is only ever produced by [&&], [||], [!], [==] or
      by the constants TRUE/FALSE is a [bool];
    - a C [int] or enum is a [Z];
    - an object reached through a pointer of the io structure (the mce
      battery, charger and display, the connman watcher, the radio client)
      is stored by value in the io record; an external change of the object
      is an event that replaces the value and then runs the handler that the
      io structure registered for it;
    - every call that leaves the module (radio_request_drop, the submission
      of a request, ofono_slot_set_cell_info_update_interval) is appended to
      the [trace] field, newest call first. *)

From stdpp Require Import base gmap strings list.
From Stdlib Require Import ZArith Lia Bool.

Local Open Scope Z_scope.

(** ** Constants of the external headers

    The enumerators below come from headers that are not part of this
    repository (libmce-glib, libgbinder-radio, batman, GLib).  The code is
    embedded over arbitrary values for them. *)

Class ExternalHeaders := {
  (* mce_battery.h, mce_charger.h, mce_display.h *)
  MCE_BATTERY_OK : Z;
  MCE_CHARGER_ON : Z;
  MCE_DISPLAY_STATE_OFF : Z;
  (* radio_types.h *)
  RADIO_TX_STATUS_OK : Z;
  RADIO_RESP_SEND_DEVICE_STATE : Z;
  RADIO_RESP_SET_INDICATION_FILTER : Z;
  RADIO_ERROR_REQUEST_NOT_SUPPORTED : Z;
  RADIO_REQ_SEND_DEVICE_STATE : Z;
  RADIO_REQ_SET_INDICATION_FILTER : Z;
  RADIO_REQ_SET_INDICATION_FILTER_1_2 : Z;
  RADIO_REQ_SET_INDICATION_FILTER_1_5 : Z;
  RADIO_DEVICE_STATE_CHARGING_STATE : Z;
  RADIO_DEVICE_STATE_LOW_DATA_EXPECTED : Z;
  RADIO_INTERFACE_1_2 : Z;
  RADIO_INTERFACE_1_5 : Z;
  RADIO_IND_FILTER_ALL : Z;
  RADIO_IND_FILTER_ALL_1_2 : Z;
  RADIO_IND_FILTER_ALL_1_5 : Z;
  RADIO_IND_FILTER_DATA_CALL_DORMANCY : Z;
  (* batman/batman-wrappers.h *)
  BATMAN_UNKNOWN : Z;
  BATMAN_NO_BATTERY : Z;
  BATMAN_CHARGING : Z;
  BATMAN_DISCHARGING : Z;
  BATMAN_FULLY_CHARGED : Z;
  (* GIOCondition *)
  G_IO_HUP : Z;
  G_IO_ERR : Z;
  G_IO_NVAL : Z
}.

(** GLib's return values of a source callback. *)
Definition G_SOURCE_REMOVE : bool := false.
Definition G_SOURCE_CONTINUE : bool := true.

(** ** The observed objects *)

Module BinderConnman.
Record t := { valid : bool; tethering : bool }.
End BinderConnman.

Module MceBattery.
Record t := { valid : bool; status : Z }.
End MceBattery.

Module MceCharger.
Record t := { valid : bool; state : Z }.
End MceCharger.

Module MceDisplay.
Record t := { valid : bool; state : Z }.
End MceDisplay.

(** ** The radio client

    A [RadioRequest] is the identity of a request object.  The client keeps
    the requests that were submitted and are neither completed nor dropped,
    each with the completion callback it was created with.
    [radio_request_drop] removes the request from that table, so that its
    completion callback is not invoked afterwards; the completion of a
    request removes it as well. *)

Definition RadioRequest := nat.

Section RadioClient.
Context {Callback : Type}.

Record RadioClient := {
    radio_client_interface : Z;
    (* identity of the next object that radio_request_new creates *)
    radio_next : RadioRequest;
    (* whether radio_request_submit accepts a given request *)
    radio_submit_ok : RadioRequest -> bool;
    radio_pending : gmap RadioRequest Callback
  }.

Definition radio_request_new (c : RadioClient) : RadioRequest * RadioClient :=
    (radio_next c,
     {| radio_client_interface := radio_client_interface c;
        radio_next := S (radio_next c);
        radio_submit_ok := radio_submit_ok c;
        radio_pending := radio_pending c |}).

Definition radio_request_submit (req : RadioRequest) (cb : Callback)
      (c : RadioClient) : bool * RadioClient :=
    if radio_submit_ok c req then
      (true,
       {| radio_client_interface := radio_client_interface c;
          radio_next := radio_next c;
          radio_submit_ok := radio_submit_ok c;
          radio_pending := <[req := cb]> (radio_pending c) |})
    else (false, c).

Definition radio_forget (req : RadioRequest) (c : RadioClient) : RadioClient :=
    {| radio_client_interface := radio_client_interface c;
       radio_next := radio_next c;
       radio_submit_ok := radio_submit_ok c;
       radio_pending := delete req (radio_pending c) |}.

  (* radio_request_drop(NULL) does nothing *)
Definition radio_request_drop (req : option RadioRequest) (c : RadioClient)
      : RadioClient :=
    match req with
    | Some r => radio_forget r c
    | None => c
    end.
End RadioClient.

Arguments RadioClient : clear implicits.

(** ** Reading /var/lib/batman/screen *)

Definition newline : Ascii.ascii := Ascii.ascii_of_nat 10.

Fixpoint fgets_chars (n : nat) (stream : string) : string :=
  match n, stream with
  | S n', String c rest =>
      if Ascii.eqb c newline then String c EmptyString
      else String c (fgets_chars n' rest)
  | _, _ => EmptyString
  end.

(** [fgets(buf, size, f)]: at most [size - 1] characters, up to and including
    the first newline; NULL at end of file. *)
Definition fgets (size : nat) (stream : string) : option string :=
  match stream with
  | EmptyString => None
  | _ => Some (fgets_chars (size - 1) stream)
  end.

(** [strncmp(a, b, n) == 0] *)
Fixpoint strncmp_is_0 (a b : string) (n : nat) : bool :=
  match n with
  | O => true
  | S n' =>
      match a, b with
      | EmptyString, EmptyString => true
      | String x a', String y b' => Ascii.eqb x y && strncmp_is_0 a' b' n'
      | _, _ => false
      end
  end.

(** The screen part of both poll handlers: the value of the local [display]
    after the fopen/fgets/strncmp block.  [None] is a failed fopen. *)
Definition read_batman_screen (screen_file : option string) : Z :=
  match screen_file with
  | Some content =>
      match fgets 4 content with
      | Some screen_state =>
          if strncmp_is_0 screen_state "yes" 3 then 1 else 0
      | None => 0
      end
  | None => 0
  end.

(** What one run of a poll handler reads from its environment. *)
Record GIOChannelRead := {
  condition : Z;
  (* g_io_channel_read_chars returned G_IO_STATUS_ERROR *)
  status_error : bool;
  bytes_read : Z
}.

Record BatmanReading := {
  screen_file : option string;
  (* result of get_battery_state(self->upower) *)
  get_battery_state : Z
}.

(** Results of the calls made by the init_batman_watch functions. *)
Record WatchSetup := {
  inotify_init_result : Z;
  inotify_add_watch_result : Z;
  g_io_add_watch_result : Z;
  first_reading : BatmanReading
}.

(** The two poll intervals of the slot configuration. *)
Inductive PollIntervalClass := Short | Long.

(** * binder_devmon_ds.c *)

Module DS.
Section Code.
Context `{ExternalHeaders}.

(** The completion callbacks that this file passes to radio_request_new. *)
Inductive Callback := low_data_state_sent | charging_state_sent.

#[export] Instance Callback_eq_dec : EqDecision Callback.
Proof. solve_decision. Defined.

(** Calls that leave the module. *)
Inductive Action :=
| Drop (slot : Callback) (req : option RadioRequest)
    (* radio_request_drop(self->low_data_req) or (self->charging_req) *)
| Send (type : Z) (state : bool) (callback : Callback) (req : RadioRequest)
       (submitted : bool)
    (* sendDeviceState built and handed to radio_request_submit *)
| SetInterval (ms : Z).
    (* ofono_slot_set_cell_info_update_interval(self->slot, self, ms) *)

Record DevMon := {
  ds_connman : BinderConnman.t;
  ds_battery : MceBattery.t;
  ds_charger : MceCharger.t;
  ds_display : MceDisplay.t;
  ds_cell_info_interval_short_ms : Z;
  ds_cell_info_interval_long_ms : Z
}.

Record DevMonIo := {
  connman : BinderConnman.t;
  battery : MceBattery.t;
  charger : MceCharger.t;
  display : MceDisplay.t;
  client : RadioClient Callback;
  low_data_req : option RadioRequest;
  charging_req : option RadioRequest;
  low_data : bool;
  charging : bool;
  low_data_supported : bool;
  charging_supported : bool;
  cell_info_interval_short_ms : Z;
  cell_info_interval_long_ms : Z;
  batman_inotify_fd : Z;
  batman_screen_wd : Z;
  batman_watch_source : Z;
  trace : list Action
}.

(** Field assignments. *)
Definition set_connman v (s : DevMonIo) : DevMonIo :=
  {| connman := v; battery := battery s; charger := charger s;
     display := display s; client := client s;
     low_data_req := low_data_req s; charging_req := charging_req s;
     low_data := low_data s; charging := charging s;
     low_data_supported := low_data_supported s;
     charging_supported := charging_supported s;
     cell_info_interval_short_ms := cell_info_interval_short_ms s;
     cell_info_interval_long_ms := cell_info_interval_long_ms s;
     batman_inotify_fd := batman_inotify_fd s;
     batman_screen_wd := batman_screen_wd s;
     batman_watch_source := batman_watch_source s; trace := trace s |}.

Definition set_battery v (s : DevMonIo) : DevMonIo :=
  {| connman := connman s; battery := v; charger := charger s;
     display := display s; client := client s;
     low_data_req := low_data_req s; charging_req := charging_req s;
     low_data := low_data s; charging := charging s;
     low_data_supported := low_data_supported s;
     charging_supported := charging_supported s;
     cell_info_interval_short_ms := cell_info_interval_short_ms s;
     cell_info_interval_long_ms := cell_info_interval_long_ms s;
     batman_inotify_fd := batman_inotify_fd s;
     batman_screen_wd := batman_screen_wd s;
     batman_watch_source := batman_watch_source s; trace := trace s |}.

Definition set_charger v (s : DevMonIo) : DevMonIo :=
  {| connman := connman s; battery := battery s; charger := v;
     display := display s; client := client s;
     low_data_req := low_data_req s; charging_req := charging_req s;
     low_data := low_data s; charging := charging s;
     low_data_supported := low_data_supported s;
     charging_supported := charging_supported s;
     cell_info_interval_short_ms := cell_info_interval_short_ms s;
     cell_info_interval_long_ms := cell_info_interval_long_ms s;
     batman_inotify_fd := batman_inotify_fd s;
     batman_screen_wd := batman_screen_wd s;
     batman_watch_source := batman_watch_source s; trace := trace s |}.

Definition set_display v (s : DevMonIo) : DevMonIo :=
  {| connman := connman s; battery := battery s; charger := charger s;
     display := v; client := client s;
     low_data_req := low_data_req s; charging_req := charging_req s;
     low_data := low_data s; charging := charging s;
     low_data_supported := low_data_supported s;
     charging_supported := charging_supported s;
     cell_info_interval_short_ms := cell_info_interval_short_ms s;
     cell_info_interval_long_ms := cell_info_interval_long_ms s;
     batman_inotify_fd := batman_inotify_fd s;
     batman_screen_wd := batman_screen_wd s;
     batman_watch_source := batman_watch_source s; trace := trace s |}.

Definition set_client v (s : DevMonIo) : DevMonIo :=
  {| connman := connman s; battery := battery s; charger := charger s;
     display := display s; client := v;
     low_data_req := low_data_req s; charging_req := charging_req s;
     low_data := low_data s; charging := charging s;
     low_data_supported := low_data_supported s;
     charging_supported := charging_supported s;
     cell_info_interval_short_ms := cell_info_interval_short_ms s;
     cell_info_interval_long_ms := cell_info_interval_long_ms s;
     batman_inotify_fd := batman_inotify_fd s;
     batman_screen_wd := batman_screen_wd s;
     batman_watch_source := batman_watch_source s; trace := trace s |}.

Definition set_low_data_req v (s : DevMonIo) : DevMonIo :=
  {| connman := connman s; battery := battery s; charger := charger s;
     display := display s; client := client s;
     low_data_req := v; charging_req := charging_req s;
     low_data := low_data s; charging := charging s;
     low_data_supported := low_data_supported s;
     charging_supported := charging_supported s;
     cell_info_interval_short_ms := cell_info_interval_short_ms s;
     cell_info_interval_long_ms := cell_info_interval_long_ms s;
     batman_inotify_fd := batman_inotify_fd s;
     batman_screen_wd := batman_screen_wd s;
     batman_watch_source := batman_watch_source s; trace := trace s |}.

Definition set_charging_req v (s : DevMonIo) : DevMonIo :=
  {| connman := connman s; battery := battery s; charger := charger s;
     display := display s; client := client s;
     low_data_req := low_data_req s; charging_req := v;
     low_data := low_data s; charging := charging s;
     low_data_supported := low_data_supported s;
     charging_supported := charging_supported s;
     cell_info_interval_short_ms := cell_info_interval_short_ms s;
     cell_info_interval_long_ms := cell_info_interval_long_ms s;
     batman_inotify_fd := batman_inotify_fd s;
     batman_screen_wd := batman_screen_wd s;
     batman_watch_source := batman_watch_source s; trace := trace s |}.

Definition set_low_data v (s : DevMonIo) : DevMonIo :=
  {| connman := connman s; battery := battery s; charger := charger s;
     display := display s; client := client s;
     low_data_req := low_data_req s; charging_req := charging_req s;
     low_data := v; charging := charging s;
     low_data_supported := low_data_supported s;
     charging_supported := charging_supported s;
     cell_info_interval_short_ms := cell_info_interval_short_ms s;
     cell_info_interval_long_ms := cell_info_interval_long_ms s;
     batman_inotify_fd := batman_inotify_fd s;
     batman_screen_wd := batman_screen_wd s;
     batman_watch_source := batman_watch_source s; trace := trace s |}.

Definition set_charging v (s : DevMonIo) : DevMonIo :=
  {| connman := connman s; battery := battery s; charger := charger s;
     display := display s; client := client s;
     low_data_req := low_data_req s; charging_req := charging_req s;
     low_data := low_data s; charging := v;
     low_data_supported := low_data_supported s;
     charging_supported := charging_supported s;
     cell_info_interval_short_ms := cell_info_interval_short_ms s;
     cell_info_interval_long_ms := cell_info_interval_long_ms s;
     batman_inotify_fd := batman_inotify_fd s;
     batman_screen_wd := batman_screen_wd s;
     batman_watch_source := batman_watch_source s; trace := trace s |}.

Definition set_low_data_supported v (s : DevMonIo) : DevMonIo :=
  {| connman := connman s; battery := battery s; charger := charger s;
     display := display s; client := client s;
     low_data_req := low_data_req s; charging_req := charging_req s;
     low_data := low_data s; charging := charging s;
     low_data_supported := v;
     charging_supported := charging_supported s;
     cell_info_interval_short_ms := cell_info_interval_short_ms s;
     cell_info_interval_long_ms := cell_info_interval_long_ms s;
     batman_inotify_fd := batman_inotify_fd s;
     batman_screen_wd := batman_screen_wd s;
     batman_watch_source := batman_watch_source s; trace := trace s |}.

Definition set_charging_supported v (s : DevMonIo) : DevMonIo :=
  {| connman := connman s; battery := battery s; charger := charger s;
     display := display s; client := client s;
     low_data_req := low_data_req s; charging_req := charging_req s;
     low_data := low_data s; charging := charging s;
     low_data_supported := low_data_supported s;
     charging_supported := v;
     cell_info_interval_short_ms := cell_info_interval_short_ms s;
     cell_info_interval_long_ms := cell_info_interval_long_ms s;
     batman_inotify_fd := batman_inotify_fd s;
     batman_screen_wd := batman_screen_wd s;
     batman_watch_source := batman_watch_source s; trace := trace s |}.

Definition set_batman_inotify_fd v (s : DevMonIo) : DevMonIo :=
  {| connman := connman s; battery := battery s; charger := charger s;
     display := display s; client := client s;
     low_data_req := low_data_req s; charging_req := charging_req s;
     low_data := low_data s; charging := charging s;
     low_data_supported := low_data_supported s;
     charging_supported := charging_supported s;
     cell_info_interval_short_ms := cell_info_interval_short_ms s;
     cell_info_interval_long_ms := cell_info_interval_long_ms s;
     batman_inotify_fd := v;
     batman_screen_wd := batman_screen_wd s;
     batman_watch_source := batman_watch_source s; trace := trace s |}.

Definition set_batman_screen_wd v (s : DevMonIo) : DevMonIo :=
  {| connman := connman s; battery := battery s; charger := charger s;
     display := display s; client := client s;
     low_data_req := low_data_req s; charging_req := charging_req s;
     low_data := low_data s; charging := charging s;
     low_data_supported := low_data_supported s;
     charging_supported := charging_supported s;
     cell_info_interval_short_ms := cell_info_interval_short_ms s;
     cell_info_interval_long_ms := cell_info_interval_long_ms s;
     batman_inotify_fd := batman_inotify_fd s;
     batman_screen_wd := v;
     batman_watch_source := batman_watch_source s; trace := trace s |}.

Definition set_batman_watch_source v (s : DevMonIo) : DevMonIo :=
  {| connman := connman s; battery := battery s; charger := charger s;
     display := display s; client := client s;
     low_data_req := low_data_req s; charging_req := charging_req s;
     low_data := low_data s; charging := charging s;
     low_data_supported := low_data_supported s;
     charging_supported := charging_supported s;
     cell_info_interval_short_ms := cell_info_interval_short_ms s;
     cell_info_interval_long_ms := cell_info_interval_long_ms s;
     batman_inotify_fd := batman_inotify_fd s;
     batman_screen_wd := batman_screen_wd s;
     batman_watch_source := v; trace := trace s |}.

Definition log (a : Action) (s : DevMonIo) : DevMonIo :=
  {| connman := connman s; battery := battery s; charger := charger s;
     display := display s; client := client s;
     low_data_req := low_data_req s; charging_req := charging_req s;
     low_data := low_data s; charging := charging s;
     low_data_supported := low_data_supported s;
     charging_supported := charging_supported s;
     cell_info_interval_short_ms := cell_info_interval_short_ms s;
     cell_info_interval_long_ms := cell_info_interval_long_ms s;
     batman_inotify_fd := batman_inotify_fd s;
     batman_screen_wd := batman_screen_wd s;
     batman_watch_source := batman_watch_source s; trace := a :: trace s |}.

(** ** Signal predicates (lines 112-122) *)

Definition binder_devmon_ds_tethering_on (connman : BinderConnman.t) : bool :=
  BinderConnman.valid connman && BinderConnman.tethering connman.

Definition binder_devmon_ds_battery_ok (battery : MceBattery.t) : bool :=
  MceBattery.valid battery && (MCE_BATTERY_OK <=? MceBattery.status battery).

Definition binder_devmon_ds_charging (charger : MceCharger.t) : bool :=
  MceCharger.valid charger && (MceCharger.state charger =? MCE_CHARGER_ON).

Definition binder_devmon_ds_display_on (display : MceDisplay.t) : bool :=
  MceDisplay.valid display &&
  negb (MceDisplay.state display =? MCE_DISPLAY_STATE_OFF).

(** ** Completion callbacks (lines 124-180)

    [GASSERT(self->low_data_req == req)] expands to nothing unless the
    plugin is built with DEBUG; the callbacks are embedded as they run
    without it, and the asserted condition is a definition of its own. *)

Definition low_data_state_sent_GASSERT (req : RadioRequest) (self : DevMonIo)
    : bool :=
  bool_decide (low_data_req self = Some req).

Definition binder_devmon_ds_io_low_data_state_sent
    (req : RadioRequest) (status resp error : Z) (self : DevMonIo)
    : DevMonIo :=
  let self := set_low_data_req None self in
  if status =? RADIO_TX_STATUS_OK then
    if resp =? RADIO_RESP_SEND_DEVICE_STATE then
      if error =? RADIO_ERROR_REQUEST_NOT_SUPPORTED then
        set_low_data_supported false self
      else self
    else set_low_data_supported false self
  else self.

Definition charging_state_sent_GASSERT (req : RadioRequest) (self : DevMonIo)
    : bool :=
  bool_decide (charging_req self = Some req).

Definition binder_devmon_ds_io_charging_state_sent
    (req : RadioRequest) (status resp error : Z) (self : DevMonIo)
    : DevMonIo :=
  let self := set_charging_req None self in
  if status =? RADIO_TX_STATUS_OK then
    if resp =? RADIO_RESP_SEND_DEVICE_STATE then
      if error =? RADIO_ERROR_REQUEST_NOT_SUPPORTED then
        set_charging_supported false self
      else self
    else set_charging_supported false self
  else self.

(** ** Sending (lines 182-244) *)

Definition binder_devmon_ds_io_send_device_state
    (type : Z) (state : bool) (callback : Callback) (self : DevMonIo)
    : option RadioRequest * DevMonIo :=
  let '(req, c) := radio_request_new (client self) in
  let '(submitted, c) := radio_request_submit req callback c in
  let self :=
    log (Send type state callback req submitted) (set_client c self) in
  if submitted then (Some req, self) else (None, self).

(** [radio_request_drop] on one of the two request fields. *)
Definition drop_request (slot : Callback) (req : option RadioRequest)
    (self : DevMonIo) : DevMonIo :=
  log (Drop slot req) (set_client (radio_request_drop req (client self)) self).

Definition binder_devmon_ds_io_update_charging (self : DevMonIo) : DevMonIo :=
  let now_charging := binder_devmon_ds_charging (charger self) in
  if negb (eqb (charging self) now_charging) then
    let self := set_charging now_charging self in
    if charging_supported self then
      let self := drop_request charging_state_sent (charging_req self) self in
      let '(req, self) :=
        binder_devmon_ds_io_send_device_state
          RADIO_DEVICE_STATE_CHARGING_STATE now_charging
          charging_state_sent self in
      set_charging_req req self
    else self
  else self.

(** The value of the local [low_data] of update_low_data (lines 229-232). *)
Definition low_data_expected (self : DevMonIo) : bool :=
  negb (binder_devmon_ds_tethering_on (connman self)) &&
  negb (binder_devmon_ds_charging (charger self)) &&
  negb (binder_devmon_ds_display_on (display self)).

Definition binder_devmon_ds_io_update_low_data (self : DevMonIo) : DevMonIo :=
  let now_low_data := low_data_expected self in
  if negb (eqb (low_data self) now_low_data) then
    let self := set_low_data now_low_data self in
    if low_data_supported self then
      let self := drop_request low_data_state_sent (low_data_req self) self in
      let '(req, self) :=
        binder_devmon_ds_io_send_device_state
          RADIO_DEVICE_STATE_LOW_DATA_EXPECTED now_low_data
          low_data_state_sent self in
      set_low_data_req req self
    else self
  else self.

(** ** Cell info interval (lines 246-257) *)

Definition interval_ms (self : DevMonIo) (c : PollIntervalClass) : Z :=
  match c with
  | Short => cell_info_interval_short_ms self
  | Long => cell_info_interval_long_ms self
  end.

(** The condition of the conditional expression: which of the two
    configured intervals is passed to the slot. *)
Definition poll_interval_class (self : DevMonIo) : PollIntervalClass :=
  if binder_devmon_ds_display_on (display self) &&
     (binder_devmon_ds_charging (charger self) ||
      binder_devmon_ds_battery_ok (battery self))
  then Short else Long.

Definition binder_devmon_ds_io_set_cell_info_update_interval
    (self : DevMonIo) : DevMonIo :=
  log (SetInterval (interval_ms self (poll_interval_class self))) self.

(** ** Handlers of the observed objects (lines 259-301) *)

Definition binder_devmon_ds_io_connman_cb (self : DevMonIo) : DevMonIo :=
  binder_devmon_ds_io_update_low_data self.

Definition binder_devmon_ds_io_battery_cb (self : DevMonIo) : DevMonIo :=
  binder_devmon_ds_io_set_cell_info_update_interval self.

Definition binder_devmon_ds_io_display_cb (self : DevMonIo) : DevMonIo :=
  let self := binder_devmon_ds_io_update_low_data self in
  binder_devmon_ds_io_set_cell_info_update_interval self.

Definition binder_devmon_ds_io_charger_cb (self : DevMonIo) : DevMonIo :=
  let self := binder_devmon_ds_io_update_low_data self in
  let self := binder_devmon_ds_io_update_charging self in
  binder_devmon_ds_io_set_cell_info_update_interval self.

(** ** The batman poll handler (lines 303-408)

    The values of the locals [low_data], [charging] and of the condition
    that selects [cell_info_interval]. *)

Definition batman_low_data (display state : Z) : bool :=
  (display =? 0) && (state =? BATMAN_DISCHARGING).

Definition batman_charging (state : Z) : bool :=
  (state =? BATMAN_CHARGING) || (state =? BATMAN_FULLY_CHARGED).

Definition batman_interval_class (display : Z) (charging : bool)
    : PollIntervalClass :=
  if negb (display =? 0) || charging then Short else Long.

(** Lines 341-407: what the handler does once the channel block is passed. *)
Definition handle_batman_inotify_events_ds_body
    (reading : BatmanReading) (self : DevMonIo) : bool * DevMonIo :=
  let display := read_batman_screen (screen_file reading) in
  let state := get_battery_state reading in
  let now_low_data := batman_low_data display state in
  let self :=
    if negb (eqb (low_data self) now_low_data) then
      let self := set_low_data now_low_data self in
      if low_data_supported self then
        let self := drop_request low_data_state_sent (low_data_req self) self in
        let '(req, self) :=
          binder_devmon_ds_io_send_device_state
            RADIO_DEVICE_STATE_LOW_DATA_EXPECTED now_low_data
            low_data_state_sent self in
        set_low_data_req req self
      else self
    else self in
  let now_charging := batman_charging state in
  let self :=
    if negb (eqb (charging self) now_charging) then
      let self := set_charging now_charging self in
      if charging_supported self then
        let self := drop_request charging_state_sent (charging_req self) self in
        let '(req, self) :=
          binder_devmon_ds_io_send_device_state
            RADIO_DEVICE_STATE_CHARGING_STATE now_charging
            charging_state_sent self in
        set_charging_req req self
      else self
    else self in
  let cell_info_interval :=
    interval_ms self (batman_interval_class display now_charging) in
  (G_SOURCE_CONTINUE, log (SetInterval cell_info_interval) self).

(** [channel] is [None] for the direct call with a NULL channel. *)
Definition handle_batman_inotify_events_ds
    (channel : option GIOChannelRead) (reading : BatmanReading)
    (self : DevMonIo) : bool * DevMonIo :=
  match channel with
  | Some ch =>
      if negb (Z.land (condition ch)
                      (Z.lor G_IO_HUP (Z.lor G_IO_ERR G_IO_NVAL)) =? 0)
      then (G_SOURCE_REMOVE, set_batman_watch_source 0 self)
      else if status_error ch
      then (G_SOURCE_REMOVE, set_batman_watch_source 0 self)
      else if bytes_read ch =? 0
      then (G_SOURCE_CONTINUE, self)
      else handle_batman_inotify_events_ds_body reading self
  | None => handle_batman_inotify_events_ds_body reading self
  end.

(** Lines 410-451. *)
Definition binder_devmon_ds_io_init_batman_watch
    (setup : WatchSetup) (self : DevMonIo) : DevMonIo :=
  let self := set_batman_inotify_fd (inotify_init_result setup) self in
  if batman_inotify_fd self <? 0 then self
  else
    let self := set_batman_screen_wd (inotify_add_watch_result setup) self in
    if batman_screen_wd self <? 0 then set_batman_inotify_fd (-1) self
    else
      let self := set_batman_watch_source (g_io_add_watch_result setup) self in
      snd (handle_batman_inotify_events_ds None (first_reading setup) self).

(** ** Session start (lines 490-552)

    [new_io] is the structure after lines 498-543: [g_new0] zeroes every
    field, the two flags are set, and the references taken on the objects of
    the [DevMon] are the objects themselves. *)
Definition new_io (ds : DevMon) (radio : RadioClient Callback) : DevMonIo :=
  {| connman := ds_connman ds; battery := ds_battery ds;
     charger := ds_charger ds; display := ds_display ds;
     client := radio;
     low_data_req := None; charging_req := None;
     low_data := false; charging := false;
     low_data_supported := true; charging_supported := true;
     cell_info_interval_short_ms := ds_cell_info_interval_short_ms ds;
     cell_info_interval_long_ms := ds_cell_info_interval_long_ms ds;
     batman_inotify_fd := 0; batman_screen_wd := 0;
     batman_watch_source := 0; trace := [] |}.

Definition binder_devmon_ds_start_io
    (ds : DevMon) (radio : RadioClient Callback) (setup : WatchSetup)
    : DevMonIo :=
  let self := new_io ds radio in
  let self := binder_devmon_ds_io_update_low_data self in
  let self := binder_devmon_ds_io_update_charging self in
  let self := binder_devmon_ds_io_set_cell_info_update_interval self in
  binder_devmon_ds_io_init_batman_watch setup self.

(** ** The event loop

    One event is one callback that the main loop delivers to the io
    structure.  A completion is delivered by the radio client only for a
    request that is still in its table, to the callback stored with it; the
    poll handler runs only while its GLib source is installed. *)

Inductive Event :=
| connman_changed (c : BinderConnman.t)
| battery_changed (b : MceBattery.t)
| charger_changed (c : MceCharger.t)
| display_changed (d : MceDisplay.t)
| request_completed (req : RadioRequest) (status resp error : Z)
| batman_inotify (ch : GIOChannelRead) (reading : BatmanReading).

Definition complete (cb : Callback) (req : RadioRequest)
    (status resp error : Z) (self : DevMonIo) : DevMonIo :=
  match cb with
  | low_data_state_sent =>
      binder_devmon_ds_io_low_data_state_sent req status resp error self
  | charging_state_sent =>
      binder_devmon_ds_io_charging_state_sent req status resp error self
  end.

Definition step (e : Event) (self : DevMonIo) : DevMonIo :=
  match e with
  | connman_changed c => binder_devmon_ds_io_connman_cb (set_connman c self)
  | battery_changed b => binder_devmon_ds_io_battery_cb (set_battery b self)
  | charger_changed c => binder_devmon_ds_io_charger_cb (set_charger c self)
  | display_changed d => binder_devmon_ds_io_display_cb (set_display d self)
  | request_completed req status resp error =>
      match radio_pending (client self) !! req with
      | Some cb =>
          complete cb req status resp error
            (set_client (radio_forget req (client self)) self)
      | None => self
      end
  | batman_inotify ch reading =>
      if batman_watch_source self =? 0 then self
      else snd (handle_batman_inotify_events_ds (Some ch) reading self)
  end.

Definition run (events : list Event) (self : DevMonIo) : DevMonIo :=
  fold_left (fun s e => step e s) events self.

Inductive reachable : DevMonIo -> Prop :=
| reachable_start ds radio setup :
    radio_pending radio = ∅ ->
    reachable (binder_devmon_ds_start_io ds radio setup)
| reachable_step e self :
    reachable self -> reachable (step e self).

(** ** Reading the trace *)

(** Values carried by the sends created with callback [k], newest first. *)
Fixpoint sent_values (k : Callback) (t : list Action) : list bool :=
  match t with
  | Send _ state cb _ _ :: t' =>
      if decide (cb = k) then state :: sent_values k t' else sent_values k t'
  | _ :: t' => sent_values k t'
  | [] => []
  end.

(** The request created by the newest send with callback [k]. *)
Fixpoint last_sent_request (k : Callback) (t : list Action)
    : option RadioRequest :=
  match t with
  | Send _ _ cb req _ :: t' =>
      if decide (cb = k) then Some req else last_sent_request k t'
  | _ :: t' => last_sent_request k t'
  | [] => None
  end.

(** Every send is directly preceded by the drop of the same request field. *)
Fixpoint drop_before_send (t : list Action) : bool :=
  match t with
  | Send _ _ cb _ _ :: t' =>
      match t' with
      | Drop slot _ :: _ => bool_decide (slot = cb) && drop_before_send t'
      | _ => false
      end
  | _ :: t' => drop_before_send t'
  | [] => true
  end.

(** The request field that belongs to a callback, and its flag. *)
Definition pending_req (k : Callback) (self : DevMonIo) : option RadioRequest :=
  match k with
  | low_data_state_sent => low_data_req self
  | charging_state_sent => charging_req self
  end.

Definition supported (k : Callback) (self : DevMonIo) : bool :=
  match k with
  | low_data_state_sent => low_data_supported self
  | charging_state_sent => charging_supported self
  end.

Definition last_value (k : Callback) (self : DevMonIo) : bool :=
  match k with
  | low_data_state_sent => low_data self
  | charging_state_sent => charging self
  end.

Definition count_sends (k : Callback) (t : list Action) : nat :=
  length (sent_values k t).

(** No two neighbours of a list are equal. *)
Fixpoint alternating (l : list bool) : bool :=
  match l with
  | a :: t =>
      match t with
      | b :: _ => negb (eqb a b) && alternating t
      | [] => true
      end
  | [] => true
  end.

(** ** The shape shared by the four places that report a value

    update_low_data, update_charging and the two blocks of the poll handler
    are the same statement over different fields: compare with the stored
    value, store, and when the flag allows drop the stored request and send.
    [report] is that statement with the field chosen by the callback; the
    lemmas [update_low_data_report] to [poll_body_report] below show that
    each place is an instance of it. *)

Definition set_last_value (k : Callback) (v : bool) (self : DevMonIo)
    : DevMonIo :=
  match k with
  | low_data_state_sent => set_low_data v self
  | charging_state_sent => set_charging v self
  end.

Definition set_pending_req (k : Callback) (r : option RadioRequest)
    (self : DevMonIo) : DevMonIo :=
  match k with
  | low_data_state_sent => set_low_data_req r self
  | charging_state_sent => set_charging_req r self
  end.

Definition device_state_type (k : Callback) : Z :=
  match k with
  | low_data_state_sent => RADIO_DEVICE_STATE_LOW_DATA_EXPECTED
  | charging_state_sent => RADIO_DEVICE_STATE_CHARGING_STATE
  end.

Definition report (k : Callback) (v : bool) (self : DevMonIo) : DevMonIo :=
  if negb (eqb (last_value k self) v) then
    let self := set_last_value k v self in
    if supported k self then
      let self := drop_request k (pending_req k self) self in
      let '(req, self) :=
        binder_devmon_ds_io_send_device_state (device_state_type k) v k self in
      set_pending_req k req self
    else self
  else self.

(** The two update functions and the value each computes, by callback. *)
Definition update (k : Callback) (self : DevMonIo) : DevMonIo :=
  match k with
  | low_data_state_sent => binder_devmon_ds_io_update_low_data self
  | charging_state_sent => binder_devmon_ds_io_update_charging self
  end.

Definition computed (k : Callback) (self : DevMonIo) : bool :=
  match k with
  | low_data_state_sent => low_data_expected self
  | charging_state_sent => binder_devmon_ds_charging (charger self)
  end.

(** The condition asserted at the head of the callback [cb]. *)
Definition complete_GASSERT (cb : Callback) (req : RadioRequest)
    (self : DevMonIo) : bool :=
  match cb with
  | low_data_state_sent => low_data_state_sent_GASSERT req self
  | charging_state_sent => charging_state_sent_GASSERT req self
  end.

(** The client's table once the request stored for [k] is dropped. *)
Definition after_drop (k : Callback) (self : DevMonIo)
    : gmap RadioRequest Callback :=
  match pending_req k self with
  | Some r0 => delete r0 (radio_pending (client self))
  | None => radio_pending (client self)
  end.

(** A property of the io structure that every statement of the handlers
    keeps: the session start and the handlers of the observed objects and
    of the poll source are compositions of these. *)
Record kept_by_handlers (P : DevMonIo -> Prop) : Prop := {
  kept_connman : forall s v, P s -> P (set_connman v s);
  kept_battery : forall s v, P s -> P (set_battery v s);
  kept_charger : forall s v, P s -> P (set_charger v s);
  kept_display : forall s v, P s -> P (set_display v s);
  kept_inotify_fd : forall s v, P s -> P (set_batman_inotify_fd v s);
  kept_screen_wd : forall s v, P s -> P (set_batman_screen_wd v s);
  kept_watch_source : forall s v, P s -> P (set_batman_watch_source v s);
  kept_interval : forall s ms, P s -> P (log (SetInterval ms) s);
  kept_report : forall s k v, P s -> P (report k v s)
}.

(** A property that the delivery of a completion keeps. *)
Definition kept_by_completion (P : DevMonIo -> Prop) : Prop :=
  forall s r cb status resp error,
    radio_pending (client s) !! r = Some cb ->
    P s ->
    P (complete cb r status resp error
         (set_client (radio_forget r (client s)) s)).

(** ** Invariants of the event loop *)

(** Every request in the client's table is the one stored in the field of
    its callback. *)
Definition table_in_fields (self : DevMonIo) : Prop :=
  forall r cb, radio_pending (client self) !! r = Some cb ->
               pending_req cb self = Some r.

(** A stored request is the one created by the newest send of its kind. *)
Definition field_is_newest_send (self : DevMonIo) : Prop :=
  forall k r, pending_req k self = Some r ->
              last_sent_request k (trace self) = Some r.

(** While a kind is supported, the stored value is the value sent last
    (FALSE before the first send). *)
Definition value_is_newest_sent (self : DevMonIo) : Prop :=
  forall k, supported k self = true ->
            last_value k self = hd false (sent_values k (trace self)).

Definition inv (self : DevMonIo) : Prop :=
  table_in_fields self /\ field_is_newest_send self /\
  value_is_newest_sent self /\
  drop_before_send (trace self) = true /\
  forall k, alternating (sent_values k (trace self)) = true.

(** ** A reading of the poll handler against the observed objects

    The reading and the objects describe the same device when the screen
    file and the display agree and the battery state and the charger agree. *)
Definition same_device (screen state : Z) (self : DevMonIo) : Prop :=
  binder_devmon_ds_display_on (display self) = negb (screen =? 0) /\
  binder_devmon_ds_charging (charger self) = batman_charging state.

End Code.
End DS.

(** * binder_devmon_if.c *)

Module IF.
Section Code.
Context `{ExternalHeaders}.

(** The completion callback that this file passes to radio_request_new. *)
Inductive Callback := indication_filter_sent.

(** Calls that leave the module. *)
Inductive Action :=
| Drop (req : option RadioRequest)
    (* radio_request_drop(self->req) *)
| Send (code : Z) (value : Z) (req : RadioRequest) (submitted : bool)
    (* setIndicationFilter built and handed to radio_request_submit *)
| SetInterval (ms : Z).
    (* ofono_slot_set_cell_info_update_interval(self->slot, self, ms) *)

Record DevMon := {
  if_battery : MceBattery.t;
  if_charger : MceCharger.t;
  if_display : MceDisplay.t;
  if_cell_info_interval_short_ms : Z;
  if_cell_info_interval_long_ms : Z
}.

Record DevMonIo := {
  battery : MceBattery.t;
  charger : MceCharger.t;
  display : MceDisplay.t;
  client : RadioClient Callback;
  req : option RadioRequest;
  display_on : bool;
  ind_filter_supported : bool;
  cell_info_interval_short_ms : Z;
  cell_info_interval_long_ms : Z;
  batman_inotify_fd : Z;
  batman_screen_wd : Z;
  batman_watch_source : Z;
  trace : list Action
}.

(** Field assignments. *)
Definition set_battery v (s : DevMonIo) : DevMonIo :=
  {| battery := v;
     charger := charger s;
     display := display s;
     client := client s;
     req := req s;
     display_on := display_on s;
     ind_filter_supported := ind_filter_supported s;
     cell_info_interval_short_ms := cell_info_interval_short_ms s;
     cell_info_interval_long_ms := cell_info_interval_long_ms s;
     batman_inotify_fd := batman_inotify_fd s;
     batman_screen_wd := batman_screen_wd s;
     batman_watch_source := batman_watch_source s;
     trace := trace s |}.

Definition set_charger v (s : DevMonIo) : DevMonIo :=
  {| battery := battery s;
     charger := v;
     display := display s;
     client := client s;
     req := req s;
     display_on := display_on s;
     ind_filter_supported := ind_filter_supported s;
     cell_info_interval_short_ms := cell_info_interval_short_ms s;
     cell_info_interval_long_ms := cell_info_interval_long_ms s;
     batman_inotify_fd := batman_inotify_fd s;
     batman_screen_wd := batman_screen_wd s;
     batman_watch_source := batman_watch_source s;
     trace := trace s |}.

Definition set_display v (s : DevMonIo) : DevMonIo :=
  {| battery := battery s;
     charger := charger s;
     display := v;
     client := client s;
     req := req s;
     display_on := display_on s;
     ind_filter_supported := ind_filter_supported s;
     cell_info_interval_short_ms := cell_info_interval_short_ms s;
     cell_info_interval_long_ms := cell_info_interval_long_ms s;
     batman_inotify_fd := batman_inotify_fd s;
     batman_screen_wd := batman_screen_wd s;
     batman_watch_source := batman_watch_source s;
     trace := trace s |}.

Definition set_client v (s : DevMonIo) : DevMonIo :=
  {| battery := battery s;
     charger := charger s;
     display := display s;
     client := v;
     req := req s;
     display_on := display_on s;
     ind_filter_supported := ind_filter_supported s;
     cell_info_interval_short_ms := cell_info_interval_short_ms s;
     cell_info_interval_long_ms := cell_info_interval_long_ms s;
     batman_inotify_fd := batman_inotify_fd s;
     batman_screen_wd := batman_screen_wd s;
     batman_watch_source := batman_watch_source s;
     trace := trace s |}.

Definition set_req v (s : DevMonIo) : DevMonIo :=
  {| battery := battery s;
     charger := charger s;
     display := display s;
     client := client s;
     req := v;
     display_on := display_on s;
     ind_filter_supported := ind_filter_supported s;
     cell_info_interval_short_ms := cell_info_interval_short_ms s;
     cell_info_interval_long_ms := cell_info_interval_long_ms s;
     batman_inotify_fd := batman_inotify_fd s;
     batman_screen_wd := batman_screen_wd s;
     batman_watch_source := batman_watch_source s;
     trace := trace s |}.

Definition set_display_on v (s : DevMonIo) : DevMonIo :=
  {| battery := battery s;
     charger := charger s;
     display := display s;
     client := client s;
     req := req s;
     display_on := v;
     ind_filter_supported := ind_filter_supported s;
     cell_info_interval_short_ms := cell_info_interval_short_ms s;
     cell_info_interval_long_ms := cell_info_interval_long_ms s;
     batman_inotify_fd := batman_inotify_fd s;
     batman_screen_wd := batman_screen_wd s;
     batman_watch_source := batman_watch_source s;
     trace := trace s |}.

Definition set_ind_filter_supported v (s : DevMonIo) : DevMonIo :=
  {| battery := battery s;
     charger := charger s;
     display := display s;
     client := client s;
     req := req s;
     display_on := display_on s;
     ind_filter_supported := v;
     cell_info_interval_short_ms := cell_info_interval_short_ms s;
     cell_info_interval_long_ms := cell_info_interval_long_ms s;
     batman_inotify_fd := batman_inotify_fd s;
     batman_screen_wd := batman_screen_wd s;
     batman_watch_source := batman_watch_source s;
     trace := trace s |}.

Definition set_batman_inotify_fd v (s : DevMonIo) : DevMonIo :=
  {| battery := battery s;
     charger := charger s;
     display := display s;
     client := client s;
     req := req s;
     display_on := display_on s;
     ind_filter_supported := ind_filter_supported s;
     cell_info_interval_short_ms := cell_info_interval_short_ms s;
     cell_info_interval_long_ms := cell_info_interval_long_ms s;
     batman_inotify_fd := v;
     batman_screen_wd := batman_screen_wd s;
     batman_watch_source := batman_watch_source s;
     trace := trace s |}.

Definition set_batman_screen_wd v (s : DevMonIo) : DevMonIo :=
  {| battery := battery s;
     charger := charger s;
     display := display s;
     client := client s;
     req := req s;
     display_on := display_on s;
     ind_filter_supported := ind_filter_supported s;
     cell_info_interval_short_ms := cell_info_interval_short_ms s;
     cell_info_interval_long_ms := cell_info_interval_long_ms s;
     batman_inotify_fd := batman_inotify_fd s;
     batman_screen_wd := v;
     batman_watch_source := batman_watch_source s;
     trace := trace s |}.

Definition set_batman_watch_source v (s : DevMonIo) : DevMonIo :=
  {| battery := battery s;
     charger := charger s;
     display := display s;
     client := client s;
     req := req s;
     display_on := display_on s;
     ind_filter_supported := ind_filter_supported s;
     cell_info_interval_short_ms := cell_info_interval_short_ms s;
     cell_info_interval_long_ms := cell_info_interval_long_ms s;
     batman_inotify_fd := batman_inotify_fd s;
     batman_screen_wd := batman_screen_wd s;
     batman_watch_source := v;
     trace := trace s |}.

Definition log (a : Action) (s : DevMonIo) : DevMonIo :=
  {| battery := battery s;
     charger := charger s;
     display := display s;
     client := client s;
     req := req s;
     display_on := display_on s;
     ind_filter_supported := ind_filter_supported s;
     cell_info_interval_short_ms := cell_info_interval_short_ms s;
     cell_info_interval_long_ms := cell_info_interval_long_ms s;
     batman_inotify_fd := batman_inotify_fd s;
     batman_screen_wd := batman_screen_wd s;
     batman_watch_source := batman_watch_source s;
     trace := a :: trace s |}.

(** ** Signal predicates (lines 99-106) *)

Definition binder_devmon_if_battery_ok (battery : MceBattery.t) : bool :=
  MceBattery.valid battery && (MCE_BATTERY_OK <=? MceBattery.status battery).

Definition binder_devmon_if_charging (charger : MceCharger.t) : bool :=
  MceCharger.valid charger && (MceCharger.state charger =? MCE_CHARGER_ON).

Definition binder_devmon_if_display_on (display : MceDisplay.t) : bool :=
  MceDisplay.valid display &&
  negb (MceDisplay.state display =? MCE_DISPLAY_STATE_OFF).

(** ** Completion callback (lines 108-135); GASSERT as in the DS file. *)

Definition indication_filter_sent_GASSERT (r : RadioRequest) (self : DevMonIo)
    : bool :=
  bool_decide (req self = Some r).

Definition binder_devmon_if_io_indication_filter_sent
    (r : RadioRequest) (status resp error : Z) (self : DevMonIo)
    : DevMonIo :=
  let self := set_req None self in
  if status =? RADIO_TX_STATUS_OK then
    if resp =? RADIO_RESP_SET_INDICATION_FILTER then
      if error =? RADIO_ERROR_REQUEST_NOT_SUPPORTED then
        set_ind_filter_supported false self
      else self
    else self
  else self.

(** ** Indication filter (lines 137-182) *)

Definition drop_request (r : option RadioRequest) (self : DevMonIo)
    : DevMonIo :=
  log (Drop r) (set_client (radio_request_drop r (client self)) self).

(** The request code and the filter chosen for the client's interface. *)
Definition indication_filter_request (self : DevMonIo) : Z * Z :=
  if radio_client_interface (client self) <? RADIO_INTERFACE_1_2 then
    (RADIO_REQ_SET_INDICATION_FILTER,
     if display_on self then RADIO_IND_FILTER_ALL
     else RADIO_IND_FILTER_DATA_CALL_DORMANCY)
  else if radio_client_interface (client self) <? RADIO_INTERFACE_1_5 then
    (RADIO_REQ_SET_INDICATION_FILTER_1_2,
     if display_on self then RADIO_IND_FILTER_ALL_1_2
     else RADIO_IND_FILTER_DATA_CALL_DORMANCY)
  else
    (RADIO_REQ_SET_INDICATION_FILTER_1_5,
     if display_on self then RADIO_IND_FILTER_ALL_1_5
     else RADIO_IND_FILTER_DATA_CALL_DORMANCY).

(** The result of radio_request_submit is not looked at: [self->req] keeps
    the new request whether or not it was accepted. *)
Definition binder_devmon_if_io_set_indication_filter (self : DevMonIo)
    : DevMonIo :=
  if ind_filter_supported self then
    let '(code, value) := indication_filter_request self in
    let self := drop_request (req self) self in
    let '(r, c) := radio_request_new (client self) in
    let self := set_req (Some r) (set_client c self) in
    let '(submitted, c) :=
      radio_request_submit r indication_filter_sent (client self) in
    log (Send code value r submitted) (set_client c self)
  else self.

(** ** Cell info interval (lines 184-194) *)

Definition interval_ms (self : DevMonIo) (c : PollIntervalClass) : Z :=
  match c with
  | Short => cell_info_interval_short_ms self
  | Long => cell_info_interval_long_ms self
  end.

Definition poll_interval_class (self : DevMonIo) : PollIntervalClass :=
  if display_on self &&
     (binder_devmon_if_charging (charger self) ||
      binder_devmon_if_battery_ok (battery self))
  then Short else Long.

Definition binder_devmon_if_io_set_cell_info_update_interval
    (self : DevMonIo) : DevMonIo :=
  log (SetInterval (interval_ms self (poll_interval_class self))) self.

(** ** Handlers of the observed objects (lines 196-227) *)

Definition binder_devmon_if_io_battery_cb (self : DevMonIo) : DevMonIo :=
  binder_devmon_if_io_set_cell_info_update_interval self.

Definition binder_devmon_if_io_charger_cb (self : DevMonIo) : DevMonIo :=
  binder_devmon_if_io_set_cell_info_update_interval self.

Definition binder_devmon_if_io_display_cb (self : DevMonIo) : DevMonIo :=
  let now_display_on := binder_devmon_if_display_on (display self) in
  if negb (eqb (display_on self) now_display_on) then
    let self := set_display_on now_display_on self in
    let self := binder_devmon_if_io_set_indication_filter self in
    binder_devmon_if_io_set_cell_info_update_interval self
  else self.

(** ** The batman poll handler (lines 229-303) *)

(** The value of the local [charging] (line 293) for a given value of the
    local [battery_state]. *)
Definition batman_charging (battery_state : Z) : bool :=
  (battery_state =? BATMAN_CHARGING) ||
  (battery_state =? BATMAN_FULLY_CHARGED).

Definition batman_interval_class (display : Z) (charging : bool)
    : PollIntervalClass :=
  if negb (display =? 0) || charging then Short else Long.

(** Lines 267-302.  [state] receives the result of get_battery_state and
    is used by the debug output only; [battery_state] keeps its
    initial value. *)
Definition handle_batman_inotify_events_if_body
    (reading : BatmanReading) (self : DevMonIo) : bool * DevMonIo :=
  let battery_state := -1 in
  let display := read_batman_screen (screen_file reading) in
  let state := get_battery_state reading in
  let charging := batman_charging battery_state in
  let cell_info_interval :=
    interval_ms self (batman_interval_class display charging) in
  (G_SOURCE_CONTINUE, log (SetInterval cell_info_interval) self).

Definition handle_batman_inotify_events_if
    (channel : option GIOChannelRead) (reading : BatmanReading)
    (self : DevMonIo) : bool * DevMonIo :=
  match channel with
  | Some ch =>
      if negb (Z.land (condition ch)
                      (Z.lor G_IO_HUP (Z.lor G_IO_ERR G_IO_NVAL)) =? 0)
      then (G_SOURCE_REMOVE, set_batman_watch_source 0 self)
      else if status_error ch
      then (G_SOURCE_REMOVE, set_batman_watch_source 0 self)
      else if bytes_read ch =? 0
      then (G_SOURCE_CONTINUE, self)
      else handle_batman_inotify_events_if_body reading self
  | None => handle_batman_inotify_events_if_body reading self
  end.

(** Lines 305-346. *)
Definition binder_devmon_if_io_init_batman_watch
    (setup : WatchSetup) (self : DevMonIo) : DevMonIo :=
  let self := set_batman_inotify_fd (inotify_init_result setup) self in
  if batman_inotify_fd self <? 0 then self
  else
    let self := set_batman_screen_wd (inotify_add_watch_result setup) self in
    if batman_screen_wd self <? 0 then set_batman_inotify_fd (-1) self
    else
      let self := set_batman_watch_source (g_io_add_watch_result setup) self in
      snd (handle_batman_inotify_events_if None (first_reading setup) self).

(** ** Session start (lines 381-432); [new_io] is the structure after lines
    389-424. *)
Definition new_io (impl : DevMon) (radio : RadioClient Callback) : DevMonIo :=
  {| battery := if_battery impl; charger := if_charger impl;
     display := if_display impl;
     client := radio;
     req := None;
     display_on := binder_devmon_if_display_on (if_display impl);
     ind_filter_supported := true;
     cell_info_interval_short_ms := if_cell_info_interval_short_ms impl;
     cell_info_interval_long_ms := if_cell_info_interval_long_ms impl;
     batman_inotify_fd := 0; batman_screen_wd := 0;
     batman_watch_source := 0; trace := [] |}.

Definition binder_devmon_if_start_io
    (impl : DevMon) (radio : RadioClient Callback) (setup : WatchSetup)
    : DevMonIo :=
  let self := new_io impl radio in
  let self := binder_devmon_if_io_set_indication_filter self in
  let self := binder_devmon_if_io_set_cell_info_update_interval self in
  binder_devmon_if_io_init_batman_watch setup self.

(** ** The event loop, as for the DS file *)

Inductive Event :=
| battery_changed (b : MceBattery.t)
| charger_changed (c : MceCharger.t)
| display_changed (d : MceDisplay.t)
| request_completed (r : RadioRequest) (status resp error : Z)
| batman_inotify (ch : GIOChannelRead) (reading : BatmanReading).

Definition step (e : Event) (self : DevMonIo) : DevMonIo :=
  match e with
  | battery_changed b => binder_devmon_if_io_battery_cb (set_battery b self)
  | charger_changed c => binder_devmon_if_io_charger_cb (set_charger c self)
  | display_changed d => binder_devmon_if_io_display_cb (set_display d self)
  | request_completed r status resp error =>
      match radio_pending (client self) !! r with
      | Some indication_filter_sent =>
          binder_devmon_if_io_indication_filter_sent r status resp error
            (set_client (radio_forget r (client self)) self)
      | None => self
      end
  | batman_inotify ch reading =>
      if batman_watch_source self =? 0 then self
      else snd (handle_batman_inotify_events_if (Some ch) reading self)
  end.

Definition run (events : list Event) (self : DevMonIo) : DevMonIo :=
  fold_left (fun s e => step e s) events self.

Inductive reachable : DevMonIo -> Prop :=
| reachable_start impl radio setup :
    radio_pending radio = ∅ ->
    reachable (binder_devmon_if_start_io impl radio setup)
| reachable_step e self :
    reachable self -> reachable (step e self).

(** ** Reading the trace *)

Fixpoint count_sends (t : list Action) : nat :=
  match t with
  | Send _ _ _ _ :: t' => S (count_sends t')
  | _ :: t' => count_sends t'
  | [] => O
  end.

Fixpoint last_sent_request (t : list Action) : option RadioRequest :=
  match t with
  | Send _ _ r _ :: _ => Some r
  | _ :: t' => last_sent_request t'
  | [] => None
  end.

Fixpoint drop_before_send (t : list Action) : bool :=
  match t with
  | Send _ _ _ _ :: t' =>
      match t' with
      | Drop _ :: _ => drop_before_send t'
      | _ => false
      end
  | _ :: t' => drop_before_send t'
  | [] => true
  end.

(** The client's table once the stored request is dropped. *)
Definition after_drop (self : DevMonIo) : gmap RadioRequest Callback :=
  match req self with
  | Some r0 => delete r0 (radio_pending (client self))
  | None => radio_pending (client self)
  end.

(** A property of the io structure that the handlers of the observed
    objects and of the poll source keep. *)
Record kept_by_handlers (P : DevMonIo -> Prop) : Prop := {
  kept_battery : forall s v, P s -> P (set_battery v s);
  kept_charger : forall s v, P s -> P (set_charger v s);
  kept_display_cb : forall s v,
    P s -> P (binder_devmon_if_io_display_cb (set_display v s));
  kept_inotify_fd : forall s v, P s -> P (set_batman_inotify_fd v s);
  kept_screen_wd : forall s v, P s -> P (set_batman_screen_wd v s);
  kept_watch_source : forall s v, P s -> P (set_batman_watch_source v s);
  kept_interval : forall s ms, P s -> P (log (SetInterval ms) s)
}.

(** A property that the delivery of a completion keeps. *)
Definition kept_by_completion (P : DevMonIo -> Prop) : Prop :=
  forall s r status resp error,
    radio_pending (client s) !! r = Some indication_filter_sent ->
    P s ->
    P (binder_devmon_if_io_indication_filter_sent r status resp error
         (set_client (radio_forget r (client s)) s)).

(** ** Invariants of the event loop *)

Definition table_in_field (self : DevMonIo) : Prop :=
  forall r cb, radio_pending (client self) !! r = Some cb ->
               req self = Some r.

Definition field_is_newest_send (self : DevMonIo) : Prop :=
  forall r, req self = Some r -> last_sent_request (trace self) = Some r.

(** The cached [display_on] is the state of the display object. *)
Definition display_on_cached (self : DevMonIo) : Prop :=
  display_on self = binder_devmon_if_display_on (display self).

Definition inv (self : DevMonIo) : Prop :=
  table_in_field self /\ field_is_newest_send self /\
  display_on_cached self /\ drop_before_send (trace self) = true.

End Code.
End IF.

(** * The signals in the words of the specification

    A signal is a validity flag and a value; an invalid signal counts as
    off. *)

Section Signals.
Context `{ExternalHeaders}.

Definition display_signal_on (d : MceDisplay.t) : Prop :=
  MceDisplay.valid d = true /\ MceDisplay.state d <> MCE_DISPLAY_STATE_OFF.

Definition charger_signal_on (c : MceCharger.t) : Prop :=
  MceCharger.valid c = true /\ MceCharger.state c = MCE_CHARGER_ON.

Definition battery_signal_ok (b : MceBattery.t) : Prop :=
  MceBattery.valid b = true /\ MCE_BATTERY_OK <= MceBattery.status b.

Definition tethering_signal_on (c : BinderConnman.t) : Prop :=
  BinderConnman.valid c = true /\ BinderConnman.tethering c = true.


End Signals.

(** * Sample values

    A choice of distinct numbers for the external enumerators and a few
    concrete sessions, used to evaluate the embedding. *)

Definition sample_headers : ExternalHeaders := {|
  MCE_BATTERY_OK := 3;
  MCE_CHARGER_ON := 1;
  MCE_DISPLAY_STATE_OFF := 0;
  RADIO_TX_STATUS_OK := 0;
  RADIO_RESP_SEND_DEVICE_STATE := 127;
  RADIO_RESP_SET_INDICATION_FILTER := 128;
  RADIO_ERROR_REQUEST_NOT_SUPPORTED := 6;
  RADIO_REQ_SEND_DEVICE_STATE := 127;
  RADIO_REQ_SET_INDICATION_FILTER := 128;
  RADIO_REQ_SET_INDICATION_FILTER_1_2 := 138;
  RADIO_REQ_SET_INDICATION_FILTER_1_5 := 158;
  RADIO_DEVICE_STATE_CHARGING_STATE := 1;
  RADIO_DEVICE_STATE_LOW_DATA_EXPECTED := 2;
  RADIO_INTERFACE_1_2 := 2;
  RADIO_INTERFACE_1_5 := 5;
  RADIO_IND_FILTER_ALL := 7;
  RADIO_IND_FILTER_ALL_1_2 := 31;
  RADIO_IND_FILTER_ALL_1_5 := 127;
  RADIO_IND_FILTER_DATA_CALL_DORMANCY := 4;
  BATMAN_UNKNOWN := 0;
  BATMAN_NO_BATTERY := 1;
  BATMAN_CHARGING := 2;
  BATMAN_DISCHARGING := 3;
  BATMAN_FULLY_CHARGED := 4;
  G_IO_HUP := 16;
  G_IO_ERR := 8;
  G_IO_NVAL := 32
|}.

(** A radio client that accepts every request and has none pending. *)
Definition sample_radio {Callback : Type} : RadioClient Callback :=
  {| radio_client_interface := 2; radio_next := O;
     radio_submit_ok := fun _ => true; radio_pending := ∅ |}.

(** inotify_init fails: the poll handler is never installed. *)
Definition no_watch : WatchSetup :=
  {| inotify_init_result := -1; inotify_add_watch_result := -1;
     g_io_add_watch_result := 0;
     first_reading := {| screen_file := None; get_battery_state := 0 |} |}.

(** Display on, charger off, battery low, no tethering. *)
Definition sample_ds_awake : DS.DevMon :=
  {| DS.ds_connman := {| BinderConnman.valid := true;
                         BinderConnman.tethering := false |};
     DS.ds_battery := {| MceBattery.valid := true; MceBattery.status := 2 |};
     DS.ds_charger := {| MceCharger.valid := true; MceCharger.state := 2 |};
     DS.ds_display := {| MceDisplay.valid := true; MceDisplay.state := 2 |};
     DS.ds_cell_info_interval_short_ms := 2000;
     DS.ds_cell_info_interval_long_ms := 30000 |}.

(** Display off, charger on, tethering on. *)
Definition sample_ds_docked : DS.DevMon :=
  {| DS.ds_connman := {| BinderConnman.valid := true;
                         BinderConnman.tethering := true |};
     DS.ds_battery := {| MceBattery.valid := true; MceBattery.status := 3 |};
     DS.ds_charger := {| MceCharger.valid := true; MceCharger.state := 1 |};
     DS.ds_display := {| MceDisplay.valid := true; MceDisplay.state := 0 |};
     DS.ds_cell_info_interval_short_ms := 2000;
     DS.ds_cell_info_interval_long_ms := 30000 |}.

Definition sample_if_awake : IF.DevMon :=
  {| IF.if_battery := {| MceBattery.valid := true; MceBattery.status := 2 |};
     IF.if_charger := {| MceCharger.valid := true; MceCharger.state := 2 |};
     IF.if_display := {| MceDisplay.valid := true; MceDisplay.state := 2 |};
     IF.if_cell_info_interval_short_ms := 2000;
     IF.if_cell_info_interval_long_ms := 30000 |}.

(** Display off, charger off, tethering on. *)
Definition sample_ds_tethering : DS.DevMon :=
  {| DS.ds_connman := {| BinderConnman.valid := true;
                         BinderConnman.tethering := true |};
     DS.ds_battery := {| MceBattery.valid := true; MceBattery.status := 3 |};
     DS.ds_charger := {| MceCharger.valid := true; MceCharger.state := 2 |};
     DS.ds_display := {| MceDisplay.valid := true; MceDisplay.state := 0 |};
     DS.ds_cell_info_interval_short_ms := 2000;
     DS.ds_cell_info_interval_long_ms := 30000 |}.

Definition sample_ds_docked_session : DS.DevMonIo :=
  @DS.binder_devmon_ds_start_io sample_headers sample_ds_docked sample_radio
    no_watch.

Definition sample_ds_tethering_session : DS.DevMonIo :=
  @DS.binder_devmon_ds_start_io sample_headers sample_ds_tethering
    sample_radio no_watch.

(** Screen file and battery state as the poll handler may read them. *)
Definition reading_off_charging : BatmanReading :=
  {| screen_file := Some "no"; get_battery_state := 2 |}.

Definition reading_off_discharging : BatmanReading :=
  {| screen_file := Some "no"; get_battery_state := 3 |}.

Definition reading_on_discharging : BatmanReading :=
  {| screen_file := Some "yes"; get_battery_state := 3 |}.

Definition sample_ds_session : DS.DevMonIo :=
  @DS.binder_devmon_ds_start_io sample_headers sample_ds_awake sample_radio
    no_watch.

Definition sample_if_session : IF.DevMonIo :=
  @IF.binder_devmon_if_start_io sample_headers sample_if_awake sample_radio
    no_watch.

(** * Construction and teardown

    [binder_devmon_ds_new], [binder_devmon_if_new] and the two [io_free]
    functions.  The calls of a teardown are listed in the order in which
    the function makes them; reference counting is left out. *)

Module BinderSlotConfig.
Record t := {
  cell_info_interval_short_ms : Z;
  cell_info_interval_long_ms : Z
}.
End BinderSlotConfig.

Inductive ObservedObject :=
  connman_object | battery_object | charger_object | display_object.

Inductive FreeCall :=
| remove_all_handlers (object : ObservedObject)
| request_drop (req : option RadioRequest)
| ofono_slot_drop_cell_info_requests
| g_source_remove (id : Z)
| inotify_rm_watch (fd wd : Z)
| close (fd : Z).

(** The tail shared by both teardown functions (DS lines 480-485, IF lines
    371-376). *)
Definition free_batman_watch (source wd fd : Z) : list FreeCall :=
  (if negb (source =? 0) then [g_source_remove source] else []) ++
  (if 0 <=? wd then [inotify_rm_watch fd wd] else []) ++
  (if 0 <=? fd then [close fd] else []).

(** Whether init_batman_watch gets as far as installing the poll source
    and calling the handler: inotify_init and inotify_add_watch both
    returned a non-negative value. *)
Definition watch_installed (setup : WatchSetup) : bool :=
  negb (inotify_init_result setup <? 0) &&
  negb (inotify_add_watch_result setup <? 0).

Module DSLife.
Import DS.

(** The intervals given to the slot, newest first. *)
Fixpoint intervals_set (t : list Action) : list Z :=
  match t with
  | SetInterval ms :: t' => ms :: intervals_set t'
  | _ :: t' => intervals_set t'
  | [] => []
  end.

(** Lines 573-589; the four objects are what binder_connman_new and the
    mce constructors return. *)
Definition binder_devmon_ds_new (config : BinderSlotConfig.t)
    (connman : BinderConnman.t) (battery : MceBattery.t)
    (charger : MceCharger.t) (display : MceDisplay.t) : DevMon :=
  {| ds_connman := connman; ds_battery := battery;
     ds_charger := charger; ds_display := display;
     ds_cell_info_interval_short_ms :=
       BinderSlotConfig.cell_info_interval_short_ms config;
     ds_cell_info_interval_long_ms :=
       BinderSlotConfig.cell_info_interval_long_ms config |}.

(** Lines 454-488: the radio client after the two drops, and the calls. *)
Definition binder_devmon_ds_io_free (self : DevMonIo)
    : RadioClient Callback * list FreeCall :=
  let c := radio_request_drop (low_data_req self) (client self) in
  let c := radio_request_drop (charging_req self) c in
  (c,
   [remove_all_handlers connman_object;
    remove_all_handlers battery_object;
    remove_all_handlers charger_object;
    remove_all_handlers display_object;
    request_drop (low_data_req self);
    request_drop (charging_req self);
    ofono_slot_drop_cell_info_requests]
   ++ free_batman_watch (batman_watch_source self) (batman_screen_wd self)
        (batman_inotify_fd self)).

(** The interval given to the slot most recently. *)
Fixpoint last_interval (t : list Action) : option Z :=
  match t with
  | SetInterval ms :: _ => Some ms
  | _ :: t' => last_interval t'
  | [] => None
  end.

(** A property that every statement run by an event keeps; the interval
    passed to the slot is always one of the two of the structure and the
    poll source is only ever cleared. *)
Record kept_by_events `{ExternalHeaders} (P : DevMonIo -> Prop) : Prop := {
  ev_connman : forall s v, P s -> P (set_connman v s);
  ev_battery : forall s v, P s -> P (set_battery v s);
  ev_charger : forall s v, P s -> P (set_charger v s);
  ev_display : forall s v, P s -> P (set_display v s);
  ev_source_cleared : forall s, P s -> P (set_batman_watch_source 0 s);
  ev_interval : forall s c, P s -> P (log (SetInterval (interval_ms s c)) s);
  ev_report : forall s k v, P s -> P (report k v s);
  ev_complete : forall s r cb status resp error,
    radio_pending (client s) !! r = Some cb ->
    P s ->
    P (complete cb r status resp error
         (set_client (radio_forget r (client s)) s))
}.

(** The structure as the three updates of start_io leave it, before
    init_batman_watch. *)
Definition started `{ExternalHeaders} (ds : DevMon)
    (radio : RadioClient Callback) : DevMonIo :=
  binder_devmon_ds_io_set_cell_info_update_interval
    (binder_devmon_ds_io_update_charging
       (binder_devmon_ds_io_update_low_data (new_io ds radio))).

(** The value that the poll handler computes for a kind (the locals
    [low_data] and [charging] of lines 367 and 386). *)
Definition polled `{ExternalHeaders} (k : Callback) (reading : BatmanReading)
    : bool :=
  match k with
  | low_data_state_sent =>
      batman_low_data (read_batman_screen (screen_file reading))
        (get_battery_state reading)
  | charging_state_sent => batman_charging (get_battery_state reading)
  end.

(** The poll source is not installed and the interval given to the slot
    most recently is the one the event rule selects now. *)
Definition interval_in_force `{ExternalHeaders} (self : DevMonIo) : Prop :=
  batman_watch_source self = 0 /\
  last_interval (trace self) =
    Some (interval_ms self (poll_interval_class self)).

(** Every request stored in a field is in the table of the radio client
    under the callback of that field, and the table holds no request that is
    yet to be created. *)
Definition fields_in_table (self : DevMonIo) : Prop :=
  (forall k r, pending_req k self = Some r ->
               radio_pending (client self) !! r = Some k) /\
  (forall r cb, radio_pending (client self) !! r = Some cb ->
                (r < radio_next (client self))%nat).

End DSLife.

Module IFLife.
Import IF.

(** Lines 452-467. *)
Definition binder_devmon_if_new (config : BinderSlotConfig.t)
    (battery : MceBattery.t) (charger : MceCharger.t)
    (display : MceDisplay.t) : DevMon :=
  {| if_battery := battery; if_charger := charger; if_display := display;
     if_cell_info_interval_short_ms :=
       BinderSlotConfig.cell_info_interval_short_ms config;
     if_cell_info_interval_long_ms :=
       BinderSlotConfig.cell_info_interval_long_ms config |}.

(** Lines 349-379. *)
Definition binder_devmon_if_io_free (self : DevMonIo)
    : RadioClient Callback * list FreeCall :=
  (radio_request_drop (req self) (client self),
   [remove_all_handlers battery_object;
    remove_all_handlers charger_object;
    remove_all_handlers display_object;
    request_drop (req self);
    ofono_slot_drop_cell_info_requests]
   ++ free_batman_watch (batman_watch_source self) (batman_screen_wd self)
        (batman_inotify_fd self)).

Fixpoint last_interval (t : list Action) : option Z :=
  match t with
  | SetInterval ms :: _ => Some ms
  | _ :: t' => last_interval t'
  | [] => None
  end.

(** Code and filter of the request sent most recently. *)
Fixpoint last_filter (t : list Action) : option (Z * Z) :=
  match t with
  | Send code value _ _ :: _ => Some (code, value)
  | _ :: t' => last_filter t'
  | [] => None
  end.

Record kept_by_events `{ExternalHeaders} (P : DevMonIo -> Prop) : Prop := {
  ev_battery : forall s v, P s -> P (set_battery v s);
  ev_charger : forall s v, P s -> P (set_charger v s);
  ev_display_cb : forall s v,
    P s -> P (binder_devmon_if_io_display_cb (set_display v s));
  ev_source_cleared : forall s, P s -> P (set_batman_watch_source 0 s);
  ev_interval : forall s c, P s -> P (log (SetInterval (interval_ms s c)) s);
  ev_complete : forall s r status resp error,
    radio_pending (client s) !! r = Some indication_filter_sent ->
    P s ->
    P (binder_devmon_if_io_indication_filter_sent r status resp error
         (set_client (radio_forget r (client s)) s))
}.

Definition started `{ExternalHeaders} (impl : DevMon)
    (radio : RadioClient Callback) : DevMonIo :=
  binder_devmon_if_io_set_cell_info_update_interval
    (binder_devmon_if_io_set_indication_filter (new_io impl radio)).

(** The poll source is not installed and the interval given to the slot
    most recently is the one the event rule selects now. *)
Definition interval_in_force `{ExternalHeaders} (self : DevMonIo) : Prop :=
  batman_watch_source self = 0 /\
  last_interval (trace self) =
    Some (interval_ms self (poll_interval_class self)).

(** A stored request is in the table of the radio client unless the client
    rejected its submission. *)
Definition field_in_table_or_rejected (self : DevMonIo) : Prop :=
  (forall r, req self = Some r ->
             radio_pending (client self) !! r = Some indication_filter_sent \/
             radio_submit_ok (client self) r = false) /\
  (forall r cb, radio_pending (client self) !! r = Some cb ->
                (r < radio_next (client self))%nat).

End IFLife.

(** Sessions whose poll handler is installed. *)
Definition with_watch : WatchSetup :=
  {| inotify_init_result := 5; inotify_add_watch_result := 1;
     g_io_add_watch_result := 7;
     first_reading :=
       {| screen_file := Some "yes"; get_battery_state := 3 |} |}.

(** inotify_init succeeds, inotify_add_watch fails. *)
Definition no_screen_file : WatchSetup :=
  {| inotify_init_result := 5; inotify_add_watch_result := -1;
     g_io_add_watch_result := 0;
     first_reading := {| screen_file := None; get_battery_state := 0 |} |}.



(** A radio client that rejects every submission. *)
Definition rejecting_radio {Callback : Type} : RadioClient Callback :=
  {| radio_client_interface := 2; radio_next := O;
     radio_submit_ok := fun _ => false; radio_pending := ∅ |}.

Definition sample_config : BinderSlotConfig.t :=
  {| BinderSlotConfig.cell_info_interval_short_ms := 2000;
     BinderSlotConfig.cell_info_interval_long_ms := 30000 |}.

(** * Properties of binder_devmon_ds.c *)

Module DSFacts.
Import DS.
Section Facts.
Context `{ExternalHeaders}.

(** ** Each reporting place is an instance of [report] *)

Lemma update_low_data_report (s : DevMonIo) :
  binder_devmon_ds_io_update_low_data s =
  report low_data_state_sent (low_data_expected s) s.
Proof. reflexivity. Qed.

Lemma update_charging_report (s : DevMonIo) :
  binder_devmon_ds_io_update_charging s =
  report charging_state_sent (binder_devmon_ds_charging (charger s)) s.
Proof. reflexivity. Qed.

Lemma poll_body_report (reading : BatmanReading) (s : DevMonIo) :
  handle_batman_inotify_events_ds_body reading s =
  let screen := read_batman_screen (screen_file reading) in
  let state := get_battery_state reading in
  let s2 := report charging_state_sent (batman_charging state)
              (report low_data_state_sent (batman_low_data screen state) s) in
  (G_SOURCE_CONTINUE,
   log (SetInterval
          (interval_ms s2
             (batman_interval_class screen (batman_charging state))))
       s2).
Proof. reflexivity. Qed.

(** ** What [report] does to each part of the structure *)

Ltac report_crush :=
  unfold report, binder_devmon_ds_io_send_device_state, drop_request,
    radio_request_submit, radio_request_new, radio_request_drop, after_drop;
  intros;
  repeat match goal with
         | k : Callback |- _ => destruct k
         | s : DevMonIo |- _ => destruct s
         | b : bool |- _ => destruct b
         end;
  simpl in *;
  repeat match goal with
         | |- context [match ?o with Some _ => _ | None => _ end] =>
             is_var o; destruct o; simpl in *
         | |- context [radio_submit_ok ?c ?r] =>
             destruct (radio_submit_ok c r) eqn:?; simpl in *
         end;
  simpl in *; try done.

(** Whether [report k v s] reaches the drop and the send. *)
Lemma report_same k v s :
  last_value k s = v -> report k v s = s.
Proof.
  intros <-. unfold report. by rewrite eqb_reflx.
Qed.

Lemma report_supported k v s k' :
  supported k' (report k v s) = supported k' s.
Proof. report_crush. Qed.

Lemma report_last_value k v s k' :
  last_value k' (report k v s) =
  if decide (k' = k) then v else last_value k' s.
Proof. report_crush. Qed.

Lemma report_trace k v s :
  trace (report k v s) =
  (if negb (eqb (last_value k s) v) && supported k s
   then [Send (device_state_type k) v k (radio_next (client s))
              (radio_submit_ok (client s) (radio_next (client s)));
         Drop k (pending_req k s)]
   else []) ++ trace s.
Proof. report_crush. Qed.

Lemma report_pending_req k v s k' :
  pending_req k' (report k v s) =
  if negb (eqb (last_value k s) v) && supported k s && bool_decide (k' = k)
  then (if radio_submit_ok (client s) (radio_next (client s))
        then Some (radio_next (client s)) else None)
  else pending_req k' s.
Proof. report_crush. Qed.

Lemma report_radio_pending k v s :
  radio_pending (client (report k v s)) =
  if negb (eqb (last_value k s) v) && supported k s
  then (if radio_submit_ok (client s) (radio_next (client s))
        then <[radio_next (client s) := k]> (after_drop k s)
        else after_drop k s)
  else radio_pending (client s).
Proof. report_crush. Qed.

Lemma report_radio_next k v s :
  radio_next (client (report k v s)) =
  if negb (eqb (last_value k s) v) && supported k s
  then S (radio_next (client s)) else radio_next (client s).
Proof. report_crush. Qed.

Lemma report_radio_submit_ok k v s :
  radio_submit_ok (client (report k v s)) = radio_submit_ok (client s).
Proof. report_crush. Qed.

Lemma report_objects k v s :
  connman (report k v s) = connman s /\
  battery (report k v s) = battery s /\
  charger (report k v s) = charger s /\
  display (report k v s) = display s /\
  cell_info_interval_short_ms (report k v s) = cell_info_interval_short_ms s /\
  cell_info_interval_long_ms (report k v s) = cell_info_interval_long_ms s.
Proof. report_crush. Qed.

Lemma report_idempotent k v s :
  report k v (report k v s) = report k v s.
Proof.
  apply report_same. rewrite report_last_value. by rewrite decide_True.
Qed.

(** ** The session start and every event are made of the kept statements *)

Section Kept.
Variable P : DevMonIo -> Prop.
Hypothesis kept : kept_by_handlers P.
Hypothesis completion : kept_by_completion P.

Lemma kept_poll_body reading s :
  P s -> P (snd (handle_batman_inotify_events_ds_body reading s)).
Proof.
  intros Hs. rewrite poll_body_report. simpl.
  apply kept_interval; [done|]. by do 2 (apply kept_report; [done|]).
Qed.

Lemma kept_poll channel reading s :
  P s -> P (snd (handle_batman_inotify_events_ds channel reading s)).
Proof.
  intros Hs. unfold handle_batman_inotify_events_ds.
  destruct channel as [ch|]; [|by apply kept_poll_body].
  pose proof (kept_watch_source P kept) as Hsource.
  pose proof kept_poll_body as Hbody.
  repeat case_match; first [by apply Hbody | by apply Hsource | done].
Qed.

Lemma kept_step e s : P s -> P (step e s).
Proof.
  intros Hs. destruct e as [c|b|c|d|r status resp error|ch reading];
    unfold step, binder_devmon_ds_io_connman_cb,
      binder_devmon_ds_io_battery_cb, binder_devmon_ds_io_charger_cb,
      binder_devmon_ds_io_display_cb,
      binder_devmon_ds_io_set_cell_info_update_interval;
    rewrite ?update_charging_report, ?update_low_data_report.
  - apply kept_report; [done|]. by apply kept_connman.
  - apply kept_interval; [done|]. by apply kept_battery.
  - apply kept_interval; [done|].
    do 2 (apply kept_report; [done|]). by apply kept_charger.
  - apply kept_interval; [done|].
    apply kept_report; [done|]. by apply kept_display.
  - destruct (radio_pending (client s) !! r) as [cb|] eqn:Hr; [|done].
    by apply completion.
  - case_match; [done|]. by apply kept_poll.
Qed.

Lemma kept_run events s : P s -> P (run events s).
Proof.
  revert s. induction events as [|e events IH]; intros s Hs; simpl; [done|].
  apply IH. by apply kept_step.
Qed.

Lemma kept_init_watch setup s :
  P s -> P (binder_devmon_ds_io_init_batman_watch setup s).
Proof.
  intros Hs. unfold binder_devmon_ds_io_init_batman_watch.
  pose proof (kept_watch_source P kept) as Hsource.
  pose proof (kept_inotify_fd P kept) as Hfd.
  pose proof (kept_screen_wd P kept) as Hwd.
  pose proof kept_poll as Hpoll.
  repeat case_match; auto.
Qed.

Lemma kept_start ds radio setup :
  P (new_io ds radio) -> P (binder_devmon_ds_start_io ds radio setup).
Proof.
  intros H0. unfold binder_devmon_ds_start_io,
    binder_devmon_ds_io_set_cell_info_update_interval.
  rewrite update_charging_report, update_low_data_report.
  apply kept_init_watch.
  apply kept_interval; [done|]. by do 2 (apply kept_report; [done|]).
Qed.

End Kept.

(** ** Completion callbacks, field by field *)

Ltac complete_crush :=
  unfold complete, binder_devmon_ds_io_low_data_state_sent,
    binder_devmon_ds_io_charging_state_sent;
  intros;
  repeat match goal with
         | k : Callback |- _ => destruct k
         | s : DevMonIo |- _ => destruct s
         end;
  simpl in *;
  repeat match goal with
         | |- context [if ?b then _ else _] => destruct b; simpl in *
         end;
  simpl in *; try done.

Lemma complete_pending_req cb r status resp error s k :
  pending_req k (complete cb r status resp error s) =
  if decide (k = cb) then None else pending_req k s.
Proof. complete_crush. Qed.

Lemma complete_supported_other cb r status resp error s k :
  k <> cb ->
  supported k (complete cb r status resp error s) = supported k s.
Proof. complete_crush. Qed.

Lemma complete_supported_mono cb r status resp error s k :
  supported k (complete cb r status resp error s) = true ->
  supported k s = true.
Proof.
  unfold complete, binder_devmon_ds_io_low_data_state_sent,
    binder_devmon_ds_io_charging_state_sent.
  destruct cb, k, s; simpl; repeat (case_match; simpl); done.
Qed.

Lemma complete_unchanged cb r status resp error s :
  let s' := complete cb r status resp error s in
  trace s' = trace s /\ client s' = client s /\
  (forall k, last_value k s' = last_value k s) /\
  connman s' = connman s /\ battery s' = battery s /\
  charger s' = charger s /\ display s' = display s.
Proof. complete_crush. Qed.

(** ** The invariant *)

Lemma fire_true k v s :
  negb (eqb (last_value k s) v) && supported k s = true ->
  last_value k s <> v /\ supported k s = true.
Proof.
  intros [Hne Hs]%andb_prop. split; [|done].
  intros Heq. subst v. by rewrite eqb_reflx in Hne.
Qed.

Lemma after_drop_lookup k s r cb :
  table_in_fields s ->
  after_drop k s !! r = Some cb ->
  cb <> k /\ pending_req cb s = Some r.
Proof.
  intros Ht. unfold after_drop.
  destruct (pending_req k s) as [r0|] eqn:Hp.
  - intros [Hne Hl]%lookup_delete_Some. apply Ht in Hl.
    split; [|done]. intros ->. congruence.
  - intros Hl. apply Ht in Hl. split; [|done]. intros ->. congruence.
Qed.

Lemma table_in_fields_report k v s :
  table_in_fields s -> table_in_fields (report k v s).
Proof.
  intros Ht r cb. rewrite report_radio_pending, report_pending_req.
  destruct (negb (eqb (last_value k s) v) && supported k s); simpl; [|by auto].
  destruct (radio_submit_ok _ _).
  - intros [[-> ->] | [Hne Hl]]%lookup_insert_Some.
    + by rewrite bool_decide_eq_true_2.
    + apply (after_drop_lookup _ _ _ _ Ht) in Hl as [Hk Hp].
      by rewrite bool_decide_eq_false_2.
  - intros Hl. apply (after_drop_lookup _ _ _ _ Ht) in Hl as [Hk Hp].
    by rewrite bool_decide_eq_false_2.
Qed.

Lemma field_is_newest_send_report k v s :
  field_is_newest_send s -> field_is_newest_send (report k v s).
Proof.
  intros Hf k' r. rewrite report_pending_req, report_trace.
  destruct (negb (eqb (last_value k s) v) && supported k s); simpl; [|by auto].
  case_bool_decide as Hk; case_decide; subst; try done; [|by auto].
  destruct (radio_submit_ok _ _); by intros [= <-].
Qed.

Lemma value_is_newest_sent_report k v s :
  value_is_newest_sent s -> value_is_newest_sent (report k v s).
Proof.
  intros Hv k'. rewrite report_supported, report_last_value, report_trace.
  intros Hs. destruct (decide (k' = k)) as [->|Hk].
  - destruct (supported k s) eqn:Hsk; [|done]. rewrite andb_true_r.
    destruct (eqb (last_value k s) v) eqn:Heq; simpl.
    + apply eqb_prop in Heq as <-. by apply Hv.
    + by rewrite decide_True.
  - destruct (negb _ && _); simpl; [|by auto].
    rewrite decide_False by done. by auto.
Qed.

Lemma drop_before_send_report k v s :
  drop_before_send (trace s) = true ->
  drop_before_send (trace (report k v s)) = true.
Proof.
  intros Hd. rewrite report_trace.
  destruct (negb _ && _); simpl; [|done].
  by rewrite bool_decide_eq_true_2.
Qed.

Lemma alternating_report k v s k' :
  value_is_newest_sent s ->
  alternating (sent_values k' (trace s)) = true ->
  alternating (sent_values k' (trace (report k v s))) = true.
Proof.
  intros Hv Ha. rewrite report_trace.
  destruct (negb _ && _) eqn:Hfire; simpl; [|done].
  apply fire_true in Hfire as [Hne Hs].
  case_decide as Hk; [subst k'|done].
  specialize (Hv k Hs).
  destruct (sent_values k (trace s)) as [|b l]; simpl in *; [done|].
  rewrite Ha, andb_true_r. subst b.
  destruct v, (last_value k s); done.
Qed.

Lemma inv_kept : kept_by_handlers inv.
Proof.
  split; try (by intros [] v Hi; exact Hi).
  intros s k v (Ht & Hf & Hv & Hd & Ha). repeat split.
  - by apply table_in_fields_report.
  - by apply field_is_newest_send_report.
  - by apply value_is_newest_sent_report.
  - by apply drop_before_send_report.
  - intros k'. by apply alternating_report.
Qed.

Lemma inv_completion : kept_by_completion inv.
Proof.
  - intros s r cb status resp error Hr (Ht & Hf & Hv & Hd & Ha).
    set (s0 := set_client (radio_forget r (client s)) s).
    destruct (complete_unchanged cb r status resp error s0)
      as (Htr & Hcl & Hlv & _).
    assert (trace s0 = trace s) as Htr0 by by destruct s.
    assert (forall k, pending_req k s0 = pending_req k s) as Hp0
      by (by intros []; destruct s).
    repeat split.
    + intros r' cb'. rewrite Hcl, complete_pending_req, Hp0.
      replace (radio_pending (client s0))
        with (delete r (radio_pending (client s))) by by destruct s.
      intros [Hne Hl]%lookup_delete_Some.
      apply Ht in Hl. apply Ht in Hr.
      case_decide; [subst; congruence|done].
    + intros k r'. rewrite complete_pending_req, Htr, Htr0, Hp0.
      case_decide; [done|by auto].
    + intros k Hs. apply complete_supported_mono in Hs.
      rewrite Hlv, Htr, Htr0.
      replace (last_value k s0) with (last_value k s)
        by by destruct k, s.
      apply Hv. by destruct k, s.
    + by rewrite Htr, Htr0.
    + intros k. by rewrite Htr, Htr0.
Qed.

Lemma new_io_inv ds radio :
  radio_pending radio = ∅ -> inv (new_io ds radio).
Proof.
  intros Hempty. repeat split; try done.
  - intros r cb. simpl. by rewrite Hempty, lookup_empty.
  - by intros [].
  - by intros [].
Qed.

Lemma reachable_inv s : reachable s -> inv s.
Proof.
  induction 1 as [ds radio setup Hempty|e s _ IH].
  - apply (kept_start _ inv_kept). by apply new_io_inv.
  - by apply (kept_step _ inv_kept inv_completion).
Qed.

(** ** The handlers only add to the trace *)

Lemma trace_grows_kept (t : list Action) :
  kept_by_handlers (fun s => exists later, trace s = later ++ t).
Proof.
  split; try (by intros [] v Hi; exact Hi).
  - intros s ms [later Hl]. exists (SetInterval ms :: later).
    destruct s; simpl in *. by rewrite Hl.
  - intros s k v [later Hl]. rewrite report_trace, Hl.
    eexists. by rewrite app_assoc.
Qed.

(** ** An unsupported kind stays unsupported and silent *)



End Facts.
End DSFacts.

(** * Properties of binder_devmon_if.c *)

Module IFFacts.
Import IF.
Section Facts.
Context `{ExternalHeaders}.

(** ** What set_indication_filter does to each part of the structure *)

Ltac filter_crush :=
  unfold binder_devmon_if_io_set_indication_filter, indication_filter_request,
    drop_request, radio_request_submit, radio_request_new, radio_request_drop,
    after_drop;
  intros;
  repeat match goal with
         | s : DevMonIo |- _ => destruct s
         end;
  simpl in *;
  repeat match goal with
         | |- context [if ?b then _ else _] => destruct b eqn:?; simpl in *
         | |- context [match ?o with Some _ => _ | None => _ end] =>
             is_var o; destruct o; simpl in *
         end;
  simpl in *; try done; try congruence.

Lemma filter_trace s :
  trace (binder_devmon_if_io_set_indication_filter s) =
  (if ind_filter_supported s
   then [Send (fst (indication_filter_request s))
              (snd (indication_filter_request s))
              (radio_next (client s))
              (radio_submit_ok (client s) (radio_next (client s)));
         Drop (req s)]
   else []) ++ trace s.
Proof. filter_crush. Qed.

Lemma filter_req s :
  req (binder_devmon_if_io_set_indication_filter s) =
  if ind_filter_supported s then Some (radio_next (client s)) else req s.
Proof. filter_crush. Qed.

Lemma filter_radio_pending s :
  radio_pending (client (binder_devmon_if_io_set_indication_filter s)) =
  if ind_filter_supported s
  then (if radio_submit_ok (client s) (radio_next (client s))
        then <[radio_next (client s) := indication_filter_sent]> (after_drop s)
        else after_drop s)
  else radio_pending (client s).
Proof. filter_crush. Qed.

Lemma filter_unchanged s :
  let s' := binder_devmon_if_io_set_indication_filter s in
  ind_filter_supported s' = ind_filter_supported s /\
  display_on s' = display_on s /\
  battery s' = battery s /\ charger s' = charger s /\
  display s' = display s /\
  cell_info_interval_short_ms s' = cell_info_interval_short_ms s /\
  cell_info_interval_long_ms s' = cell_info_interval_long_ms s.
Proof. filter_crush. Qed.

(** ** The completion callback, field by field *)

Lemma filter_sent_unchanged r status resp error s :
  let s' := binder_devmon_if_io_indication_filter_sent r status resp error s in
  req s' = None /\ trace s' = trace s /\ client s' = client s /\
  display_on s' = display_on s /\ battery s' = battery s /\
  charger s' = charger s /\ display s' = display s.
Proof.
  unfold binder_devmon_if_io_indication_filter_sent.
  destruct s; simpl; repeat (case_match; simpl); done.
Qed.

Lemma filter_sent_supported_mono r status resp error s :
  ind_filter_supported
    (binder_devmon_if_io_indication_filter_sent r status resp error s) = true ->
  ind_filter_supported s = true.
Proof.
  unfold binder_devmon_if_io_indication_filter_sent.
  destruct s; simpl; repeat (case_match; simpl); done.
Qed.

(** ** The session start and every event are made of the kept handlers *)

Section Kept.
Variable P : DevMonIo -> Prop.
Hypothesis kept : kept_by_handlers P.
Hypothesis completion : kept_by_completion P.

Lemma if_kept_poll channel reading s :
  P s -> P (snd (handle_batman_inotify_events_if channel reading s)).
Proof.
  intros Hs.
  pose proof (kept_watch_source P kept) as Hsource.
  pose proof (kept_interval P kept) as Hinterval.
  unfold handle_batman_inotify_events_if,
    handle_batman_inotify_events_if_body.
  repeat case_match; first [by apply Hinterval | by apply Hsource | done].
Qed.

Lemma if_kept_step e s : P s -> P (step e s).
Proof.
  intros Hs. destruct e as [b|c|d|r status resp error|ch reading];
    unfold step, binder_devmon_if_io_battery_cb,
      binder_devmon_if_io_charger_cb,
      binder_devmon_if_io_set_cell_info_update_interval.
  - apply kept_interval; [done|]. by apply kept_battery.
  - apply kept_interval; [done|]. by apply kept_charger.
  - by apply kept_display_cb.
  - destruct (radio_pending (client s) !! r) as [[]|] eqn:Hr; [|done].
    by apply completion.
  - case_match; [done|]. by apply if_kept_poll.
Qed.


Lemma if_kept_init_watch setup s :
  P s -> P (binder_devmon_if_io_init_batman_watch setup s).
Proof.
  intros Hs. unfold binder_devmon_if_io_init_batman_watch.
  pose proof (kept_watch_source P kept) as Hsource.
  pose proof (kept_inotify_fd P kept) as Hfd.
  pose proof (kept_screen_wd P kept) as Hwd.
  pose proof if_kept_poll as Hpoll.
  repeat case_match; auto.
Qed.

Lemma if_kept_start impl radio setup :
  P (binder_devmon_if_io_set_indication_filter (new_io impl radio)) ->
  P (binder_devmon_if_start_io impl radio setup).
Proof.
  intros H0. unfold binder_devmon_if_start_io,
    binder_devmon_if_io_set_cell_info_update_interval.
  apply if_kept_init_watch. by apply kept_interval.
Qed.

End Kept.

(** ** The invariant *)

Lemma after_drop_empty s r cb :
  table_in_field s -> after_drop s !! r = Some cb -> False.
Proof.
  intros Ht. unfold after_drop. destruct (req s) as [r0|] eqn:Hp.
  - intros [Hne Hl]%lookup_delete_Some. apply Ht in Hl. congruence.
  - intros Hl. apply Ht in Hl. congruence.
Qed.

Lemma table_in_field_filter s :
  table_in_field s ->
  table_in_field (binder_devmon_if_io_set_indication_filter s).
Proof.
  intros Ht r cb. rewrite filter_radio_pending, filter_req.
  destruct (ind_filter_supported s); [|by apply Ht].
  destruct (radio_submit_ok _ _).
  - intros [[-> _] | [_ Hl]]%lookup_insert_Some; [done|].
    by destruct (after_drop_empty _ _ _ Ht Hl).
  - intros Hl. by destruct (after_drop_empty _ _ _ Ht Hl).
Qed.

Lemma field_is_newest_send_filter s :
  field_is_newest_send s ->
  field_is_newest_send (binder_devmon_if_io_set_indication_filter s).
Proof.
  intros Hf r. rewrite filter_req, filter_trace.
  destruct (ind_filter_supported s); simpl; [|by apply Hf].
  by intros [= <-].
Qed.

Lemma drop_before_send_filter s :
  drop_before_send (trace s) = true ->
  drop_before_send (trace (binder_devmon_if_io_set_indication_filter s)) = true.
Proof.
  intros Hd. rewrite filter_trace. by destruct (ind_filter_supported s).
Qed.

Lemma inv_filter s :
  inv s -> inv (binder_devmon_if_io_set_indication_filter s).
Proof.
  intros (Ht & Hf & Hc & Hd).
  destruct (filter_unchanged s) as (_ & Hon & _ & _ & Hdisp & _).
  repeat split.
  - by apply table_in_field_filter.
  - by apply field_is_newest_send_filter.
  - unfold display_on_cached. by rewrite Hon, Hdisp.
  - by apply drop_before_send_filter.
Qed.

Lemma if_inv_kept : kept_by_handlers inv.
Proof.
  split; try (by intros [] v Hi; exact Hi).
  intros s v (Ht & Hf & Hc & Hd). unfold binder_devmon_if_io_display_cb.
  destruct (eqb _ _) eqn:Heq; simpl.
  - apply eqb_prop in Heq. by destruct s.
  - assert (inv (set_display_on
                   (binder_devmon_if_display_on (display (set_display v s)))
                   (set_display v s))) as Hi by by destruct s.
    apply inv_filter in Hi. revert Hi.
    unfold binder_devmon_if_io_set_cell_info_update_interval.
    by destruct (binder_devmon_if_io_set_indication_filter _).
Qed.

Lemma if_inv_completion : kept_by_completion inv.
Proof.
  - intros s r status resp error Hr (Ht & Hf & Hc & Hd).
    destruct (filter_sent_unchanged r status resp error
                (set_client (radio_forget r (client s)) s))
      as (Hreq & Htr & Hcl & Hon & _ & _ & Hdisp).
    repeat split.
    + intros r' cb. rewrite Hcl.
      replace (radio_pending (client (set_client _ s)))
        with (delete r (radio_pending (client s))) by by destruct s.
      intros [Hne Hl]%lookup_delete_Some.
      apply Ht in Hl. apply Ht in Hr. congruence.
    + intros r'. by rewrite Hreq.
    + unfold display_on_cached. rewrite Hon, Hdisp. by destruct s.
    + rewrite Htr. by destruct s.
Qed.

Lemma if_new_io_inv impl radio :
  radio_pending radio = ∅ -> inv (new_io impl radio).
Proof.
  intros Hempty. repeat split; try done.
  intros r cb. simpl. by rewrite Hempty, lookup_empty.
Qed.

Lemma if_reachable_inv s : reachable s -> inv s.
Proof.
  induction 1 as [impl radio setup Hempty|e s _ IH].
  - apply (if_kept_start _ if_inv_kept). apply inv_filter.
    by apply if_new_io_inv.
  - by apply (if_kept_step _ if_inv_kept if_inv_completion).
Qed.

(** ** The poll handler only adds to the trace *)

Lemma if_watch_trace_grows setup s :
  exists later,
    trace (binder_devmon_if_io_init_batman_watch setup s) = later ++ trace s.
Proof.
  unfold binder_devmon_if_io_init_batman_watch,
    handle_batman_inotify_events_if, handle_batman_inotify_events_if_body.
  repeat case_match; simpl;
    first [by exists [] | by eexists [_] | idtac];
    destruct s; simpl; first [by exists [] | by eexists [_]].
Qed.

(** ** An unsupported filter stays unsupported and silent *)



End Facts.
End IFFacts.

(** * The signal predicates of the code and the signals of the specification *)

Section SignalFacts.
Context `{ExternalHeaders}.

Lemma ds_display_on_iff d :
  DS.binder_devmon_ds_display_on d = true <-> display_signal_on d.
Proof.
  unfold DS.binder_devmon_ds_display_on, display_signal_on.
  destruct (MceDisplay.valid d), (Z.eqb_spec (MceDisplay.state d)
    MCE_DISPLAY_STATE_OFF); simpl; intuition congruence.
Qed.

Lemma ds_charging_iff c :
  DS.binder_devmon_ds_charging c = true <-> charger_signal_on c.
Proof.
  unfold DS.binder_devmon_ds_charging, charger_signal_on.
  destruct (MceCharger.valid c), (Z.eqb_spec (MceCharger.state c)
    MCE_CHARGER_ON); simpl; intuition congruence.
Qed.

Lemma ds_battery_ok_iff b :
  DS.binder_devmon_ds_battery_ok b = true <-> battery_signal_ok b.
Proof.
  unfold DS.binder_devmon_ds_battery_ok, battery_signal_ok.
  destruct (MceBattery.valid b), (Z.leb_spec MCE_BATTERY_OK
    (MceBattery.status b)); simpl; intuition (congruence || lia).
Qed.

Lemma ds_tethering_on_iff c :
  DS.binder_devmon_ds_tethering_on c = true <-> tethering_signal_on c.
Proof.
  unfold DS.binder_devmon_ds_tethering_on, tethering_signal_on.
  destruct (BinderConnman.valid c), (BinderConnman.tethering c); simpl;
    intuition congruence.
Qed.





End SignalFacts.

(** * The claims *)



(** C2.  In the event-driven path of the DS monitor the low-data value is
    TRUE exactly when tethering is off, the charger is off and the display
    is off, an invalid signal counting as off; update_low_data stores that
    value and a send it makes carries it. *)
Theorem C2_low_data_rule `{ExternalHeaders} (s : DS.DevMonIo) :
  (DS.low_data_expected s = true <->
     ~ tethering_signal_on (DS.connman s) /\
     ~ charger_signal_on (DS.charger s) /\
     ~ display_signal_on (DS.display s)) /\
  DS.low_data (DS.binder_devmon_ds_io_update_low_data s) =
    DS.low_data_expected s /\
  (forall v, In v (DS.sent_values DS.low_data_state_sent
                     (DS.trace (DS.binder_devmon_ds_io_update_low_data s))) ->
             In v (DS.sent_values DS.low_data_state_sent (DS.trace s)) \/
             v = DS.low_data_expected s).
Proof.
  split; [|split].
  - unfold DS.low_data_expected.
    rewrite <- ds_tethering_on_iff, <- ds_charging_iff, <- ds_display_on_iff.
    destruct (DS.binder_devmon_ds_tethering_on _),
      (DS.binder_devmon_ds_charging _), (DS.binder_devmon_ds_display_on _);
      simpl; intuition congruence.
  - rewrite DSFacts.update_low_data_report.
    apply (DSFacts.report_last_value DS.low_data_state_sent _ s
             DS.low_data_state_sent).
  - intros v. rewrite DSFacts.update_low_data_report, DSFacts.report_trace.
    destruct (negb _ && _); simpl; [|by left].
    intros [<-|Hin]; [by right|by left].
Qed.




(** ** The poll handler of the DS file against the event-driven rules *)

Lemma update_report `{ExternalHeaders} k s :
  DS.update k s = DS.report k (DS.computed k s) s.
Proof. by destruct k. Qed.

Lemma batman_low_data_iff `{ExternalHeaders} screen state :
  DS.batman_low_data screen state = true <->
  screen = 0 /\ state = BATMAN_DISCHARGING.
Proof.
  unfold DS.batman_low_data.
  destruct (Z.eqb_spec screen 0), (Z.eqb_spec state BATMAN_DISCHARGING);
    simpl; intuition congruence.
Qed.

Lemma batman_charging_iff `{ExternalHeaders} state :
  DS.batman_charging state = true <->
  state = BATMAN_CHARGING \/ state = BATMAN_FULLY_CHARGED.
Proof.
  unfold DS.batman_charging.
  destruct (Z.eqb_spec state BATMAN_CHARGING),
    (Z.eqb_spec state BATMAN_FULLY_CHARGED); simpl; intuition congruence.
Qed.

Lemma batman_interval_short_iff `{ExternalHeaders} screen charging :
  DS.batman_interval_class screen charging = Short <->
  screen <> 0 \/ charging = true.
Proof.
  unfold DS.batman_interval_class.
  destruct (Z.eqb_spec screen 0), charging; simpl; intuition congruence.
Qed.

(** C4, as stated, fails.  With the screen file reading "no" and the battery
    state CHARGING, against a session whose display is off and whose charger
    is on, the poll handler selects the short interval while the
    event-driven rule selects the long one; with the screen file reading
    "no" and the battery state DISCHARGING, against a session with display
    and charger off and tethering on, the poll handler computes low data
    TRUE while the event-driven rule computes FALSE. *)
Lemma C4_counterexample :
  (@DS.same_device sample_headers
     (read_batman_screen (screen_file reading_off_charging))
     (get_battery_state reading_off_charging) sample_ds_docked_session /\
   DS.batman_interval_class
     (read_batman_screen (screen_file reading_off_charging))
     (@DS.batman_charging sample_headers
        (get_battery_state reading_off_charging)) = Short /\
   @DS.poll_interval_class sample_headers sample_ds_docked_session = Long /\
   hd_error (DS.trace (snd (@DS.handle_batman_inotify_events_ds
                              sample_headers None reading_off_charging
                              sample_ds_docked_session))) =
     Some (DS.SetInterval 2000) /\
   hd_error (DS.trace (@DS.binder_devmon_ds_io_set_cell_info_update_interval
                         sample_headers sample_ds_docked_session)) =
     Some (DS.SetInterval 30000)) /\
  (@DS.same_device sample_headers
     (read_batman_screen (screen_file reading_off_discharging))
     (get_battery_state reading_off_discharging)
     sample_ds_tethering_session /\
   @DS.batman_low_data sample_headers
     (read_batman_screen (screen_file reading_off_discharging))
     (get_battery_state reading_off_discharging) = true /\
   @DS.low_data_expected sample_headers sample_ds_tethering_session = false).
Proof. vm_compute. repeat split. Qed.

(** C4, amended.  The poll handler of the DS file has rules of its own: low
    data is TRUE exactly when the screen file does not read "yes" and the
    battery state is DISCHARGING (tethering is not looked at), charging is
    TRUE exactly when the battery state is CHARGING or FULLY_CHARGED, and
    the short interval is selected exactly when the screen reads "yes" or
    charging is TRUE.  It passes low data and charging through the same
    compare, store, drop and send statement as the update functions.  For a
    reading that describes the same device as the observed objects, the
    charging values are equal, the low-data values are equal exactly when
    the screen is on or (battery DISCHARGING iff tethering and charger are
    both off), and the intervals are equal exactly when the screen is on
    with charger on or battery ok, or the screen is off with the charger
    off. *)
Theorem C4_poll_handler_rules `{ExternalHeaders}
    (reading : BatmanReading) (s : DS.DevMonIo) :
  DS.same_device (read_batman_screen (screen_file reading))
    (get_battery_state reading) s ->
  (* the rules of the handler *)
  (DS.batman_low_data (read_batman_screen (screen_file reading))
     (get_battery_state reading) = true <->
   read_batman_screen (screen_file reading) = 0 /\
   get_battery_state reading = BATMAN_DISCHARGING) /\
  (DS.batman_charging (get_battery_state reading) = true <->
   get_battery_state reading = BATMAN_CHARGING \/
   get_battery_state reading = BATMAN_FULLY_CHARGED) /\
  (DS.batman_interval_class (read_batman_screen (screen_file reading))
     (DS.batman_charging (get_battery_state reading)) = Short <->
   read_batman_screen (screen_file reading) <> 0 \/
   DS.batman_charging (get_battery_state reading) = true) /\
  (* one reporting statement for both paths *)
  DS.handle_batman_inotify_events_ds_body reading s =
    (G_SOURCE_CONTINUE,
     DS.log
       (DS.SetInterval
          (DS.interval_ms s
             (DS.batman_interval_class
                (read_batman_screen (screen_file reading))
                (DS.batman_charging (get_battery_state reading)))))
       (DS.report DS.charging_state_sent
          (DS.batman_charging (get_battery_state reading))
          (DS.report DS.low_data_state_sent
             (DS.batman_low_data (read_batman_screen (screen_file reading))
                (get_battery_state reading)) s))) /\
  (forall k, DS.update k s = DS.report k (DS.computed k s) s) /\
  (* where the two paths agree *)
  DS.batman_charging (get_battery_state reading) =
    DS.computed DS.charging_state_sent s /\
  (DS.batman_low_data (read_batman_screen (screen_file reading))
     (get_battery_state reading) = DS.computed DS.low_data_state_sent s <->
   read_batman_screen (screen_file reading) <> 0 \/
   (get_battery_state reading = BATMAN_DISCHARGING <->
    ~ tethering_signal_on (DS.connman s) /\
    ~ charger_signal_on (DS.charger s))) /\
  (DS.batman_interval_class (read_batman_screen (screen_file reading))
     (DS.batman_charging (get_battery_state reading)) =
   DS.poll_interval_class s <->
   (read_batman_screen (screen_file reading) <> 0 /\
    (charger_signal_on (DS.charger s) \/ battery_signal_ok (DS.battery s))) \/
   (read_batman_screen (screen_file reading) = 0 /\
    ~ charger_signal_on (DS.charger s))).
Proof.
  intros [Hdisplay Hcharger].
  split; [apply batman_low_data_iff|].
  split; [apply batman_charging_iff|].
  split; [apply batman_interval_short_iff|].
  split.
  { rewrite DSFacts.poll_body_report. simpl. do 2 f_equal.
    destruct (DSFacts.report_objects DS.charging_state_sent
                (DS.batman_charging (get_battery_state reading))
                (DS.report DS.low_data_state_sent
                   (DS.batman_low_data
                      (read_batman_screen (screen_file reading))
                      (get_battery_state reading)) s))
      as (_ & _ & _ & _ & Hs1 & Hl1).
    destruct (DSFacts.report_objects DS.low_data_state_sent
                (DS.batman_low_data
                   (read_batman_screen (screen_file reading))
                   (get_battery_state reading)) s)
      as (_ & _ & _ & _ & Hs0 & Hl0).
    unfold DS.interval_ms. rewrite Hs1, Hl1, Hs0, Hl0. done. }
  split; [intros k; apply update_report|].
  split; [exact (eq_sym Hcharger)|].
  unfold DS.computed, DS.low_data_expected, DS.poll_interval_class,
    DS.batman_interval_class, DS.batman_low_data.
  rewrite <- ds_tethering_on_iff, <- ds_charging_iff, <- ds_battery_ok_iff.
  rewrite Hdisplay, Hcharger.
  destruct (Z.eqb_spec (read_batman_screen (screen_file reading)) 0),
    (Z.eqb_spec (get_battery_state reading) BATMAN_DISCHARGING),
    (DS.binder_devmon_ds_tethering_on (DS.connman s)),
    (DS.batman_charging (get_battery_state reading)),
    (DS.binder_devmon_ds_battery_ok (DS.battery s));
    simpl; split; intuition congruence.
Qed.

Lemma C4_poll_handler_rules_witness :
  @DS.same_device sample_headers
    (read_batman_screen (screen_file reading_on_discharging))
    (get_battery_state reading_on_discharging) sample_ds_session /\
  @DS.batman_charging sample_headers
    (get_battery_state reading_on_discharging) =
  @DS.computed sample_headers DS.charging_state_sent sample_ds_session.
Proof.
  assert (@DS.same_device sample_headers
            (read_batman_screen (screen_file reading_on_discharging))
            (get_battery_state reading_on_discharging) sample_ds_session)
    as Hsame by (vm_compute; split; reflexivity).
  split; [exact Hsame|].
  exact (proj1 (proj2 (proj2 (proj2 (proj2 (proj2
    (@C4_poll_handler_rules sample_headers reading_on_discharging
       sample_ds_session Hsame))))))).
Defined.

(** The callbacks assert that the completing request is the
    stored one and then clear the stored request without comparing.  In
    every reachable state a request that is still in the table of the radio
    client, the only kind whose completion is delivered, is the request
    stored for its callback: the assertion holds at every delivered
    completion, and the stored request is cleared by it.  A request that was
    dropped or already completed is not in the table and nothing runs for
    it. *)
Lemma delivered_completions_asserted `{ExternalHeaders}
    (ds : DS.DevMonIo) (ifs : IF.DevMonIo) :
  DS.reachable ds -> IF.reachable ifs ->
  (forall r cb status resp error,
     radio_pending (DS.client ds) !! r = Some cb ->
     DS.complete_GASSERT cb r ds = true /\
     DS.step (DS.request_completed r status resp error) ds =
       DS.complete cb r status resp error
         (DS.set_client (radio_forget r (DS.client ds)) ds) /\
     DS.pending_req cb
       (DS.step (DS.request_completed r status resp error) ds) = None) /\
  (forall r status resp error,
     radio_pending (DS.client ds) !! r = None ->
     DS.step (DS.request_completed r status resp error) ds = ds) /\
  (forall r cb status resp error,
     radio_pending (IF.client ifs) !! r = Some cb ->
     IF.indication_filter_sent_GASSERT r ifs = true /\
     IF.step (IF.request_completed r status resp error) ifs =
       IF.binder_devmon_if_io_indication_filter_sent r status resp error
         (IF.set_client (radio_forget r (IF.client ifs)) ifs) /\
     IF.req (IF.step (IF.request_completed r status resp error) ifs) = None) /\
  (forall r status resp error,
     radio_pending (IF.client ifs) !! r = None ->
     IF.step (IF.request_completed r status resp error) ifs = ifs).
Proof.
  intros Hds Hifs.
  apply DSFacts.reachable_inv in Hds as (Hds & _).
  apply IFFacts.if_reachable_inv in Hifs as (Hifs & _).
  repeat apply conj.
  - intros r cb status resp error Hr.
    pose proof (Hds r cb Hr) as Hp.
    assert (DS.step (DS.request_completed r status resp error) ds =
            DS.complete cb r status resp error
              (DS.set_client (radio_forget r (DS.client ds)) ds)) as Hstep
      by (simpl; by rewrite Hr).
    repeat split; [|done|].
    + destruct cb; simpl in *;
        unfold DS.low_data_state_sent_GASSERT, DS.charging_state_sent_GASSERT;
        by rewrite bool_decide_eq_true_2.
    + rewrite Hstep, DSFacts.complete_pending_req. by rewrite decide_True.
  - intros r status resp error Hr. simpl. by rewrite Hr.
  - intros r [] status resp error Hr.
    pose proof (Hifs r _ Hr) as Hp.
    assert (IF.step (IF.request_completed r status resp error) ifs =
            IF.binder_devmon_if_io_indication_filter_sent r status resp error
              (IF.set_client (radio_forget r (IF.client ifs)) ifs)) as Hstep
      by (simpl; by rewrite Hr).
    repeat split; [|done|].
    + unfold IF.indication_filter_sent_GASSERT.
      by rewrite bool_decide_eq_true_2.
    + rewrite Hstep.
      by destruct (IFFacts.filter_sent_unchanged r status resp error
                     (IF.set_client (radio_forget r (IF.client ifs)) ifs))
        as (-> & _).
  - intros r status resp error Hr. simpl. by rewrite Hr.
Qed.

(** C5.  For every kind: in a reachable state, when a completion arrives for
    a request that is not the one stored for that kind, the stored request,
    the flag and the stored value of that kind are what they were and
    nothing is sent.  When the request is stored for no kind the whole
    structure is what it was.  A request that was superseded has been
    dropped at the radio client, which does not run the callback for it;
    the callbacks themselves only assert that the request is the stored
    one. *)
Theorem C5_stale_completion_ignored `{ExternalHeaders}
    (ds : DS.DevMonIo) (ifs : IF.DevMonIo) (k : DS.Callback)
    (r r' : RadioRequest) (status resp error : Z) :
  DS.reachable ds -> IF.reachable ifs ->
  DS.pending_req k ds <> Some r ->
  IF.req ifs <> Some r' ->
  (DS.pending_req k
     (DS.step (DS.request_completed r status resp error) ds) =
     DS.pending_req k ds /\
   DS.supported k (DS.step (DS.request_completed r status resp error) ds) =
     DS.supported k ds /\
   DS.last_value k (DS.step (DS.request_completed r status resp error) ds) =
     DS.last_value k ds /\
   DS.trace (DS.step (DS.request_completed r status resp error) ds) =
     DS.trace ds) /\
  ((forall k', DS.pending_req k' ds <> Some r) ->
   DS.step (DS.request_completed r status resp error) ds = ds) /\
  IF.step (IF.request_completed r' status resp error) ifs = ifs.
Proof.
  intros Hds Hifs Hstale Hstale'.
  apply DSFacts.reachable_inv in Hds as (Hds & _).
  apply IFFacts.if_reachable_inv in Hifs as (Hifs & _).
  repeat apply conj.
  - simpl. destruct (radio_pending (DS.client ds) !! r) as [cb|] eqn:Hr;
      [|done].
    rewrite DSFacts.complete_pending_req.
    apply Hds in Hr. rewrite decide_False by congruence. by destruct k, ds.
  - simpl. destruct (radio_pending (DS.client ds) !! r) as [cb|] eqn:Hr;
      [|done].
    apply Hds in Hr.
    rewrite DSFacts.complete_supported_other by congruence.
    by destruct k, ds.
  - simpl. destruct (radio_pending (DS.client ds) !! r) as [cb|] eqn:Hr;
      [|done].
    destruct (DSFacts.complete_unchanged cb r status resp error
                (DS.set_client (radio_forget r (DS.client ds)) ds))
      as (_ & _ & -> & _).
    by destruct k, ds.
  - simpl. destruct (radio_pending (DS.client ds) !! r) as [cb|] eqn:Hr;
      [|done].
    destruct (DSFacts.complete_unchanged cb r status resp error
                (DS.set_client (radio_forget r (DS.client ds)) ds))
      as (-> & _).
    by destruct ds.
  - intros Hall. simpl.
    destruct (radio_pending (DS.client ds) !! r) as [cb|] eqn:Hr; [|done].
    apply Hds in Hr. by destruct (Hall cb).
  - simpl. destruct (radio_pending (IF.client ifs) !! r') as [cb|] eqn:Hr;
      [|done].
    apply Hifs in Hr. done.
Qed.

Lemma C5_stale_completion_ignored_witness :
  @DS.reachable sample_headers sample_ds_docked_session /\
  @IF.reachable sample_headers sample_if_session /\
  DS.pending_req DS.low_data_state_sent sample_ds_docked_session <>
    Some 0%nat /\
  IF.req sample_if_session <> Some 3%nat /\
  DS.pending_req DS.charging_state_sent sample_ds_docked_session =
    Some 0%nat /\
  DS.supported DS.low_data_state_sent
    (@DS.step sample_headers (DS.request_completed 0%nat 0 127 6)
       sample_ds_docked_session) =
  DS.supported DS.low_data_state_sent sample_ds_docked_session /\
  @IF.step sample_headers (IF.request_completed 3%nat 0 127 6)
    sample_if_session = sample_if_session.
Proof.
  assert (@DS.reachable sample_headers sample_ds_docked_session) as Hds.
  { unfold sample_ds_docked_session. apply DS.reachable_start. reflexivity. }
  assert (@IF.reachable sample_headers sample_if_session) as Hifs.
  { unfold sample_if_session. apply IF.reachable_start. reflexivity. }
  assert (DS.pending_req DS.low_data_state_sent sample_ds_docked_session <>
          Some 0%nat) as Hstale by (vm_compute; discriminate).
  assert (IF.req sample_if_session <> Some 3%nat) as Hstale'
    by (vm_compute; congruence).
  destruct (@C5_stale_completion_ignored sample_headers
              sample_ds_docked_session sample_if_session
              DS.low_data_state_sent 0%nat 3%nat 0 127 6
              Hds Hifs Hstale Hstale')
    as ((_ & Hsup & _) & _ & Hif).
  split; [exact Hds|]. split; [exact Hifs|]. split; [exact Hstale|].
  split; [exact Hstale'|]. split; [reflexivity|].
  split; [exact Hsup|exact Hif].
Defined.

(** C6, as stated, fails.  A DS session that starts with the display on and
    the charger off, and whose poll handler is not installed, sends neither
    the low-data value nor the charging value: both computed values are
    FALSE, the value the fields hold after g_new0, and the only call made is
    the one that sets the interval. *)
Lemma C6_counterexample :
  @DS.computed sample_headers DS.low_data_state_sent
    (DS.new_io sample_ds_awake sample_radio) = false /\
  @DS.computed sample_headers DS.charging_state_sent
    (DS.new_io sample_ds_awake sample_radio) = false /\
  DS.trace sample_ds_session = [DS.SetInterval 30000] /\
  DS.count_sends DS.low_data_state_sent (DS.trace sample_ds_session) = 0%nat /\
  DS.count_sends DS.charging_state_sent (DS.trace sample_ds_session) = 0%nat.
Proof. vm_compute. repeat split. Qed.

Lemma ds_start_decisions_trace `{ExternalHeaders} ds radio :
  DS.trace
    (DS.binder_devmon_ds_io_set_cell_info_update_interval
       (DS.binder_devmon_ds_io_update_charging
          (DS.binder_devmon_ds_io_update_low_data (DS.new_io ds radio)))) =
  DS.SetInterval
    (DS.interval_ms (DS.new_io ds radio)
       (DS.poll_interval_class (DS.new_io ds radio)))
  :: (if DS.binder_devmon_ds_charging (DS.ds_charger ds)
      then [DS.Send RADIO_DEVICE_STATE_CHARGING_STATE true
              DS.charging_state_sent
              (if DS.low_data_expected (DS.new_io ds radio)
               then S (radio_next radio) else radio_next radio)
              (radio_submit_ok radio
                 (if DS.low_data_expected (DS.new_io ds radio)
                  then S (radio_next radio) else radio_next radio));
            DS.Drop DS.charging_state_sent None]
      else [])
  ++ (if DS.low_data_expected (DS.new_io ds radio)
      then [DS.Send RADIO_DEVICE_STATE_LOW_DATA_EXPECTED true
              DS.low_data_state_sent (radio_next radio)
              (radio_submit_ok radio (radio_next radio));
            DS.Drop DS.low_data_state_sent None]
      else []).
Proof.
  unfold DS.binder_devmon_ds_io_set_cell_info_update_interval.
  rewrite DSFacts.update_charging_report, DSFacts.update_low_data_report.
  set (s0 := DS.new_io ds radio).
  set (low := DS.low_data_expected s0).
  set (s1 := DS.report DS.low_data_state_sent low s0).
  assert (DS.charger s1 = DS.ds_charger ds) as ->.
  { destruct (DSFacts.report_objects DS.low_data_state_sent low s0)
      as (_ & _ & Hc & _). exact Hc. }
  set (chg := DS.binder_devmon_ds_charging (DS.ds_charger ds)).
  set (s2 := DS.report DS.charging_state_sent chg s1).
  assert (DS.interval_ms s2 (DS.poll_interval_class s2) =
          DS.interval_ms s0 (DS.poll_interval_class s0)) as Hms.
  { destruct (DSFacts.report_objects DS.charging_state_sent chg s1)
      as (_ & Hb2 & Hc2 & Hd2 & Hs2 & Hl2).
    destruct (DSFacts.report_objects DS.low_data_state_sent low s0)
      as (_ & Hb1 & Hc1 & Hd1 & Hs1 & Hl1).
    unfold DS.interval_ms, DS.poll_interval_class. fold s1 in Hb2, Hc2, Hd2,
      Hs2, Hl2. fold s2 in Hb2, Hc2, Hd2, Hs2, Hl2.
    fold s1 in Hb1, Hc1, Hd1, Hs1, Hl1.
    by rewrite Hb2, Hc2, Hd2, Hs2, Hl2, Hb1, Hc1, Hd1, Hs1, Hl1. }
  change (DS.trace (DS.log (DS.SetInterval
            (DS.interval_ms s2 (DS.poll_interval_class s2))) s2))
    with (DS.SetInterval (DS.interval_ms s2 (DS.poll_interval_class s2))
          :: DS.trace s2).
  rewrite Hms. f_equal. clear Hms. subst s2 s1. clearbody low chg.
  rewrite DSFacts.report_trace.
  rewrite (DSFacts.report_last_value DS.low_data_state_sent low s0
             DS.charging_state_sent).
  rewrite (DSFacts.report_supported DS.low_data_state_sent low s0
             DS.charging_state_sent).
  rewrite (DSFacts.report_pending_req DS.low_data_state_sent low s0
             DS.charging_state_sent).
  rewrite DSFacts.report_radio_submit_ok, DSFacts.report_radio_next.
  rewrite DSFacts.report_trace.
  subst s0. simpl. destruct low, chg; simpl; done.
Qed.

(** C7, as stated, fails for the two kinds of the DS file.  A completion
    with status OK and a response code other than the sendDeviceState one
    (128 against 127 here), which is no REQUEST_NOT_SUPPORTED outcome,
    clears the flag of its kind. *)
Lemma C7_counterexample :
  DS.low_data_supported sample_ds_session = true /\
  DS.low_data_supported
    (@DS.binder_devmon_ds_io_low_data_state_sent sample_headers 0%nat 0 128 0
       sample_ds_session) = false /\
  DS.charging_supported sample_ds_session = true /\
  DS.charging_supported
    (@DS.binder_devmon_ds_io_charging_state_sent sample_headers 0%nat 0 128 0
       sample_ds_session) = false.
Proof. vm_compute. repeat split. Qed.

(** C7, amended.  A completion of the DS file whose status is not OK, or
    whose response code is the sendDeviceState one with an error other than
    REQUEST_NOT_SUPPORTED, and a completion of the IF file that is anything
    but status OK with the setIndicationFilter response code and
    REQUEST_NOT_SUPPORTED (an unexpected response code included), leaves
    every flag, the stored values and the observed objects as they were and
    clears the stored request.  If the kind was supported, the next update
    that computes a value different from the stored one sends it.  (An
    unexpected response code with status OK clears the flag of a DS kind.) *)
Theorem C7_other_outcomes `{ExternalHeaders}
    (ds : DS.DevMonIo) (k : DS.Callback) (req : RadioRequest)
    (status resp error : Z)
    (ifs : IF.DevMonIo) (req' : RadioRequest) (status' resp' error' : Z) :
  (status <> RADIO_TX_STATUS_OK \/
   (resp = RADIO_RESP_SEND_DEVICE_STATE /\
    error <> RADIO_ERROR_REQUEST_NOT_SUPPORTED)) ->
  (status' <> RADIO_TX_STATUS_OK \/
   resp' <> RADIO_RESP_SET_INDICATION_FILTER \/
   error' <> RADIO_ERROR_REQUEST_NOT_SUPPORTED) ->
  (* DS *)
  (forall k', DS.supported k' (DS.complete k req status resp error ds) =
              DS.supported k' ds) /\
  (forall k', DS.last_value k' (DS.complete k req status resp error ds) =
              DS.last_value k' ds) /\
  (forall k', DS.computed k' (DS.complete k req status resp error ds) =
              DS.computed k' ds) /\
  DS.pending_req k (DS.complete k req status resp error ds) = None /\
  DS.trace (DS.complete k req status resp error ds) = DS.trace ds /\
  (DS.supported k ds = true ->
   DS.computed k ds <> DS.last_value k ds ->
   DS.trace (DS.update k (DS.complete k req status resp error ds)) =
   DS.Send (DS.device_state_type k) (DS.computed k ds) k
     (radio_next (DS.client ds))
     (radio_submit_ok (DS.client ds) (radio_next (DS.client ds)))
   :: DS.Drop k None :: DS.trace ds) /\
  (* IF *)
  IF.ind_filter_supported
    (IF.binder_devmon_if_io_indication_filter_sent req' status' resp' error'
       ifs) = IF.ind_filter_supported ifs /\
  IF.display_on
    (IF.binder_devmon_if_io_indication_filter_sent req' status' resp' error'
       ifs) = IF.display_on ifs /\
  IF.req
    (IF.binder_devmon_if_io_indication_filter_sent req' status' resp' error'
       ifs) = None /\
  (IF.ind_filter_supported ifs = true ->
   IF.trace
     (IF.binder_devmon_if_io_set_indication_filter
        (IF.binder_devmon_if_io_indication_filter_sent req' status' resp'
           error' ifs)) =
   IF.Send (fst (IF.indication_filter_request ifs))
     (snd (IF.indication_filter_request ifs))
     (radio_next (IF.client ifs))
     (radio_submit_ok (IF.client ifs) (radio_next (IF.client ifs)))
   :: IF.Drop None :: IF.trace ifs).
Proof.
  intros Hds Hif.
  assert (DS.complete k req status resp error ds =
          DS.set_pending_req k None ds) as ->.
  { unfold DS.complete, DS.binder_devmon_ds_io_low_data_state_sent,
      DS.binder_devmon_ds_io_charging_state_sent.
    destruct (Z.eqb_spec status RADIO_TX_STATUS_OK),
      (Z.eqb_spec resp RADIO_RESP_SEND_DEVICE_STATE),
      (Z.eqb_spec error RADIO_ERROR_REQUEST_NOT_SUPPORTED);
      try (exfalso; intuition congruence); by destruct k. }
  assert (IF.binder_devmon_if_io_indication_filter_sent req' status' resp'
            error' ifs = IF.set_req None ifs) as ->.
  { unfold IF.binder_devmon_if_io_indication_filter_sent.
    destruct (Z.eqb_spec status' RADIO_TX_STATUS_OK),
      (Z.eqb_spec resp' RADIO_RESP_SET_INDICATION_FILTER),
      (Z.eqb_spec error' RADIO_ERROR_REQUEST_NOT_SUPPORTED);
      try (exfalso; intuition congruence); done. }
  repeat apply conj.
  - intros k'. by destruct k, k', ds.
  - intros k'. by destruct k, k', ds.
  - intros k'. by destruct k, k', ds.
  - by destruct k, ds.
  - by destruct k, ds.
  - intros Hs Hne. rewrite update_report, DSFacts.report_trace.
    replace (DS.computed k (DS.set_pending_req k None ds))
      with (DS.computed k ds) by by destruct k, ds.
    replace (DS.last_value k (DS.set_pending_req k None ds))
      with (DS.last_value k ds) by by destruct k, ds.
    replace (DS.supported k (DS.set_pending_req k None ds))
      with (DS.supported k ds) by by destruct k, ds.
    replace (DS.pending_req k (DS.set_pending_req k None ds))
      with (@None RadioRequest) by by destruct k, ds.
    replace (DS.client (DS.set_pending_req k None ds))
      with (DS.client ds) by by destruct k, ds.
    replace (DS.trace (DS.set_pending_req k None ds))
      with (DS.trace ds) by by destruct k, ds.
    rewrite Hs, andb_true_r.
    destruct (eqb (DS.last_value k ds) (DS.computed k ds)) eqn:Heq; [|done].
    apply eqb_prop in Heq. congruence.
  - by destruct ifs.
  - by destruct ifs.
  - by destruct ifs.
  - intros Hs. rewrite IFFacts.filter_trace.
    destruct ifs; simpl in *. by rewrite Hs.
Qed.

Lemma C7_other_outcomes_witness :
  (1 <> @RADIO_TX_STATUS_OK sample_headers \/
   (0 = @RADIO_RESP_SEND_DEVICE_STATE sample_headers /\
    0 <> @RADIO_ERROR_REQUEST_NOT_SUPPORTED sample_headers)) /\
  (0 <> @RADIO_TX_STATUS_OK sample_headers \/
   127 <> @RADIO_RESP_SET_INDICATION_FILTER sample_headers \/
   0 <> @RADIO_ERROR_REQUEST_NOT_SUPPORTED sample_headers) /\
  DS.supported DS.charging_state_sent
    (@DS.complete sample_headers DS.charging_state_sent 0%nat 1 0 0
       sample_ds_docked_session) = true /\
  IF.ind_filter_supported
    (@IF.binder_devmon_if_io_indication_filter_sent sample_headers 0%nat
       0 127 0 sample_if_session) = true.
Proof.
  assert (1 <> @RADIO_TX_STATUS_OK sample_headers \/
          (0 = @RADIO_RESP_SEND_DEVICE_STATE sample_headers /\
           0 <> @RADIO_ERROR_REQUEST_NOT_SUPPORTED sample_headers)) as Hds
    by (left; simpl; lia).
  assert (0 <> @RADIO_TX_STATUS_OK sample_headers \/
          127 <> @RADIO_RESP_SET_INDICATION_FILTER sample_headers \/
          0 <> @RADIO_ERROR_REQUEST_NOT_SUPPORTED sample_headers) as Hif
    by (right; left; simpl; lia).
  split; [exact Hds|]. split; [exact Hif|].
  destruct (@C7_other_outcomes sample_headers sample_ds_docked_session
              DS.charging_state_sent 0%nat 1 0 0
              sample_if_session 0%nat 0 127 0 Hds Hif)
    as (Hsup & _ & _ & _ & _ & _ & Hifsup & _).
  split.
  - rewrite Hsup. reflexivity.
  - rewrite Hifsup. reflexivity.
Defined.

(** ** Shapes of a single update *)

Lemma update_shape `{ExternalHeaders} k s :
  (DS.trace (DS.update k s) = DS.trace s /\
   DS.pending_req k (DS.update k s) = DS.pending_req k s) \/
  exists v r submitted,
    DS.trace (DS.update k s) =
      DS.Send (DS.device_state_type k) v k r submitted
      :: DS.Drop k (DS.pending_req k s) :: DS.trace s /\
    DS.pending_req k (DS.update k s) =
      (if submitted then Some r else None) /\
    v = DS.computed k s /\ v <> DS.last_value k s /\
    DS.supported k s = true.
Proof.
  rewrite update_report, DSFacts.report_trace, DSFacts.report_pending_req.
  destruct (eqb (DS.last_value k s) (DS.computed k s)) eqn:Heq;
    [by left|].
  destruct (DS.supported k s) eqn:Hs; [|by left].
  right. eexists _, _, _. simpl. rewrite bool_decide_eq_true_2 by done.
  repeat split; try done.
  intros Hv. rewrite <- Hv, eqb_reflx in Heq. done.
Qed.

(** C8.  In every reachable state of either monitor: a request in the table
    of the radio client is the request stored in the field of its callback,
    so the table holds at most one request per kind; every send in the
    trace is directly preceded by the drop of the request field of its
    kind; and a stored request is the one created by the newest send of its
    kind.  A single update either sends nothing and leaves the field alone,
    or drops the request that the field holds, then sends, and stores the
    new request (the DS file stores NULL when the submission fails). *)
Theorem C8_one_in_flight `{ExternalHeaders}
    (ds : DS.DevMonIo) (ifs : IF.DevMonIo) :
  DS.reachable ds -> IF.reachable ifs ->
  (* DS *)
  (forall r cb, radio_pending (DS.client ds) !! r = Some cb ->
                DS.pending_req cb ds = Some r) /\
  (forall r1 r2 cb, radio_pending (DS.client ds) !! r1 = Some cb ->
                    radio_pending (DS.client ds) !! r2 = Some cb ->
                    r1 = r2) /\
  DS.drop_before_send (DS.trace ds) = true /\
  (forall k r, DS.pending_req k ds = Some r ->
               DS.last_sent_request k (DS.trace ds) = Some r) /\
  (forall k,
     (DS.trace (DS.update k ds) = DS.trace ds /\
      DS.pending_req k (DS.update k ds) = DS.pending_req k ds) \/
     exists v r submitted,
       DS.trace (DS.update k ds) =
         DS.Send (DS.device_state_type k) v k r submitted
         :: DS.Drop k (DS.pending_req k ds) :: DS.trace ds /\
       DS.pending_req k (DS.update k ds) =
         (if submitted then Some r else None)) /\
  (* IF *)
  (forall r cb, radio_pending (IF.client ifs) !! r = Some cb ->
                IF.req ifs = Some r) /\
  (forall r1 r2 cb1 cb2, radio_pending (IF.client ifs) !! r1 = Some cb1 ->
                         radio_pending (IF.client ifs) !! r2 = Some cb2 ->
                         r1 = r2) /\
  IF.drop_before_send (IF.trace ifs) = true /\
  (forall r, IF.req ifs = Some r ->
             IF.last_sent_request (IF.trace ifs) = Some r) /\
  ((IF.ind_filter_supported ifs = false /\
    IF.binder_devmon_if_io_set_indication_filter ifs = ifs) \/
   exists code value r submitted,
     IF.trace (IF.binder_devmon_if_io_set_indication_filter ifs) =
       IF.Send code value r submitted :: IF.Drop (IF.req ifs)
       :: IF.trace ifs /\
     IF.req (IF.binder_devmon_if_io_set_indication_filter ifs) = Some r).
Proof.
  intros Hds Hifs.
  apply DSFacts.reachable_inv in Hds as (Ht & Hf & _ & Hd & _).
  apply IFFacts.if_reachable_inv in Hifs as (Ht' & Hf' & _ & Hd').
  repeat apply conj; try done.
  - intros r1 r2 cb H1 H2. apply Ht in H1, H2. congruence.
  - intros k. destruct (update_shape k ds)
      as [Hsame | (v & r & submitted & Htr & Hp & _)]; [by left|].
    right. by exists v, r, submitted.
  - intros r1 r2 cb1 cb2 H1 H2. apply Ht' in H1, H2. congruence.
  - destruct (IF.ind_filter_supported ifs) eqn:Hs.
    + right. eexists _, _, _, _.
      by rewrite IFFacts.filter_trace, IFFacts.filter_req, Hs.
    + left. split; [done|].
      unfold IF.binder_devmon_if_io_set_indication_filter. by rewrite Hs.
Qed.

Lemma C8_one_in_flight_witness :
  @DS.reachable sample_headers sample_ds_docked_session /\
  @IF.reachable sample_headers sample_if_session /\
  DS.drop_before_send (DS.trace sample_ds_docked_session) = true /\
  IF.drop_before_send (IF.trace sample_if_session) = true.
Proof.
  assert (@DS.reachable sample_headers sample_ds_docked_session) as Hds.
  { unfold sample_ds_docked_session. apply DS.reachable_start. reflexivity. }
  assert (@IF.reachable sample_headers sample_if_session) as Hifs.
  { unfold sample_if_session. apply IF.reachable_start. reflexivity. }
  destruct (@C8_one_in_flight sample_headers sample_ds_docked_session
              sample_if_session Hds Hifs)
    as (_ & _ & Hd & _ & _ & _ & _ & Hd' & _).
  split; [exact Hds|]. split; [exact Hifs|]. split; [exact Hd|exact Hd'].
Defined.

(** ** The edge filter over whole runs *)

Lemma edge_kept `{ExternalHeaders} :
  DS.kept_by_handlers (fun s =>
    DS.value_is_newest_sent s /\
    forall k, DS.alternating (DS.sent_values k (DS.trace s)) = true).
Proof.
  split; try (by intros [] v Hi; exact Hi).
  intros s k v [Hv Ha]. split.
  - by apply DSFacts.value_is_newest_sent_report.
  - intros k'. by apply DSFacts.alternating_report.
Qed.

Lemma edge_completion `{ExternalHeaders} :
  DS.kept_by_completion (fun s =>
    DS.value_is_newest_sent s /\
    forall k, DS.alternating (DS.sent_values k (DS.trace s)) = true).
Proof.
  intros s r cb status resp error _ [Hv Ha].
  set (s0 := DS.set_client (radio_forget r (DS.client s)) s).
  destruct (DSFacts.complete_unchanged cb r status resp error s0)
    as (Htr & _ & Hlv & _).
  assert (DS.trace s0 = DS.trace s) as Htr0 by by destruct s.
  split.
  - intros k Hs. apply DSFacts.complete_supported_mono in Hs.
    rewrite Hlv, Htr, Htr0.
    replace (DS.last_value k s0) with (DS.last_value k s) by by destruct k, s.
    apply Hv. by destruct k, s.
  - intros k. by rewrite Htr, Htr0.
Qed.

Lemma computed_report `{ExternalHeaders} k v s k' :
  DS.computed k' (DS.report k v s) = DS.computed k' s.
Proof.
  destruct (DSFacts.report_objects k v s) as (Hc & _ & Hch & Hd & _).
  destruct k'; unfold DS.computed, DS.low_data_expected;
    by rewrite ?Hc, ?Hch, ?Hd.
Qed.

(** C9.  Over any sequence of events after any session start, no two
    consecutive sends of the same kind carry the same value.  A single
    update sends only when the value it computes differs from the stored
    one, does nothing at all when they are equal, and a second update over
    unchanged objects does nothing.  The interval of the DS file is set on
    every call, whether or not it changed. *)
Theorem C9_edge_triggered `{ExternalHeaders} :
  (forall ds radio setup events k,
     DS.alternating
       (DS.sent_values k
          (DS.trace (DS.run events
                       (DS.binder_devmon_ds_start_io ds radio setup)))) =
     true) /\
  (forall k s,
     DS.count_sends k (DS.trace (DS.update k s)) <>
       DS.count_sends k (DS.trace s) ->
     DS.computed k s <> DS.last_value k s) /\
  (forall k s, DS.computed k s = DS.last_value k s -> DS.update k s = s) /\
  (forall k s, DS.update k (DS.update k s) = DS.update k s) /\
  (forall s,
     DS.trace (DS.binder_devmon_ds_io_set_cell_info_update_interval s) =
     DS.SetInterval (DS.interval_ms s (DS.poll_interval_class s))
     :: DS.trace s) /\
  (forall s,
     DS.trace (DS.binder_devmon_ds_io_set_cell_info_update_interval
                 (DS.binder_devmon_ds_io_set_cell_info_update_interval s)) =
     DS.SetInterval (DS.interval_ms s (DS.poll_interval_class s))
     :: DS.SetInterval (DS.interval_ms s (DS.poll_interval_class s))
     :: DS.trace s).
Proof.
  repeat apply conj.
  - intros ds radio setup events k.
    apply (DSFacts.kept_run _ edge_kept edge_completion events).
    apply (DSFacts.kept_start _ edge_kept).
    split; intros []; simpl; done.
  - intros k s Hcount Heq. apply Hcount.
    rewrite update_report, DSFacts.report_same; done.
  - intros k s Heq. rewrite update_report. by apply DSFacts.report_same.
  - intros k s. rewrite !update_report.
    rewrite computed_report. apply DSFacts.report_idempotent.
  - done.
  - intros s. by destruct s.
Qed.

(** ** The screen file *)




Lemma C9_edge_triggered_witness :
  DS.alternating
    (DS.sent_values DS.charging_state_sent
       (DS.trace
          (@DS.run sample_headers
             [DS.charger_changed
                {| MceCharger.valid := true; MceCharger.state := 1 |};
              DS.battery_changed
                {| MceBattery.valid := true; MceBattery.status := 4 |};
              DS.charger_changed
                {| MceCharger.valid := true; MceCharger.state := 1 |};
              DS.charger_changed
                {| MceCharger.valid := false; MceCharger.state := 1 |}]
             (@DS.binder_devmon_ds_start_io sample_headers sample_ds_awake
                sample_radio no_watch)))) = true.
Proof.
  exact (proj1 (@C9_edge_triggered sample_headers) sample_ds_awake
           sample_radio no_watch _ DS.charging_state_sent).
Defined.

(** * Further properties of binder_devmon_ds.c *)

Module DSMore.
Import DS DSLife.
Section Facts.
Context `{ExternalHeaders}.

Lemma report_batman_fields k v s :
  batman_inotify_fd (report k v s) = batman_inotify_fd s /\
  batman_screen_wd (report k v s) = batman_screen_wd s /\
  batman_watch_source (report k v s) = batman_watch_source s /\
  radio_client_interface (client (report k v s)) =
    radio_client_interface (client s).
Proof.
  unfold report, binder_devmon_ds_io_send_device_state, drop_request,
    radio_request_submit, radio_request_new, radio_request_drop.
  destruct k, s; simpl;
    repeat (case_match; simpl in *; simplify_eq; simpl); done.
Qed.

Lemma complete_fields cb r status resp error s :
  let s' := complete cb r status resp error s in
  batman_inotify_fd s' = batman_inotify_fd s /\
  batman_screen_wd s' = batman_screen_wd s /\
  batman_watch_source s' = batman_watch_source s /\
  cell_info_interval_short_ms s' = cell_info_interval_short_ms s /\
  cell_info_interval_long_ms s' = cell_info_interval_long_ms s /\
  battery s' = battery s.
Proof.
  unfold complete, binder_devmon_ds_io_low_data_state_sent,
    binder_devmon_ds_io_charging_state_sent.
  destruct cb, s; simpl; repeat (case_match; simpl); done.
Qed.

(** ** Events and the session start, statement by statement *)

Section Events.
Variable P : DevMonIo -> Prop.
Hypothesis kept : kept_by_events P.

Lemma ev_poll_body reading s :
  P s -> P (snd (handle_batman_inotify_events_ds_body reading s)).
Proof.
  intros Hs. rewrite DSFacts.poll_body_report. simpl.
  apply ev_interval; [done|]. by do 2 (apply ev_report; [done|]).
Qed.

Lemma ev_poll channel reading s :
  P s -> P (snd (handle_batman_inotify_events_ds channel reading s)).
Proof.
  intros Hs. unfold handle_batman_inotify_events_ds.
  pose proof (ev_source_cleared P kept) as Hsource.
  pose proof ev_poll_body as Hbody.
  repeat case_match; first [by apply Hbody | by apply Hsource | done].
Qed.

Lemma ev_step e s : P s -> P (step e s).
Proof.
  intros Hs. destruct e as [c|b|c|d|r status resp error|ch reading];
    unfold step, binder_devmon_ds_io_connman_cb,
      binder_devmon_ds_io_battery_cb, binder_devmon_ds_io_charger_cb,
      binder_devmon_ds_io_display_cb,
      binder_devmon_ds_io_set_cell_info_update_interval;
    rewrite ?DSFacts.update_charging_report, ?DSFacts.update_low_data_report.
  - apply ev_report; [done|]. by apply ev_connman.
  - apply ev_interval; [done|]. by apply ev_battery.
  - apply ev_interval; [done|].
    do 2 (apply ev_report; [done|]). by apply ev_charger.
  - apply ev_interval; [done|].
    apply ev_report; [done|]. by apply ev_display.
  - destruct (radio_pending (client s) !! r) as [cb|] eqn:Hr; [|done].
    by apply (ev_complete P kept).
  - case_match; [done|]. by apply ev_poll.
Qed.

Lemma ev_run events s : P s -> P (run events s).
Proof.
  revert s. induction events as [|e events IH]; intros s Hs; simpl; [done|].
  apply IH. by apply ev_step.
Qed.

Lemma ev_started ds radio : P (new_io ds radio) -> P (started ds radio).
Proof.
  intros H0. unfold started,
    binder_devmon_ds_io_set_cell_info_update_interval.
  rewrite DSFacts.update_charging_report, DSFacts.update_low_data_report.
  apply ev_interval; [done|]. by do 2 (apply ev_report; [done|]).
Qed.

End Events.

(** The three ways in which init_batman_watch ends. *)
Lemma start_io_cases ds radio setup :
  binder_devmon_ds_start_io ds radio setup =
  if inotify_init_result setup <? 0
  then set_batman_inotify_fd (inotify_init_result setup) (started ds radio)
  else if inotify_add_watch_result setup <? 0
  then set_batman_inotify_fd (-1)
         (set_batman_screen_wd (inotify_add_watch_result setup)
            (set_batman_inotify_fd (inotify_init_result setup)
               (started ds radio)))
  else snd (handle_batman_inotify_events_ds_body (first_reading setup)
              (set_batman_watch_source (g_io_add_watch_result setup)
                 (set_batman_screen_wd (inotify_add_watch_result setup)
                    (set_batman_inotify_fd (inotify_init_result setup)
                       (started ds radio))))).
Proof.
  unfold binder_devmon_ds_start_io, binder_devmon_ds_io_init_batman_watch.
  fold (started ds radio). generalize (started ds radio). intros s.
  destruct s; simpl. repeat case_match; done.
Qed.

Lemma ev_start (P : DevMonIo -> Prop) ds radio setup :
  kept_by_events P ->
  (forall s v, P s -> P (set_batman_inotify_fd v s)) ->
  (forall s v, P s -> P (set_batman_screen_wd v s)) ->
  (forall s v, P s -> P (set_batman_watch_source v s)) ->
  P (new_io ds radio) -> P (binder_devmon_ds_start_io ds radio setup).
Proof.
  intros kept Hfd Hwd Hsource H0. rewrite start_io_cases.
  pose proof (ev_started P kept ds radio H0) as Hs.
  repeat case_match.
  - by apply Hfd.
  - by apply Hfd, Hwd, Hfd.
  - apply ev_poll_body; [done|]. by apply Hsource, Hwd, Hfd.
Qed.

(** ** Only the configured intervals reach the slot *)

Lemma configured_kept (short long : Z) :
  kept_by_events (fun s =>
    cell_info_interval_short_ms s = short /\
    cell_info_interval_long_ms s = long /\
    forall ms, In (SetInterval ms) (trace s) -> ms = short \/ ms = long).
Proof.
  split; try (by intros [] v Hi; exact Hi); try (by intros [] Hi; exact Hi).
  - intros s c (Hs & Hl & Ht). repeat split; try by destruct s.
    intros ms. replace (trace (log (SetInterval (interval_ms s c)) s))
      with (SetInterval (interval_ms s c) :: trace s) by by destruct s.
    intros [[= <-]|Hin]; [|by auto].
    destruct c; simpl; auto.
  - intros s k v (Hs & Hl & Ht).
    destruct (DSFacts.report_objects k v s) as (_ & _ & _ & _ & -> & ->).
    repeat split; try done.
    intros ms. rewrite DSFacts.report_trace.
    intros [Hin|Hin]%in_app_or; [|by auto].
    destruct (negb _ && _); simpl in Hin; [|done].
    by destruct Hin as [|[|]].
  - intros s r cb status resp error _ (Hs & Hl & Ht).
    set (s0 := set_client (radio_forget r (client s)) s).
    destruct (complete_fields cb r status resp error s0)
      as (_ & _ & _ & -> & -> & _).
    destruct (DSFacts.complete_unchanged cb r status resp error s0)
      as (-> & _).
    by destruct s.
Qed.

(** X1.  Whatever the objects, the radio client, the watch setup and the
    events,
    an interval handed to the slot is one of the two of the slot
    configuration given to binder_devmon_ds_new. *)
Theorem ds_interval_is_configured
    config connman0 battery0 charger0 display0 radio setup events ms :
  In (SetInterval ms)
    (trace (run events
              (binder_devmon_ds_start_io
                 (binder_devmon_ds_new config connman0 battery0 charger0
                    display0) radio setup))) ->
  ms = BinderSlotConfig.cell_info_interval_short_ms config \/
  ms = BinderSlotConfig.cell_info_interval_long_ms config.
Proof.
  intros Hin.
  pose proof (configured_kept
    (BinderSlotConfig.cell_info_interval_short_ms config)
    (BinderSlotConfig.cell_info_interval_long_ms config)) as Hkept.
  refine (proj2 (proj2 (ev_run _ Hkept events _ _)) ms Hin).
  apply ev_start; try done; try (by intros [] v Hi; exact Hi).
Qed.

(** ** The request fields mirror the table of the radio client *)

Lemma fields_in_table_kept : DS.kept_by_handlers fields_in_table.
Proof.
  split; try (by intros [] v Hi; exact Hi).
  intros s k v [HA HB]. split.
  - intros k' r. rewrite DSFacts.report_pending_req,
      DSFacts.report_radio_pending.
    destruct (negb _ && _); simpl; [|by auto].
    case_bool_decide as Hk.
    + subst k'. destruct (radio_submit_ok _ _); [|done].
      intros [= <-]. by rewrite lookup_insert_eq.
    + intros Hp. pose proof (HA _ _ Hp) as Ht. pose proof (HB _ _ Ht) as Hlt.
      assert (after_drop k s !! r = Some k') as Hd.
      { unfold after_drop. destruct (pending_req k s) as [r0|] eqn:Hp0;
          [|done].
        rewrite lookup_delete_ne; [done|].
        intros ->. apply HA in Hp0. congruence. }
      destruct (radio_submit_ok _ _); [|done].
      rewrite lookup_insert_ne; [done|lia].
  - intros r cb. rewrite DSFacts.report_radio_pending,
      DSFacts.report_radio_next.
    assert (forall r' cb', after_drop k s !! r' = Some cb' ->
                           (r' < radio_next (client s))%nat) as Hd.
    { intros r' cb'. unfold after_drop.
      destruct (pending_req k s); [|by apply HB].
      intros [_ Hl]%lookup_delete_Some. by apply HB in Hl. }
    destruct (negb _ && _); simpl; [|by apply HB].
    destruct (radio_submit_ok _ _).
    + intros [[<- _]|[_ Hl]]%lookup_insert_Some; [lia|].
      apply Hd in Hl. lia.
    + intros Hl. apply Hd in Hl. lia.
Qed.

Lemma fields_in_table_completion : DS.kept_by_completion fields_in_table.
Proof.
  intros s r cb status resp error Hr [HA HB].
  set (s0 := set_client (radio_forget r (client s)) s).
  destruct (DSFacts.complete_unchanged cb r status resp error s0)
    as (_ & Hcl & _).
  assert (radio_pending (client s0) = delete r (radio_pending (client s)))
    as Hp0 by by destruct s.
  assert (radio_next (client s0) = radio_next (client s)) as Hn0
    by by destruct s.
  split.
  - intros k r'. rewrite DSFacts.complete_pending_req, Hcl, Hp0.
    case_decide as Hk; [done|].
    replace (pending_req k s0) with (pending_req k s) by by destruct k, s.
    intros Hp. apply HA in Hp.
    rewrite lookup_delete_ne; [done|]. intros ->. congruence.
  - intros r' cb'. rewrite Hcl, Hp0, Hn0.
    intros [_ Hl]%lookup_delete_Some. by apply HB in Hl.
Qed.

Lemma reachable_fields_in_table s : reachable s -> fields_in_table s.
Proof.
  induction 1 as [ds radio setup Hempty|e s _ IH].
  - apply (DSFacts.kept_start _ fields_in_table_kept).
    split; [by intros []|].
    intros r cb. simpl. by rewrite Hempty, lookup_empty.
  - by apply (DSFacts.kept_step _ fields_in_table_kept
                fields_in_table_completion).
Qed.

(** X2.  In every reachable state a request is stored in the field of a kind
    exactly when it is in the table of the radio client under the callback
    of that kind: the DS file never keeps a request that the client has
    not accepted, has completed or has been told to drop. *)
Theorem ds_fields_mirror_table s k r :
  reachable s ->
  pending_req k s = Some r <-> radio_pending (client s) !! r = Some k.
Proof.
  intros Hreach. split.
  - by apply (reachable_fields_in_table s Hreach).
  - apply (DSFacts.reachable_inv s Hreach).
Qed.

(** ** Teardown *)

Lemma radio_request_drop_lookup (o : option RadioRequest)
    (c : RadioClient Callback) r cb :
  radio_pending (radio_request_drop o c) !! r = Some cb ->
  o <> Some r /\ radio_pending c !! r = Some cb.
Proof.
  destruct o as [r0|]; simpl; [|done].
  intros [Hne Hl]%lookup_delete_Some. split; [congruence|done].
Qed.

(** X3.  After io_free in a reachable state the table of the radio client is
    empty: no completion can be delivered to the freed structure. *)
Theorem ds_free_leaves_nothing_pending s :
  reachable s ->
  radio_pending (fst (binder_devmon_ds_io_free s)) = ∅.
Proof.
  intros Hreach. apply DSFacts.reachable_inv in Hreach as (Ht & _).
  apply map_eq. intros r. rewrite lookup_empty.
  destruct (radio_pending _ !! r) as [cb|] eqn:Hl; [|done].
  exfalso. simpl in Hl.
  apply radio_request_drop_lookup in Hl as [Hc Hl].
  apply radio_request_drop_lookup in Hl as [Hd Hl].
  apply Ht in Hl. destruct cb; simpl in Hl; congruence.
Qed.

(** ** The inotify watch from start to teardown *)

Lemma batman_kept (fd wd source : Z) :
  kept_by_events (fun s =>
    batman_inotify_fd s = fd /\ batman_screen_wd s = wd /\
    (batman_watch_source s = source \/ batman_watch_source s = 0)).
Proof.
  split; try (by intros [] v Hi; exact Hi); try (by intros [] c Hi; exact Hi).
  - intros s (Hf & Hw & _). repeat split; try by destruct s.
    right. by destruct s.
  - intros s k v Hi.
    by destruct (report_batman_fields k v s) as (-> & -> & -> & _).
  - intros s r cb status resp error _ Hi.
    destruct (complete_fields cb r status resp error
                (set_client (radio_forget r (client s)) s))
      as (-> & -> & -> & _).
    by destruct s.
Qed.

Lemma log_batman_fields a s :
  batman_inotify_fd (log a s) = batman_inotify_fd s /\
  batman_screen_wd (log a s) = batman_screen_wd s /\
  batman_watch_source (log a s) = batman_watch_source s.
Proof. by destruct s. Qed.

Lemma started_batman_fields ds radio :
  batman_inotify_fd (started ds radio) = 0 /\
  batman_screen_wd (started ds radio) = 0 /\
  batman_watch_source (started ds radio) = 0.
Proof.
  destruct (ev_started _ (batman_kept 0 0 0) ds radio) as (Hf & Hw & Hs).
  { repeat split; by try left. }
  repeat split; try done. by destruct Hs.
Qed.

Lemma start_batman_fields ds radio setup :
  let s := binder_devmon_ds_start_io ds radio setup in
  batman_inotify_fd s =
    (if inotify_init_result setup <? 0 then inotify_init_result setup
     else if inotify_add_watch_result setup <? 0 then -1
     else inotify_init_result setup) /\
  batman_screen_wd s =
    (if inotify_init_result setup <? 0 then 0
     else inotify_add_watch_result setup) /\
  batman_watch_source s =
    (if inotify_init_result setup <? 0 then 0
     else if inotify_add_watch_result setup <? 0 then 0
     else g_io_add_watch_result setup).
Proof.
  simpl. rewrite start_io_cases.
  destruct (started_batman_fields ds radio) as (Hf & Hw & Hs).
  revert Hf Hw Hs. generalize (started ds radio). intros s Hf Hw Hs.
  repeat case_match.
  - by destruct s.
  - by destruct s.
  - rewrite DSFacts.poll_body_report. cbn [snd].
    set (s1 := set_batman_watch_source _ _).
    set (v1 := batman_low_data _ _). set (v2 := batman_charging _).
    destruct (report_batman_fields charging_state_sent v2
                (report low_data_state_sent v1 s1)) as (Hf2 & Hw2 & Hs2 & _).
    destruct (report_batman_fields low_data_state_sent v1 s1)
      as (Hf1 & Hw1 & Hs1 & _).
    set (s3 := report charging_state_sent v2 _) in *.
    match goal with
    | |- context [log ?a s3] =>
        destruct (log_batman_fields a s3) as (-> & -> & ->)
    end.
    rewrite Hf2, Hw2, Hs2, Hf1, Hw1, Hs1. by destruct s.
Qed.

(** X4.  What io_free releases of the inotify watch, after any events.  When
    inotify_init failed the structure keeps the failed descriptor and the
    zero of g_new0 as watch descriptor: io_free calls inotify_rm_watch on
    them and closes nothing.  When inotify_add_watch failed the descriptor
    was closed at once and io_free makes none of the three calls.  When both
    succeeded io_free removes the watch and closes the descriptor, and
    removes the GLib source unless the handler has cleared
    [batman_watch_source]. *)
Theorem ds_free_watch_calls ds radio setup events :
  snd (binder_devmon_ds_io_free
         (run events (binder_devmon_ds_start_io ds radio setup))) =
  [remove_all_handlers connman_object;
   remove_all_handlers battery_object;
   remove_all_handlers charger_object;
   remove_all_handlers display_object;
   request_drop
     (low_data_req (run events (binder_devmon_ds_start_io ds radio setup)));
   request_drop
     (charging_req (run events (binder_devmon_ds_start_io ds radio setup)));
   ofono_slot_drop_cell_info_requests]
  ++ (if inotify_init_result setup <? 0
      then [inotify_rm_watch (inotify_init_result setup) 0]
      else if inotify_add_watch_result setup <? 0 then []
      else (if batman_watch_source
                 (run events (binder_devmon_ds_start_io ds radio setup)) =? 0
            then [] else [g_source_remove (g_io_add_watch_result setup)])
           ++ [inotify_rm_watch (inotify_init_result setup)
                 (inotify_add_watch_result setup);
               close (inotify_init_result setup)]).
Proof.
  destruct (start_batman_fields ds radio setup) as (Hf & Hw & Hs).
  set (s0 := binder_devmon_ds_start_io ds radio setup) in *.
  destruct (ev_run _ (batman_kept (batman_inotify_fd s0)
                        (batman_screen_wd s0) (batman_watch_source s0))
              events s0) as (Hf' & Hw' & Hs'); [by repeat split; try left|].
  unfold binder_devmon_ds_io_free. cbn [snd]. f_equal.
  unfold free_batman_watch. rewrite Hf', Hw', Hf, Hw. rewrite Hs in Hs'.
  set (src := batman_watch_source (run events s0)) in *. clearbody src.
  destruct (Z.ltb_spec (inotify_init_result setup) 0).
  - assert (src = 0) as -> by by destruct Hs'. simpl.
    destruct (Z.leb_spec 0 (inotify_init_result setup)); [lia|done].
  - destruct (Z.ltb_spec (inotify_add_watch_result setup) 0).
    + assert (src = 0) as -> by by destruct Hs'. simpl.
      destruct (Z.leb_spec 0 (inotify_add_watch_result setup)); [lia|done].
    + destruct (Z.leb_spec 0 (inotify_add_watch_result setup)); [|lia].
      destruct (Z.leb_spec 0 (inotify_init_result setup)); [|lia].
      destruct (Z.eqb_spec src 0); simpl; [done|].
      destruct Hs' as [->| ->]; done.
Qed.

(** ** The interval in force when the poll handler is not installed *)

Lemma report_interval k v s :
  last_interval (trace (report k v s)) = last_interval (trace s) /\
  poll_interval_class (report k v s) = poll_interval_class s /\
  forall c, interval_ms (report k v s) c = interval_ms s c.
Proof.
  destruct (DSFacts.report_objects k v s) as (_ & Hb & Hc & Hd & Hs & Hl).
  repeat split.
  - rewrite DSFacts.report_trace. by destruct (negb _ && _).
  - unfold poll_interval_class. by rewrite Hb, Hc, Hd.
  - intros c. unfold interval_ms. by rewrite Hs, Hl.
Qed.

Lemma interval_in_force_set s :
  batman_watch_source s = 0 ->
  interval_in_force
    (binder_devmon_ds_io_set_cell_info_update_interval s).
Proof. intros Hs. split; by destruct s. Qed.

Lemma interval_in_force_report k v s :
  interval_in_force s -> interval_in_force (report k v s).
Proof.
  intros [Hs Hl]. destruct (report_interval k v s) as (Ht & Hc & Hi).
  destruct (report_batman_fields k v s) as (_ & _ & Hsrc & _).
  split; [by rewrite Hsrc|]. by rewrite Ht, Hc, Hi.
Qed.

Lemma interval_in_force_step e s :
  interval_in_force s -> interval_in_force (step e s).
Proof.
  intros Hi. pose proof Hi as [Hs Hl].
  destruct e as [c|b|c|d|r status resp error|ch reading];
    unfold step, binder_devmon_ds_io_connman_cb,
      binder_devmon_ds_io_battery_cb, binder_devmon_ds_io_charger_cb,
      binder_devmon_ds_io_display_cb;
    rewrite ?DSFacts.update_charging_report, ?DSFacts.update_low_data_report.
  - apply interval_in_force_report. by destruct s.
  - apply interval_in_force_set. by destruct s.
  - apply interval_in_force_set.
    destruct (report_batman_fields charging_state_sent
                (binder_devmon_ds_charging
                   (charger (report low_data_state_sent
                               (low_data_expected (set_charger c s))
                               (set_charger c s))))
                (report low_data_state_sent
                   (low_data_expected (set_charger c s)) (set_charger c s)))
      as (_ & _ & -> & _).
    destruct (report_batman_fields low_data_state_sent
                (low_data_expected (set_charger c s)) (set_charger c s))
      as (_ & _ & -> & _).
    by destruct s.
  - apply interval_in_force_set.
    destruct (report_batman_fields low_data_state_sent
                (low_data_expected (set_display d s)) (set_display d s))
      as (_ & _ & -> & _).
    by destruct s.
  - destruct (radio_pending (client s) !! r) as [cb|] eqn:Hr; [|done].
    set (s0 := set_client (radio_forget r (client s)) s).
    destruct (complete_fields cb r status resp error s0)
      as (_ & _ & Hsrc & Hsh & Hlo & Hb).
    destruct (DSFacts.complete_unchanged cb r status resp error s0)
      as (Htr & _ & _ & _ & _ & Hc & Hd).
    split; [rewrite Hsrc; by destruct s|].
    unfold interval_ms, poll_interval_class.
    rewrite Htr, Hsh, Hlo, Hb, Hc, Hd. by destruct s.
  - by rewrite Hs.
Qed.

(** X5.  If inotify_init or inotify_add_watch failed at start then, after the
    start and after every event, the interval given to the slot most
    recently is the one that the rule of
    binder_devmon_ds_io_set_cell_info_update_interval selects for the
    objects as they are now. *)
Theorem ds_interval_in_force ds radio setup events :
  inotify_init_result setup < 0 \/ inotify_add_watch_result setup < 0 ->
  last_interval
    (trace (run events (binder_devmon_ds_start_io ds radio setup))) =
  Some (interval_ms (run events (binder_devmon_ds_start_io ds radio setup))
          (poll_interval_class
             (run events (binder_devmon_ds_start_io ds radio setup)))).
Proof.
  intros Hfail.
  assert (interval_in_force (binder_devmon_ds_start_io ds radio setup)) as H0.
  { rewrite start_io_cases.
    assert (interval_in_force (started ds radio)) as Hst.
    { unfold started. apply interval_in_force_set.
      rewrite DSFacts.update_charging_report, DSFacts.update_low_data_report.
      set (v1 := low_data_expected _). set (s1 := report _ v1 _).
      set (v2 := binder_devmon_ds_charging _).
      destruct (report_batman_fields charging_state_sent v2 s1)
        as (_ & _ & -> & _). subst s1.
      by destruct (report_batman_fields low_data_state_sent v1
                     (new_io ds radio)) as (_ & _ & -> & _). }
    revert Hst. generalize (started ds radio). intros s Hst.
    destruct (Z.ltb_spec (inotify_init_result setup) 0); [by destruct s|].
    destruct (Z.ltb_spec (inotify_add_watch_result setup) 0);
      [by destruct s|lia]. }
  revert H0. generalize (binder_devmon_ds_start_io ds radio setup).
  induction events as [|e events IH]; intros s Hs; simpl.
  - apply Hs.
  - apply IH. by apply interval_in_force_step.
Qed.

(** ** The two paths write the same fields *)

Lemma count_sends_report k v s k' :
  count_sends k' (trace (report k v s)) =
  if negb (eqb (last_value k s) v) && supported k s && bool_decide (k' = k)
  then S (count_sends k' (trace s)) else count_sends k' (trace s).
Proof.
  unfold count_sends. rewrite DSFacts.report_trace.
  destruct (negb _ && _); simpl; [|done].
  case_decide; case_bool_decide; simpl; congruence.
Qed.

Lemma poll_body_values reading s k :
  last_value k (snd (handle_batman_inotify_events_ds_body reading s)) =
    polled k reading /\
  supported k (snd (handle_batman_inotify_events_ds_body reading s)) =
    supported k s /\
  computed k (snd (handle_batman_inotify_events_ds_body reading s)) =
    computed k s /\
  count_sends k
    (trace (snd (handle_batman_inotify_events_ds_body reading s))) =
    if negb (eqb (last_value k s) (polled k reading)) && supported k s
    then S (count_sends k (trace s)) else count_sends k (trace s).
Proof.
  rewrite DSFacts.poll_body_report. cbn [snd].
  set (vl := batman_low_data _ _). set (vc := batman_charging _).
  set (s1 := report low_data_state_sent vl s).
  set (s2 := report charging_state_sent vc s1).
  match goal with
  | |- context [log ?a s2] => set (act := a)
  end.
  replace (last_value k (log act s2)) with (last_value k s2)
    by by destruct k, s2.
  replace (supported k (log act s2)) with (supported k s2)
    by by destruct k, s2.
  replace (computed k (log act s2)) with (computed k s2)
    by by destruct k, s2.
  replace (count_sends k (trace (log act s2)))
    with (count_sends k (trace s2)) by by destruct s2.
  clear act.
  subst s2. rewrite DSFacts.report_last_value, DSFacts.report_supported,
    count_sends_report.
  assert (computed k (report charging_state_sent vc s1) = computed k s1)
    as ->.
  { destruct (DSFacts.report_objects charging_state_sent vc s1)
      as (Hc & _ & Hch & Hd & _).
    destruct k; unfold computed, low_data_expected;
      by rewrite ?Hc, ?Hch, ?Hd. }
  assert (computed k s1 = computed k s) as ->.
  { destruct (DSFacts.report_objects low_data_state_sent vl s)
      as (Hc & _ & Hch & Hd & _).
    destruct k; unfold computed, low_data_expected; subst s1;
      by rewrite ?Hc, ?Hch, ?Hd. }
  subst s1.
  rewrite (DSFacts.report_last_value low_data_state_sent vl s k),
    (DSFacts.report_last_value low_data_state_sent vl s charging_state_sent),
    !DSFacts.report_supported, count_sends_report.
  destruct k; simpl; repeat split; try done.
  - by rewrite andb_false_r, andb_true_r.
  - by rewrite andb_false_r, andb_true_r.
Qed.

(** X6.  The poll handler and the update functions store their values in the
    same fields.  When the value polled for a supported kind differs from
    the value the event rule computes, each path finds the value of the
    other in the field: an update after a poll sends a request, and a poll
    after an update sends a request. *)
Theorem ds_paths_undo_each_other k reading s :
  supported k s = true ->
  polled k reading <> computed k s ->
  count_sends k
    (trace (update k (snd (handle_batman_inotify_events_ds_body reading s)))) =
  S (count_sends k
       (trace (snd (handle_batman_inotify_events_ds_body reading s)))) /\
  count_sends k
    (trace (snd (handle_batman_inotify_events_ds_body reading (update k s)))) =
  S (count_sends k (trace (update k s))).
Proof.
  intros Hs Hne.
  assert (forall a b : bool, a <> b -> negb (eqb a b) = true) as Hneq
    by (by intros [] []).
  split.
  - destruct (poll_body_values reading s k) as (Hl & Hsup & Hc & _).
    assert (update k (snd (handle_batman_inotify_events_ds_body reading s)) =
            report k (computed k s)
              (snd (handle_batman_inotify_events_ds_body reading s))) as ->
      by (rewrite <- Hc; by destruct k).
    rewrite count_sends_report, Hl, Hsup, Hs, (Hneq _ _ Hne).
    simpl. by rewrite bool_decide_eq_true_2.
  - destruct (poll_body_values reading (update k s) k) as (_ & _ & _ & ->).
    assert (update k s = report k (computed k s) s) as -> by by destruct k.
    rewrite DSFacts.report_last_value, decide_True by done.
    rewrite DSFacts.report_supported, Hs, Hneq; [done|].
    intros Heq. by apply Hne.
Qed.

(** ** Which events can send what *)

(** X7.  A battery event and the delivery of a completion send no request; a
    tethering event and a display event send no charging request; a
    tethering event and a completion leave the interval alone. *)
Theorem ds_events_and_traffic s :
  (forall b k,
     sent_values k (trace (step (battery_changed b) s)) =
       sent_values k (trace s) /\
     client (step (battery_changed b) s) = client s) /\
  (forall r status resp error,
     trace (step (request_completed r status resp error) s) = trace s) /\
  (forall c,
     sent_values charging_state_sent (trace (step (connman_changed c) s)) =
       sent_values charging_state_sent (trace s) /\
     last_interval (trace (step (connman_changed c) s)) =
       last_interval (trace s)) /\
  (forall d,
     sent_values charging_state_sent (trace (step (display_changed d) s)) =
       sent_values charging_state_sent (trace s)).
Proof.
  repeat apply conj.
  - intros b k. by destruct s.
  - intros r status resp error. simpl.
    destruct (radio_pending (client s) !! r) as [cb|]; [|done].
    destruct (DSFacts.complete_unchanged cb r status resp error
                (set_client (radio_forget r (client s)) s)) as (-> & _).
    by destruct s.
  - intros c. unfold step, binder_devmon_ds_io_connman_cb.
    rewrite DSFacts.update_low_data_report.
    destruct (report_interval low_data_state_sent
                (low_data_expected (set_connman c s)) (set_connman c s))
      as (-> & _).
    rewrite DSFacts.report_trace.
    split; [|by destruct s].
    destruct (negb _ && _); by destruct s.
  - intros d. unfold step, binder_devmon_ds_io_display_cb,
      binder_devmon_ds_io_set_cell_info_update_interval.
    rewrite DSFacts.update_low_data_report.
    set (s1 := report _ _ _).
    replace (trace (log (SetInterval (interval_ms s1 (poll_interval_class s1)))
                      s1))
      with (SetInterval (interval_ms s1 (poll_interval_class s1)) :: trace s1)
      by by destruct s1.
    subst s1. cbn [sent_values]. rewrite DSFacts.report_trace.
    destruct (negb _ && _); by destruct s.
Qed.

(** ** The first run of the poll handler *)

(** X8.  When inotify_init and inotify_add_watch both succeed, start_io ends
    with
    a run of the poll handler: the interval in force after start is the one
    the poll handler selects from the screen file and the battery state,
    not the one selected from the mce objects, and the stored low-data and
    charging values are the polled ones. *)
Theorem ds_start_ends_with_poll ds radio setup :
  0 <= inotify_init_result setup ->
  0 <= inotify_add_watch_result setup ->
  last_interval (trace (binder_devmon_ds_start_io ds radio setup)) =
    Some (interval_ms (new_io ds radio)
            (batman_interval_class
               (read_batman_screen (screen_file (first_reading setup)))
               (batman_charging (get_battery_state (first_reading setup))))) /\
  (forall k, last_value k (binder_devmon_ds_start_io ds radio setup) =
             polled k (first_reading setup)) /\
  batman_watch_source (binder_devmon_ds_start_io ds radio setup) =
    g_io_add_watch_result setup.
Proof.
  intros Hinit Hadd.
  pose proof (start_batman_fields ds radio setup) as (_ & _ & Hsrc).
  pose proof (ev_start _ ds radio setup
    (configured_kept (ds_cell_info_interval_short_ms ds)
       (ds_cell_info_interval_long_ms ds))) as Hcfg.
  destruct Hcfg as (Hsh & Hlo & _);
    try (by intros [] v Hi; exact Hi); [by repeat split|].
  revert Hsrc Hsh Hlo. rewrite start_io_cases.
  destruct (Z.ltb_spec (inotify_init_result setup) 0); [lia|].
  destruct (Z.ltb_spec (inotify_add_watch_result setup) 0); [lia|].
  intros Hsrc Hsh Hlo. split; [|split; [|done]].
  - revert Hsh Hlo. rewrite DSFacts.poll_body_report. cbn [snd].
    set (s2 := report charging_state_sent _ _).
    intros Hsh Hlo.
    assert (cell_info_interval_short_ms s2 = ds_cell_info_interval_short_ms ds)
      as Hsh2 by (rewrite <- Hsh; by destruct s2).
    assert (cell_info_interval_long_ms s2 = ds_cell_info_interval_long_ms ds)
      as Hlo2 by (rewrite <- Hlo; by destruct s2).
    match goal with
    | |- last_interval (trace (log (SetInterval (interval_ms s2 ?c)) s2)) = _
      => transitivity (Some (interval_ms s2 c)); [by destruct s2|]
    end.
    unfold interval_ms. by rewrite Hsh2, Hlo2.
  - intros k. apply poll_body_values.
Qed.

End Facts.
End DSMore.

Lemma ds_interval_is_configured_witness :
  In (DS.SetInterval 2000)
    (DS.trace
       (@DS.run sample_headers
          [DS.battery_changed
             {| MceBattery.valid := true; MceBattery.status := 4 |}]
          (@DS.binder_devmon_ds_start_io sample_headers
             (DSLife.binder_devmon_ds_new sample_config
                {| BinderConnman.valid := true;
                   BinderConnman.tethering := false |}
                {| MceBattery.valid := true; MceBattery.status := 2 |}
                {| MceCharger.valid := true; MceCharger.state := 2 |}
                {| MceDisplay.valid := true; MceDisplay.state := 2 |})
             sample_radio with_watch))) /\
  (2000 = BinderSlotConfig.cell_info_interval_short_ms sample_config \/
   2000 = BinderSlotConfig.cell_info_interval_long_ms sample_config).
Proof.
  assert (In (DS.SetInterval 2000)
    (DS.trace
       (@DS.run sample_headers
          [DS.battery_changed
             {| MceBattery.valid := true; MceBattery.status := 4 |}]
          (@DS.binder_devmon_ds_start_io sample_headers
             (DSLife.binder_devmon_ds_new sample_config
                {| BinderConnman.valid := true;
                   BinderConnman.tethering := false |}
                {| MceBattery.valid := true; MceBattery.status := 2 |}
                {| MceCharger.valid := true; MceCharger.state := 2 |}
                {| MceDisplay.valid := true; MceDisplay.state := 2 |})
             sample_radio with_watch)))) as Hin
    by (vm_compute; by left).
  split; [exact Hin|].
  exact (@DSMore.ds_interval_is_configured sample_headers _ _ _ _ _ _ _ _ _
           Hin).
Defined.

Lemma ds_fields_mirror_table_witness :
  @DS.reachable sample_headers sample_ds_docked_session /\
  (DS.pending_req DS.charging_state_sent sample_ds_docked_session =
     Some 0%nat <->
   radio_pending (DS.client sample_ds_docked_session) !! 0%nat =
     Some DS.charging_state_sent).
Proof.
  assert (@DS.reachable sample_headers sample_ds_docked_session) as Hreach.
  { unfold sample_ds_docked_session. apply DS.reachable_start. reflexivity. }
  split; [exact Hreach|].
  exact (@DSMore.ds_fields_mirror_table sample_headers _ _ _ Hreach).
Defined.

Lemma ds_free_leaves_nothing_pending_witness :
  @DS.reachable sample_headers sample_ds_docked_session /\
  radio_pending (DS.client sample_ds_docked_session) !! 0%nat =
    Some DS.charging_state_sent /\
  radio_pending
    (fst (DSLife.binder_devmon_ds_io_free sample_ds_docked_session)) = ∅.
Proof.
  assert (@DS.reachable sample_headers sample_ds_docked_session) as Hreach.
  { unfold sample_ds_docked_session. apply DS.reachable_start. reflexivity. }
  split; [exact Hreach|]. split; [reflexivity|].
  exact (@DSMore.ds_free_leaves_nothing_pending sample_headers _ Hreach).
Defined.

Lemma ds_interval_in_force_witness :
  (inotify_init_result no_watch < 0 \/ inotify_add_watch_result no_watch < 0) /\
  DSLife.last_interval
    (DS.trace
       (@DS.run sample_headers
          [DS.battery_changed
             {| MceBattery.valid := true; MceBattery.status := 4 |}]
          (@DS.binder_devmon_ds_start_io sample_headers sample_ds_awake
             sample_radio no_watch))) = Some 2000.
Proof.
  assert (inotify_init_result no_watch < 0 \/
          inotify_add_watch_result no_watch < 0) as Hfail
    by (left; simpl; lia).
  split; [exact Hfail|].
  exact (@DSMore.ds_interval_in_force sample_headers sample_ds_awake
           sample_radio no_watch
           [DS.battery_changed
              {| MceBattery.valid := true; MceBattery.status := 4 |}] Hfail).
Defined.

Lemma ds_paths_undo_each_other_witness :
  DS.supported DS.low_data_state_sent sample_ds_tethering_session = true /\
  @DSLife.polled sample_headers DS.low_data_state_sent
    reading_off_discharging <>
  @DS.computed sample_headers DS.low_data_state_sent
    sample_ds_tethering_session /\
  DS.count_sends DS.low_data_state_sent
    (DS.trace
       (@DS.update sample_headers DS.low_data_state_sent
          (snd (@DS.handle_batman_inotify_events_ds_body sample_headers
                  reading_off_discharging sample_ds_tethering_session)))) =
  S (DS.count_sends DS.low_data_state_sent
       (DS.trace
          (snd (@DS.handle_batman_inotify_events_ds_body sample_headers
                  reading_off_discharging sample_ds_tethering_session)))).
Proof.
  assert (DS.supported DS.low_data_state_sent sample_ds_tethering_session =
          true) as Hs by reflexivity.
  assert (@DSLife.polled sample_headers DS.low_data_state_sent
            reading_off_discharging <>
          @DS.computed sample_headers DS.low_data_state_sent
            sample_ds_tethering_session) as Hne
    by (vm_compute; discriminate).
  split; [exact Hs|]. split; [exact Hne|].
  exact (proj1 (@DSMore.ds_paths_undo_each_other sample_headers
                  DS.low_data_state_sent reading_off_discharging
                  sample_ds_tethering_session Hs Hne)).
Defined.

(** * Further properties of binder_devmon_if.c *)

Module IFMore.
Import IF IFLife.
Section Facts.
Context `{ExternalHeaders}.

Lemma filter_more s :
  let s' := binder_devmon_if_io_set_indication_filter s in
  radio_next (client s') =
    (if ind_filter_supported s then S (radio_next (client s))
     else radio_next (client s)) /\
  radio_submit_ok (client s') = radio_submit_ok (client s) /\
  radio_client_interface (client s') = radio_client_interface (client s) /\
  batman_inotify_fd s' = batman_inotify_fd s /\
  batman_screen_wd s' = batman_screen_wd s /\
  batman_watch_source s' = batman_watch_source s /\
  indication_filter_request s' = indication_filter_request s.
Proof.
  unfold binder_devmon_if_io_set_indication_filter, indication_filter_request,
    drop_request, radio_request_submit, radio_request_new, radio_request_drop.
  destruct s; simpl.
  repeat (case_match; simpl in *; simplify_eq; simpl); done.
Qed.

Lemma filter_sent_more r status resp error s :
  let s' := binder_devmon_if_io_indication_filter_sent r status resp error s in
  cell_info_interval_short_ms s' = cell_info_interval_short_ms s /\
  cell_info_interval_long_ms s' = cell_info_interval_long_ms s /\
  batman_inotify_fd s' = batman_inotify_fd s /\
  batman_screen_wd s' = batman_screen_wd s /\
  batman_watch_source s' = batman_watch_source s /\
  indication_filter_request s' = indication_filter_request s.
Proof.
  unfold binder_devmon_if_io_indication_filter_sent.
  destruct s; simpl; repeat (case_match; simpl); done.
Qed.

Lemma display_cb_cases s :
  binder_devmon_if_io_display_cb s =
  if negb (eqb (display_on s) (binder_devmon_if_display_on (display s)))
  then binder_devmon_if_io_set_cell_info_update_interval
         (binder_devmon_if_io_set_indication_filter
            (set_display_on (binder_devmon_if_display_on (display s)) s))
  else s.
Proof. reflexivity. Qed.

(** ** Teardown *)

Lemma if_radio_request_drop_lookup (o : option RadioRequest)
    (c : RadioClient Callback) r cb :
  radio_pending (radio_request_drop o c) !! r = Some cb ->
  o <> Some r /\ radio_pending c !! r = Some cb.
Proof.
  destruct o as [r0|]; simpl; [|done].
  intros [Hne Hl]%lookup_delete_Some. split; [congruence|done].
Qed.

(** X9.  After io_free in a reachable state the table of the radio client is
    empty: no completion can be delivered to the freed structure. *)
Theorem if_free_leaves_nothing_pending s :
  reachable s ->
  radio_pending (fst (binder_devmon_if_io_free s)) = ∅.
Proof.
  intros Hreach. apply IFFacts.if_reachable_inv in Hreach as (Ht & _).
  apply map_eq. intros r. rewrite lookup_empty.
  destruct (radio_pending _ !! r) as [cb|] eqn:Hl; [|done].
  exfalso. simpl in Hl.
  apply if_radio_request_drop_lookup in Hl as [Hc Hl].
  apply Ht in Hl. congruence.
Qed.

(** ** The filter in force follows the display *)

Lemma filter_in_force_kept :
  IF.kept_by_handlers (fun s =>
    ind_filter_supported s = true ->
    last_filter (trace s) = Some (indication_filter_request s)).
Proof.
  split; try (by intros [] v Hi; exact Hi).
  intros s v Hi. rewrite display_cb_cases.
  destruct (negb _); [|by destruct s].
  set (s1 := set_display_on _ _).
  unfold binder_devmon_if_io_set_cell_info_update_interval.
  destruct (IFFacts.filter_unchanged s1) as (Hsup & _).
  destruct (filter_more s1) as (_ & _ & _ & _ & _ & _ & Hreq).
  pose proof (IFFacts.filter_trace s1) as Htr.
  revert Hsup Hreq Htr.
  generalize (binder_devmon_if_io_set_indication_filter s1). intros s2.
  intros Hsup Hreq Htr Hs2.
  assert (ind_filter_supported s1 = true) as Hs1
    by (rewrite <- Hsup; by destruct s2).
  rewrite Hs1 in Htr.
  replace (trace (log (SetInterval (interval_ms s2 (poll_interval_class s2)))
                    s2))
    with (SetInterval (interval_ms s2 (poll_interval_class s2)) :: trace s2)
    by by destruct s2.
  replace (indication_filter_request (log _ s2))
    with (indication_filter_request s2) by by destruct s2.
  rewrite Htr, Hreq. simpl. by destruct (indication_filter_request s1).
Qed.

Lemma filter_in_force_completion :
  IF.kept_by_completion (fun s =>
    ind_filter_supported s = true ->
    last_filter (trace s) = Some (indication_filter_request s)).
Proof.
  intros s r status resp error _ Hi Hs.
  set (s0 := set_client (radio_forget r (client s)) s) in *.
  apply IFFacts.filter_sent_supported_mono in Hs.
  destruct (IFFacts.filter_sent_unchanged r status resp error s0)
    as (_ & -> & _).
  destruct (filter_sent_more r status resp error s0)
    as (_ & _ & _ & _ & _ & ->).
  destruct s; simpl in *. by apply Hi.
Qed.

(** X10.  In every reachable state in which the indication filter is still
    supported, the request sent most recently carries the request code and
    the filter that set_indication_filter selects for the present state of
    the display and the interface of the client: the filter in force is
    never the one of a past display state. *)
Theorem if_filter_in_force s :
  reachable s ->
  ind_filter_supported s = true ->
  last_filter (trace s) = Some (indication_filter_request s) /\
  display_on s = binder_devmon_if_display_on (display s).
Proof.
  intros Hreach Hs. split; [|by apply (IFFacts.if_reachable_inv s Hreach)].
  revert Hs. induction Hreach as [impl radio setup Hempty|e s _ IH].
  - apply (IFFacts.if_kept_start _ filter_in_force_kept).
    intros _. rewrite IFFacts.filter_trace. simpl.
    destruct (filter_more (new_io impl radio))
      as (_ & _ & _ & _ & _ & _ & ->).
    by destruct (indication_filter_request (new_io impl radio)).
  - by apply (IFFacts.if_kept_step _ filter_in_force_kept
                filter_in_force_completion).
Qed.

(** X11.  A display event that leaves the display on, or leaves it off (a
    change
    between DIM and ON, for one), changes nothing but the display object:
    no request and no interval.  One that turns it on or off, while the
    filter is supported, drops the stored request, sends one request and
    then sets the interval. *)
Theorem if_display_edge s d :
  reachable s ->
  (binder_devmon_if_display_on d = binder_devmon_if_display_on (display s) ->
   step (display_changed d) s = set_display d s) /\
  (binder_devmon_if_display_on d <> binder_devmon_if_display_on (display s) ->
   ind_filter_supported s = true ->
   exists code value ms,
     trace (step (display_changed d) s) =
       SetInterval ms
       :: Send code value (radio_next (client s))
            (radio_submit_ok (client s) (radio_next (client s)))
       :: Drop (req s) :: trace s /\
     display_on (step (display_changed d) s) =
       binder_devmon_if_display_on d).
Proof.
  intros Hreach.
  apply IFFacts.if_reachable_inv in Hreach as (_ & _ & Hc & _).
  unfold display_on_cached in Hc.
  unfold step. rewrite display_cb_cases.
  replace (display_on (set_display d s)) with (display_on s)
    by by destruct s.
  replace (display (set_display d s)) with d by by destruct s.
  rewrite Hc. split.
  - intros ->. by rewrite eqb_reflx.
  - intros Hne Hs.
    destruct (eqb _ _) eqn:Heq; [by apply eqb_prop in Heq|]. simpl.
    set (s1 := set_display_on _ _).
    unfold binder_devmon_if_io_set_cell_info_update_interval.
    destruct (IFFacts.filter_unchanged s1) as (_ & Hon & _).
    pose proof (IFFacts.filter_trace s1) as Htr.
    revert Hon Htr.
    generalize (binder_devmon_if_io_set_indication_filter s1). intros s2.
    intros Hon Htr.
    assert (ind_filter_supported s1 = true) as Hs1 by by destruct s.
    rewrite Hs1 in Htr.
    eexists _, _, _. split.
    + replace (trace (log (SetInterval
                 (interval_ms s2 (poll_interval_class s2))) s2))
        with (SetInterval (interval_ms s2 (poll_interval_class s2))
              :: trace s2) by by destruct s2.
      rewrite Htr. simpl. by destruct s.
    + transitivity (display_on s2); [by destruct s2|].
      rewrite Hon. by destruct s.
Qed.

(** ** A stored request and the table of the radio client *)

Lemma field_in_table_or_rejected_kept :
  IF.kept_by_handlers field_in_table_or_rejected.
Proof.
  split; try (by intros [] v Hi; exact Hi).
  intros s v Hi. rewrite display_cb_cases.
  destruct (negb _); [|by destruct s].
  set (s1 := set_display_on _ _).
  assert (field_in_table_or_rejected s1) as [HA HB] by by destruct s.
  unfold binder_devmon_if_io_set_cell_info_update_interval.
  assert (field_in_table_or_rejected
            (binder_devmon_if_io_set_indication_filter s1)) as Hi2.
  { destruct (filter_more s1) as (Hn & Hok & _).
    split.
    - intros r. rewrite IFFacts.filter_req, IFFacts.filter_radio_pending, Hok.
      destruct (ind_filter_supported s1); [|by apply HA].
      intros [= <-].
      destruct (radio_submit_ok _ _) eqn:Hsub; [left|by right].
      by rewrite lookup_insert_eq.
    - intros r cb. rewrite IFFacts.filter_radio_pending, Hn.
      assert (forall r' cb', after_drop s1 !! r' = Some cb' ->
                             (r' < radio_next (client s1))%nat) as Hd.
      { intros r' cb'. unfold after_drop.
        destruct (req s1); [|by apply HB].
        intros [_ Hl]%lookup_delete_Some. by apply HB in Hl. }
      destruct (ind_filter_supported s1); [|by apply HB].
      destruct (radio_submit_ok _ _).
      + intros [[<- _]|[_ Hl]]%lookup_insert_Some; [lia|].
        apply Hd in Hl. lia.
      + intros Hl. apply Hd in Hl. lia. }
  revert Hi2. by destruct (binder_devmon_if_io_set_indication_filter s1).
Qed.

Lemma field_in_table_or_rejected_completion :
  IF.kept_by_completion field_in_table_or_rejected.
Proof.
  intros s r status resp error _ [HA HB].
  set (s0 := set_client (radio_forget r (client s)) s).
  destruct (IFFacts.filter_sent_unchanged r status resp error s0)
    as (Hreq & _ & Hcl & _).
  split.
  - intros r'. by rewrite Hreq.
  - intros r' cb. rewrite Hcl.
    replace (radio_pending (client s0))
      with (delete r (radio_pending (client s))) by by destruct s.
    replace (radio_next (client s0)) with (radio_next (client s))
      by by destruct s.
    intros [_ Hl]%lookup_delete_Some. by apply HB in Hl.
Qed.

Lemma reachable_field_in_table_or_rejected s :
  reachable s -> field_in_table_or_rejected s.
Proof.
  induction 1 as [impl radio setup Hempty|e s _ IH].
  - apply (IFFacts.if_kept_start _ field_in_table_or_rejected_kept).
    destruct (filter_more (new_io impl radio)) as (Hn & Hok & _).
    split.
    + intros r. rewrite IFFacts.filter_req, IFFacts.filter_radio_pending,
        Hok. simpl. intros [= <-].
      destruct (radio_submit_ok _ _) eqn:Hsub; [left|by right].
      by rewrite lookup_insert_eq.
    + intros r cb. rewrite IFFacts.filter_radio_pending, Hn. simpl.
      unfold after_drop. simpl. rewrite Hempty.
      destruct (radio_submit_ok _ _); [|done].
      intros [[<- _]|[_ Hl]]%lookup_insert_Some; [lia|done].
  - by apply (IFFacts.if_kept_step _ field_in_table_or_rejected_kept
                field_in_table_or_rejected_completion).
Qed.

(** X12.  In every reachable state a request in the table of the radio client
    is
    the stored one, and the stored request is in the table unless the
    client rejected its submission: set_indication_filter does not look at
    the result of radio_request_submit and keeps the request either way. *)
Theorem if_stored_request_or_rejected s r :
  reachable s ->
  (radio_pending (client s) !! r = Some indication_filter_sent ->
   req s = Some r) /\
  (req s = Some r ->
   radio_pending (client s) !! r = Some indication_filter_sent \/
   radio_submit_ok (client s) r = false).
Proof.
  intros Hreach. split.
  - apply (IFFacts.if_reachable_inv s Hreach).
  - apply (reachable_field_in_table_or_rejected s Hreach).
Qed.

(** ** Events, statement by statement *)

Section Events.
Variable P : DevMonIo -> Prop.
Hypothesis kept : kept_by_events P.

Lemma if_ev_poll channel reading s :
  P s -> P (snd (handle_batman_inotify_events_if channel reading s)).
Proof.
  intros Hs.
  pose proof (ev_source_cleared P kept) as Hsource.
  pose proof (ev_interval P kept) as Hinterval.
  unfold handle_batman_inotify_events_if,
    handle_batman_inotify_events_if_body.
  repeat case_match; first [by apply Hinterval | by apply Hsource | done].
Qed.

Lemma if_ev_step e s : P s -> P (step e s).
Proof.
  intros Hs. destruct e as [b|c|d|r status resp error|ch reading];
    unfold step, binder_devmon_if_io_battery_cb,
      binder_devmon_if_io_charger_cb,
      binder_devmon_if_io_set_cell_info_update_interval.
  - apply ev_interval; [done|]. by apply ev_battery.
  - apply ev_interval; [done|]. by apply ev_charger.
  - by apply ev_display_cb.
  - destruct (radio_pending (client s) !! r) as [[]|] eqn:Hr; [|done].
    by apply (ev_complete P kept).
  - case_match; [done|]. by apply if_ev_poll.
Qed.

Lemma if_ev_run events s : P s -> P (run events s).
Proof.
  revert s. induction events as [|e events IH]; intros s Hs; simpl; [done|].
  apply IH. by apply if_ev_step.
Qed.

End Events.

Lemma if_start_io_cases impl radio setup :
  binder_devmon_if_start_io impl radio setup =
  if inotify_init_result setup <? 0
  then set_batman_inotify_fd (inotify_init_result setup)
         (started impl radio)
  else if inotify_add_watch_result setup <? 0
  then set_batman_inotify_fd (-1)
         (set_batman_screen_wd (inotify_add_watch_result setup)
            (set_batman_inotify_fd (inotify_init_result setup)
               (started impl radio)))
  else snd (handle_batman_inotify_events_if_body (first_reading setup)
              (set_batman_watch_source (g_io_add_watch_result setup)
                 (set_batman_screen_wd (inotify_add_watch_result setup)
                    (set_batman_inotify_fd (inotify_init_result setup)
                       (started impl radio))))).
Proof.
  unfold binder_devmon_if_start_io, binder_devmon_if_io_init_batman_watch.
  fold (started impl radio). generalize (started impl radio). intros s.
  destruct s; simpl. repeat case_match; done.
Qed.

Lemma if_started_fields impl radio :
  batman_inotify_fd (started impl radio) = 0 /\
  batman_screen_wd (started impl radio) = 0 /\
  batman_watch_source (started impl radio) = 0 /\
  cell_info_interval_short_ms (started impl radio) =
    if_cell_info_interval_short_ms impl /\
  cell_info_interval_long_ms (started impl radio) =
    if_cell_info_interval_long_ms impl /\
  trace (started impl radio) =
    SetInterval
      (interval_ms (started impl radio)
         (poll_interval_class (started impl radio)))
    :: trace (binder_devmon_if_io_set_indication_filter (new_io impl radio)).
Proof.
  unfold started, binder_devmon_if_io_set_cell_info_update_interval.
  destruct (filter_more (new_io impl radio))
    as (_ & _ & _ & Hf & Hw & Hs & _).
  destruct (IFFacts.filter_unchanged (new_io impl radio))
    as (_ & _ & _ & _ & _ & Hsh & Hlo).
  revert Hf Hw Hs Hsh Hlo.
  generalize (binder_devmon_if_io_set_indication_filter (new_io impl radio)).
  intros s2 Hf Hw Hs Hsh Hlo. by destruct s2.
Qed.

(** ** Only the configured intervals reach the slot *)

Lemma if_configured_kept (short long : Z) :
  kept_by_events (fun s =>
    cell_info_interval_short_ms s = short /\
    cell_info_interval_long_ms s = long /\
    forall ms, In (SetInterval ms) (trace s) -> ms = short \/ ms = long).
Proof.
  assert (forall s c,
    cell_info_interval_short_ms s = short /\
    cell_info_interval_long_ms s = long /\
    (forall ms, In (SetInterval ms) (trace s) -> ms = short \/ ms = long) ->
    cell_info_interval_short_ms (log (SetInterval (interval_ms s c)) s) =
      short /\
    cell_info_interval_long_ms (log (SetInterval (interval_ms s c)) s) =
      long /\
    (forall ms, In (SetInterval ms)
                  (trace (log (SetInterval (interval_ms s c)) s)) ->
                ms = short \/ ms = long)) as Hlog.
  { intros s c (Hs & Hl & Ht). repeat split; try by destruct s.
    intros ms. replace (trace (log (SetInterval (interval_ms s c)) s))
      with (SetInterval (interval_ms s c) :: trace s) by by destruct s.
    intros [[= <-]|Hin]; [|by auto].
    destruct c; simpl; auto. }
  split; try (by intros [] v Hi; exact Hi); try (by intros [] Hi; exact Hi);
    try done.
  - intros s v Hi. rewrite display_cb_cases.
    destruct (negb _); [|by destruct s].
    set (s1 := set_display_on _ _).
    assert (cell_info_interval_short_ms s1 = short /\
            cell_info_interval_long_ms s1 = long /\
            (forall ms, In (SetInterval ms) (trace s1) ->
                        ms = short \/ ms = long)) as (Hs & Hl & Ht)
      by by destruct s.
    apply Hlog.
    destruct (IFFacts.filter_unchanged s1) as (_ & _ & _ & _ & _ & -> & ->).
    repeat split; try done.
    intros ms. rewrite IFFacts.filter_trace.
    intros [Hin|Hin]%in_app_or; [|by auto].
    destruct (ind_filter_supported s1); simpl in Hin; [|done].
    by destruct Hin as [|[|]].
  - intros s r status resp error _ (Hs & Hl & Ht).
    set (s0 := set_client (radio_forget r (client s)) s).
    destruct (filter_sent_more r status resp error s0) as (-> & -> & _).
    destruct (IFFacts.filter_sent_unchanged r status resp error s0)
      as (_ & -> & _).
    by destruct s.
Qed.

(** X13.  Whatever the objects, the radio client, the watch setup and the
    events,
    an interval handed to the slot is one of the two of the slot
    configuration given to binder_devmon_if_new. *)
Theorem if_interval_is_configured
    config battery0 charger0 display0 radio setup events ms :
  In (SetInterval ms)
    (trace (run events
              (binder_devmon_if_start_io
                 (binder_devmon_if_new config battery0 charger0 display0)
                 radio setup))) ->
  ms = BinderSlotConfig.cell_info_interval_short_ms config \/
  ms = BinderSlotConfig.cell_info_interval_long_ms config.
Proof.
  intros Hin.
  pose proof (if_configured_kept
    (BinderSlotConfig.cell_info_interval_short_ms config)
    (BinderSlotConfig.cell_info_interval_long_ms config)) as Hkept.
  refine (proj2 (proj2 (if_ev_run _ Hkept events _ _)) ms Hin).
  rewrite if_start_io_cases.
  set (impl := binder_devmon_if_new config battery0 charger0 display0).
  assert (cell_info_interval_short_ms (started impl radio) =
            BinderSlotConfig.cell_info_interval_short_ms config /\
          cell_info_interval_long_ms (started impl radio) =
            BinderSlotConfig.cell_info_interval_long_ms config /\
          (forall ms, In (SetInterval ms) (trace (started impl radio)) ->
             ms = BinderSlotConfig.cell_info_interval_short_ms config \/
             ms = BinderSlotConfig.cell_info_interval_long_ms config)) as Hst.
  { destruct (if_started_fields impl radio)
      as (_ & _ & _ & Hsh & Hlo & Htr).
    repeat split; try done.
    intros ms'. rewrite Htr. intros [[= <-]|Hin'].
    - unfold interval_ms. rewrite Hsh, Hlo.
      destruct (poll_interval_class _); auto.
    - rewrite IFFacts.filter_trace in Hin'. simpl in Hin'.
      by destruct Hin' as [|[|]]. }
  revert Hst. generalize (started impl radio). intros s Hst.
  repeat case_match; try by destruct s.
  unfold handle_batman_inotify_events_if_body. cbn [snd].
  apply (ev_interval _ Hkept). by destruct s.
Qed.

(** ** The inotify watch from start to teardown *)

Lemma if_batman_kept (fd wd source : Z) :
  kept_by_events (fun s =>
    batman_inotify_fd s = fd /\ batman_screen_wd s = wd /\
    (batman_watch_source s = source \/ batman_watch_source s = 0)).
Proof.
  split; try (by intros [] v Hi; exact Hi); try (by intros [] c Hi; exact Hi).
  - intros s v Hi. rewrite display_cb_cases.
    destruct (negb _); [|by destruct s].
    set (s1 := set_display_on _ _).
    unfold binder_devmon_if_io_set_cell_info_update_interval.
    destruct (filter_more s1) as (_ & _ & _ & Hf & Hw & Hs & _).
    revert Hf Hw Hs.
    generalize (binder_devmon_if_io_set_indication_filter s1).
    intros s2 Hf Hw Hs. destruct s2; simpl in *.
    rewrite Hf, Hw, Hs. by destruct s.
  - intros s (Hf & Hw & _). repeat split; try by destruct s.
    right. by destruct s.
  - intros s r status resp error _ Hi.
    destruct (filter_sent_more r status resp error
                (set_client (radio_forget r (client s)) s))
      as (_ & _ & -> & -> & -> & _).
    by destruct s.
Qed.

Lemma if_start_batman_fields impl radio setup :
  let s := binder_devmon_if_start_io impl radio setup in
  batman_inotify_fd s =
    (if inotify_init_result setup <? 0 then inotify_init_result setup
     else if inotify_add_watch_result setup <? 0 then -1
     else inotify_init_result setup) /\
  batman_screen_wd s =
    (if inotify_init_result setup <? 0 then 0
     else inotify_add_watch_result setup) /\
  batman_watch_source s =
    (if inotify_init_result setup <? 0 then 0
     else if inotify_add_watch_result setup <? 0 then 0
     else g_io_add_watch_result setup).
Proof.
  simpl. rewrite if_start_io_cases.
  destruct (if_started_fields impl radio) as (Hf & Hw & Hs & _).
  revert Hf Hw Hs. generalize (started impl radio). intros s Hf Hw Hs.
  unfold handle_batman_inotify_events_if_body.
  repeat case_match; by destruct s.
Qed.

(** X14.  What io_free releases of the inotify watch, after any events, by the
    way the watch setup went at start (as for the DS file): after a failed
    inotify_init, inotify_rm_watch on the failed descriptor and watch
    descriptor 0 and no close; after a failed inotify_add_watch none of the
    three calls; after a successful setup the watch is removed and the
    descriptor closed, and the GLib source is removed unless the handler has
    cleared [batman_watch_source]. *)
Theorem if_free_watch_calls impl radio setup events :
  snd (binder_devmon_if_io_free
         (run events (binder_devmon_if_start_io impl radio setup))) =
  [remove_all_handlers battery_object;
   remove_all_handlers charger_object;
   remove_all_handlers display_object;
   request_drop
     (req (run events (binder_devmon_if_start_io impl radio setup)));
   ofono_slot_drop_cell_info_requests]
  ++ (if inotify_init_result setup <? 0
      then [inotify_rm_watch (inotify_init_result setup) 0]
      else if inotify_add_watch_result setup <? 0 then []
      else (if batman_watch_source
                 (run events (binder_devmon_if_start_io impl radio setup))
               =? 0
            then [] else [g_source_remove (g_io_add_watch_result setup)])
           ++ [inotify_rm_watch (inotify_init_result setup)
                 (inotify_add_watch_result setup);
               close (inotify_init_result setup)]).
Proof.
  destruct (if_start_batman_fields impl radio setup) as (Hf & Hw & Hs).
  set (s0 := binder_devmon_if_start_io impl radio setup) in *.
  destruct (if_ev_run _ (if_batman_kept (batman_inotify_fd s0)
                           (batman_screen_wd s0) (batman_watch_source s0))
              events s0) as (Hf' & Hw' & Hs'); [by repeat split; try left|].
  unfold binder_devmon_if_io_free. cbn [snd]. f_equal.
  unfold free_batman_watch. rewrite Hf', Hw', Hf, Hw. rewrite Hs in Hs'.
  set (src := batman_watch_source (run events s0)) in *. clearbody src.
  destruct (Z.ltb_spec (inotify_init_result setup) 0).
  - assert (src = 0) as -> by by destruct Hs'. simpl.
    destruct (Z.leb_spec 0 (inotify_init_result setup)); [lia|done].
  - destruct (Z.ltb_spec (inotify_add_watch_result setup) 0).
    + assert (src = 0) as -> by by destruct Hs'. simpl.
      destruct (Z.leb_spec 0 (inotify_add_watch_result setup)); [lia|done].
    + destruct (Z.leb_spec 0 (inotify_add_watch_result setup)); [|lia].
      destruct (Z.leb_spec 0 (inotify_init_result setup)); [|lia].
      destruct (Z.eqb_spec src 0); simpl; [done|].
      destruct Hs' as [->| ->]; done.
Qed.

(** ** The interval in force when the poll handler is not installed *)

Lemma if_interval_in_force_set s :
  batman_watch_source s = 0 ->
  interval_in_force
    (binder_devmon_if_io_set_cell_info_update_interval s).
Proof. intros Hs. split; by destruct s. Qed.

Lemma if_interval_in_force_step e s :
  interval_in_force s -> interval_in_force (step e s).
Proof.
  intros Hi. pose proof Hi as [Hs Hl].
  destruct e as [b|c|d|r status resp error|ch reading];
    unfold step, binder_devmon_if_io_battery_cb,
      binder_devmon_if_io_charger_cb.
  - apply if_interval_in_force_set. by destruct s.
  - apply if_interval_in_force_set. by destruct s.
  - rewrite display_cb_cases. destruct (negb _); [|by destruct s].
    apply if_interval_in_force_set.
    set (s1 := set_display_on _ _).
    destruct (filter_more s1) as (_ & _ & _ & _ & _ & -> & _).
    by destruct s.
  - destruct (radio_pending (client s) !! r) as [[]|] eqn:Hr; [|done].
    set (s0 := set_client (radio_forget r (client s)) s).
    destruct (filter_sent_more r status resp error s0)
      as (Hsh & Hlo & _ & _ & Hsrc & _).
    destruct (IFFacts.filter_sent_unchanged r status resp error s0)
      as (_ & Htr & _ & Hon & Hb & Hc & _).
    split; [rewrite Hsrc; by destruct s|].
    unfold interval_ms, poll_interval_class.
    rewrite Htr, Hsh, Hlo, Hon, Hb, Hc. by destruct s.
  - by rewrite Hs.
Qed.

(** X15.  If inotify_init or inotify_add_watch failed at start then, after the
    start and after every event, the interval given to the slot most
    recently is the one that the rule of
    binder_devmon_if_io_set_cell_info_update_interval selects for the
    battery, the charger and the cached display state as they are now. *)
Theorem if_interval_in_force impl radio setup events :
  inotify_init_result setup < 0 \/ inotify_add_watch_result setup < 0 ->
  last_interval
    (trace (run events (binder_devmon_if_start_io impl radio setup))) =
  Some (interval_ms (run events (binder_devmon_if_start_io impl radio setup))
          (poll_interval_class
             (run events (binder_devmon_if_start_io impl radio setup)))).
Proof.
  intros Hfail.
  assert (interval_in_force (binder_devmon_if_start_io impl radio setup))
    as H0.
  { rewrite if_start_io_cases.
    assert (interval_in_force (started impl radio)) as Hst.
    { unfold started. apply if_interval_in_force_set.
      by destruct (filter_more (new_io impl radio))
        as (_ & _ & _ & _ & _ & -> & _). }
    revert Hst. generalize (started impl radio). intros s Hst.
    destruct (Z.ltb_spec (inotify_init_result setup) 0); [by destruct s|].
    destruct (Z.ltb_spec (inotify_add_watch_result setup) 0);
      [by destruct s|lia]. }
  revert H0. generalize (binder_devmon_if_start_io impl radio setup).
  induction events as [|e events IH]; intros s Hs; simpl.
  - apply Hs.
  - apply IH. by apply if_interval_in_force_step.
Qed.

(** ** Which events can send what *)

(** X16.  Only a display event sends an indication filter: a battery event, a
    charger event, the delivery of a completion and a run of the poll
    handler send none, and the poll handler leaves the radio client, the
    stored request and the cached display state alone, whatever the screen
    file says. *)
Theorem if_events_and_traffic s :
  (forall b, count_sends (trace (step (battery_changed b) s)) =
             count_sends (trace s)) /\
  (forall c, count_sends (trace (step (charger_changed c) s)) =
             count_sends (trace s)) /\
  (forall r status resp error,
     trace (step (request_completed r status resp error) s) = trace s) /\
  (forall channel reading,
     count_sends
       (trace (snd (handle_batman_inotify_events_if channel reading s))) =
       count_sends (trace s) /\
     client (snd (handle_batman_inotify_events_if channel reading s)) =
       client s /\
     req (snd (handle_batman_inotify_events_if channel reading s)) = req s /\
     display_on (snd (handle_batman_inotify_events_if channel reading s)) =
       display_on s).
Proof.
  repeat apply conj.
  - intros b. by destruct s.
  - intros c. by destruct s.
  - intros r status resp error. simpl.
    destruct (radio_pending (client s) !! r) as [[]|]; [|done].
    destruct (IFFacts.filter_sent_unchanged r status resp error
                (set_client (radio_forget r (client s)) s)) as (_ & -> & _).
    by destruct s.
  - intros channel reading. unfold handle_batman_inotify_events_if,
      handle_batman_inotify_events_if_body.
    repeat case_match; by destruct s.
Qed.

End Facts.
End IFMore.

Lemma if_free_leaves_nothing_pending_witness :
  @IF.reachable sample_headers sample_if_session /\
  radio_pending (IF.client sample_if_session) !! 0%nat =
    Some IF.indication_filter_sent /\
  radio_pending
    (fst (IFLife.binder_devmon_if_io_free sample_if_session)) = ∅.
Proof.
  assert (@IF.reachable sample_headers sample_if_session) as Hreach.
  { unfold sample_if_session. apply IF.reachable_start. reflexivity. }
  split; [exact Hreach|]. split; [reflexivity|].
  exact (@IFMore.if_free_leaves_nothing_pending sample_headers _ Hreach).
Defined.

Lemma if_filter_in_force_witness :
  @IF.reachable sample_headers sample_if_session /\
  IF.ind_filter_supported sample_if_session = true /\
  IFLife.last_filter (IF.trace sample_if_session) = Some (138, 31).
Proof.
  assert (@IF.reachable sample_headers sample_if_session) as Hreach.
  { unfold sample_if_session. apply IF.reachable_start. reflexivity. }
  assert (IF.ind_filter_supported sample_if_session = true) as Hs
    by reflexivity.
  split; [exact Hreach|]. split; [exact Hs|].
  exact (proj1 (@IFMore.if_filter_in_force sample_headers _ Hreach Hs)).
Defined.

Lemma if_display_edge_witness :
  @IF.reachable sample_headers sample_if_session /\
  @IF.binder_devmon_if_display_on sample_headers
    {| MceDisplay.valid := true; MceDisplay.state := 1 |} =
  @IF.binder_devmon_if_display_on sample_headers
    (IF.display sample_if_session) /\
  @IF.step sample_headers
    (IF.display_changed {| MceDisplay.valid := true; MceDisplay.state := 1 |})
    sample_if_session =
  IF.set_display {| MceDisplay.valid := true; MceDisplay.state := 1 |}
    sample_if_session.
Proof.
  assert (@IF.reachable sample_headers sample_if_session) as Hreach.
  { unfold sample_if_session. apply IF.reachable_start. reflexivity. }
  assert (@IF.binder_devmon_if_display_on sample_headers
            {| MceDisplay.valid := true; MceDisplay.state := 1 |} =
          @IF.binder_devmon_if_display_on sample_headers
            (IF.display sample_if_session)) as Heq by reflexivity.
  split; [exact Hreach|]. split; [exact Heq|].
  exact (proj1 (@IFMore.if_display_edge sample_headers _ _ Hreach) Heq).
Defined.

Lemma if_stored_request_or_rejected_witness :
  @IF.reachable sample_headers
    (@IF.binder_devmon_if_start_io sample_headers sample_if_awake
       rejecting_radio no_watch) /\
  IF.req (@IF.binder_devmon_if_start_io sample_headers sample_if_awake
            rejecting_radio no_watch) = Some 0%nat /\
  (radio_pending
     (IF.client (@IF.binder_devmon_if_start_io sample_headers sample_if_awake
                   rejecting_radio no_watch)) !! 0%nat =
     Some IF.indication_filter_sent \/
   radio_submit_ok
     (IF.client (@IF.binder_devmon_if_start_io sample_headers sample_if_awake
                   rejecting_radio no_watch)) 0%nat = false).
Proof.
  assert (@IF.reachable sample_headers
            (@IF.binder_devmon_if_start_io sample_headers sample_if_awake
               rejecting_radio no_watch)) as Hreach
    by (apply IF.reachable_start; reflexivity).
  assert (IF.req (@IF.binder_devmon_if_start_io sample_headers
                    sample_if_awake rejecting_radio no_watch) = Some 0%nat)
    as Hreq by reflexivity.
  split; [exact Hreach|]. split; [exact Hreq|].
  exact (proj2 (@IFMore.if_stored_request_or_rejected sample_headers _ 0%nat
                  Hreach) Hreq).
Defined.

Lemma if_interval_is_configured_witness :
  In (IF.SetInterval 30000)
    (IF.trace
       (@IF.run sample_headers
          [IF.battery_changed
             {| MceBattery.valid := true; MceBattery.status := 4 |}]
          (@IF.binder_devmon_if_start_io sample_headers
             (IFLife.binder_devmon_if_new sample_config
                {| MceBattery.valid := true; MceBattery.status := 2 |}
                {| MceCharger.valid := true; MceCharger.state := 2 |}
                {| MceDisplay.valid := true; MceDisplay.state := 2 |})
             sample_radio with_watch))) /\
  (30000 = BinderSlotConfig.cell_info_interval_short_ms sample_config \/
   30000 = BinderSlotConfig.cell_info_interval_long_ms sample_config).
Proof.
  assert (In (IF.SetInterval 30000)
    (IF.trace
       (@IF.run sample_headers
          [IF.battery_changed
             {| MceBattery.valid := true; MceBattery.status := 4 |}]
          (@IF.binder_devmon_if_start_io sample_headers
             (IFLife.binder_devmon_if_new sample_config
                {| MceBattery.valid := true; MceBattery.status := 2 |}
                {| MceCharger.valid := true; MceCharger.state := 2 |}
                {| MceDisplay.valid := true; MceDisplay.state := 2 |})
             sample_radio with_watch)))) as Hin
    by (vm_compute; tauto).
  split; [exact Hin|].
  exact (@IFMore.if_interval_is_configured sample_headers _ _ _ _ _ _ _ _
           Hin).
Defined.

Lemma if_interval_in_force_witness :
  (inotify_init_result no_screen_file < 0 \/
   inotify_add_watch_result no_screen_file < 0) /\
  IFLife.last_interval
    (IF.trace
       (@IF.run sample_headers
          [IF.battery_changed
             {| MceBattery.valid := true; MceBattery.status := 4 |}]
          (@IF.binder_devmon_if_start_io sample_headers sample_if_awake
             sample_radio no_screen_file))) = Some 2000.
Proof.
  assert (inotify_init_result no_screen_file < 0 \/
          inotify_add_watch_result no_screen_file < 0) as Hfail
    by (right; simpl; lia).
  split; [exact Hfail|].
  exact (@IFMore.if_interval_in_force sample_headers sample_if_awake
           sample_radio no_screen_file
           [IF.battery_changed
              {| MceBattery.valid := true; MceBattery.status := 4 |}] Hfail).
Defined.

Lemma ds_start_ends_with_poll_witness :
  0 <= inotify_init_result with_watch /\
  0 <= inotify_add_watch_result with_watch /\
  DSLife.last_interval
    (DS.trace
       (@DS.binder_devmon_ds_start_io sample_headers sample_ds_docked
          sample_radio with_watch)) = Some 2000 /\
  @DS.poll_interval_class sample_headers
    (DS.new_io sample_ds_docked sample_radio) = Long.
Proof.
  assert (0 <= inotify_init_result with_watch) as Hinit by (simpl; lia).
  assert (0 <= inotify_add_watch_result with_watch) as Hadd by (simpl; lia).
  split; [exact Hinit|]. split; [exact Hadd|].
  split; [|reflexivity].
  exact (proj1 (@DSMore.ds_start_ends_with_poll sample_headers
                  sample_ds_docked sample_radio with_watch Hinit Hadd)).
Defined.

(** * The calls of a session start *)

Module StartCalls.
Import DS.
Section Facts.
Context `{ExternalHeaders}.

Lemma sent_values_report k v s k' :
  DS.sent_values k' (DS.trace (DS.report k v s)) =
  (if negb (eqb (DS.last_value k s) v) && DS.supported k s &&
      bool_decide (k' = k)
   then [v] else []) ++ DS.sent_values k' (DS.trace s).
Proof.
  rewrite DSFacts.report_trace.
  destruct (negb _ && _); simpl; [|done].
  case_decide; case_bool_decide; simpl; congruence.
Qed.

Lemma intervals_set_report k v s :
  DSLife.intervals_set (DS.trace (DS.report k v s)) =
  DSLife.intervals_set (DS.trace s).
Proof.
  rewrite DSFacts.report_trace. by destruct (negb _ && _).
Qed.

Lemma started_values ds radio k :
  DS.last_value k (DSLife.started ds radio) =
    DS.computed k (DS.new_io ds radio) /\
  DS.supported k (DSLife.started ds radio) = true /\
  DS.sent_values k (DS.trace (DSLife.started ds radio)) =
    (if DS.computed k (DS.new_io ds radio) then [true] else []) /\
  DSLife.intervals_set (DS.trace (DSLife.started ds radio)) =
    [DS.interval_ms (DS.new_io ds radio)
       (DS.poll_interval_class (DS.new_io ds radio))] /\
  (forall c, DS.interval_ms (DSLife.started ds radio) c =
             DS.interval_ms (DS.new_io ds radio) c).
Proof.
  unfold DSLife.started.
  rewrite ds_start_decisions_trace.
  unfold DS.binder_devmon_ds_io_set_cell_info_update_interval.
  rewrite DSFacts.update_charging_report, DSFacts.update_low_data_report.
  set (s0 := DS.new_io ds radio).
  set (vl := DS.low_data_expected s0).
  set (s1 := DS.report DS.low_data_state_sent vl s0).
  assert (DS.charger s1 = DS.ds_charger ds) as Hch.
  { destruct (DSFacts.report_objects DS.low_data_state_sent vl s0)
      as (_ & _ & Hc & _). exact Hc. }
  rewrite Hch.
  set (vc := DS.binder_devmon_ds_charging (DS.ds_charger ds)).
  set (s2 := DS.report DS.charging_state_sent vc s1).
  assert (forall k', DS.last_value k' s2 = DS.computed k' s0) as Hlv.
  { intros k'. unfold s2, s1.
    rewrite !DSFacts.report_last_value. by destruct k'. }
  assert (forall k', DS.supported k' s2 = true) as Hsup.
  { intros k'. unfold s2, s1. rewrite !DSFacts.report_supported.
    by destruct k'. }
  assert (forall c, DS.interval_ms s2 c = DS.interval_ms s0 c) as Hms.
  { intros c.
    destruct (DSMore.report_interval DS.charging_state_sent vc s1)
      as (_ & _ & ->).
    by destruct (DSMore.report_interval DS.low_data_state_sent vl s0)
      as (_ & _ & ->). }
  repeat split.
  - rewrite <- Hlv. by destruct k, s2.
  - rewrite <- (Hsup k). by destruct k, s2.
  - change (DS.computed k s0)
      with (match k with
            | DS.low_data_state_sent => vl
            | DS.charging_state_sent => vc
            end).
    clear Hlv Hsup Hms Hch s2 s1. clearbody vl vc.
    destruct k, vl, vc; done.
  - clear Hlv Hsup Hms Hch s2 s1. clearbody vl vc.
    destruct vl, vc; done.
  - intros c. rewrite <- Hms. by destruct s2.
Qed.

Lemma poll_body_calls reading s k :
  DS.sent_values k
    (DS.trace (snd (DS.handle_batman_inotify_events_ds_body reading s))) =
    (if negb (eqb (DS.last_value k s) (DSLife.polled k reading)) &&
        DS.supported k s
     then [DSLife.polled k reading] else [])
    ++ DS.sent_values k (DS.trace s) /\
  DSLife.intervals_set
    (DS.trace (snd (DS.handle_batman_inotify_events_ds_body reading s))) =
    DS.interval_ms s
      (DS.batman_interval_class
         (read_batman_screen (screen_file reading))
         (DS.batman_charging (get_battery_state reading)))
    :: DSLife.intervals_set (DS.trace s).
Proof.
  rewrite DSFacts.poll_body_report. cbn [snd].
  set (vl := DS.batman_low_data _ _). set (vc := DS.batman_charging _).
  set (s1 := DS.report DS.low_data_state_sent vl s).
  set (s2 := DS.report DS.charging_state_sent vc s1).
  match goal with
  | |- context [DS.log (DS.SetInterval ?ms) s2] => set (m := ms)
  end.
  replace (DS.trace (DS.log (DS.SetInterval m) s2))
    with (DS.SetInterval m :: DS.trace s2) by by destruct s2.
  cbn [DS.sent_values DSLife.intervals_set].
  split.
  - clear m. subst s2. rewrite sent_values_report.
    subst s1. rewrite sent_values_report.
    rewrite (DSFacts.report_last_value DS.low_data_state_sent vl s
               DS.charging_state_sent).
    rewrite (DSFacts.report_supported DS.low_data_state_sent vl s
               DS.charging_state_sent).
    destruct k; simpl.
    + by rewrite andb_false_r, andb_true_r.
    + by rewrite andb_false_r, andb_true_r.
  - f_equal.
    + subst m.
      destruct (DSMore.report_interval DS.charging_state_sent vc s1)
        as (_ & _ & ->).
      by destruct (DSMore.report_interval DS.low_data_state_sent vl s)
        as (_ & _ & ->).
    + subst s2. rewrite intervals_set_report. subst s1.
      by rewrite intervals_set_report.
Qed.

End Facts.
End StartCalls.

(** C6, amended.  At session start both monitors set the interval that the
    rule selects, and the IF monitor sends its indication filter, whatever
    the objects.  The three updates of the DS start compare the computed
    low-data and charging values with the FALSE left by g_new0: each is sent
    (after a drop of the empty field) exactly when it is TRUE.  If
    inotify_init and inotify_add_watch succeeded, start_io then runs the
    poll handler once: it sets its own interval and, in the DS file, sends
    its polled value of a kind exactly when that differs from the computed
    one.  Nothing else is sent or set at start. *)
Theorem C6_initial_application `{ExternalHeaders} :
  (forall ds radio setup k,
     DS.sent_values k
       (DS.trace (DS.binder_devmon_ds_start_io ds radio setup)) =
     (if watch_installed setup &&
         negb (eqb (DS.computed k (DS.new_io ds radio))
                 (DSLife.polled k (first_reading setup)))
      then [DSLife.polled k (first_reading setup)] else [])
     ++ (if DS.computed k (DS.new_io ds radio) then [true] else [])) /\
  (forall ds radio setup,
     DSLife.intervals_set
       (DS.trace (DS.binder_devmon_ds_start_io ds radio setup)) =
     (if watch_installed setup
      then [DS.interval_ms (DS.new_io ds radio)
              (DS.batman_interval_class
                 (read_batman_screen (screen_file (first_reading setup)))
                 (DS.batman_charging
                    (get_battery_state (first_reading setup))))]
      else [])
     ++ [DS.interval_ms (DS.new_io ds radio)
           (DS.poll_interval_class (DS.new_io ds radio))]) /\
  (forall ds radio setup, exists later,
     DS.trace (DS.binder_devmon_ds_start_io ds radio setup) =
     later ++
     DS.SetInterval
       (DS.interval_ms (DS.new_io ds radio)
          (DS.poll_interval_class (DS.new_io ds radio)))
     :: (if DS.binder_devmon_ds_charging (DS.ds_charger ds)
         then [DS.Send RADIO_DEVICE_STATE_CHARGING_STATE true
                 DS.charging_state_sent
                 (if DS.low_data_expected (DS.new_io ds radio)
                  then S (radio_next radio) else radio_next radio)
                 (radio_submit_ok radio
                    (if DS.low_data_expected (DS.new_io ds radio)
                     then S (radio_next radio) else radio_next radio));
               DS.Drop DS.charging_state_sent None]
         else [])
     ++ (if DS.low_data_expected (DS.new_io ds radio)
         then [DS.Send RADIO_DEVICE_STATE_LOW_DATA_EXPECTED true
                 DS.low_data_state_sent (radio_next radio)
                 (radio_submit_ok radio (radio_next radio));
               DS.Drop DS.low_data_state_sent None]
         else [])) /\
  (forall impl radio setup,
     IF.trace (IF.binder_devmon_if_start_io impl radio setup) =
     (if watch_installed setup
      then [IF.SetInterval
              (IF.interval_ms (IF.new_io impl radio)
                 (IF.batman_interval_class
                    (read_batman_screen (screen_file (first_reading setup)))
                    (IF.batman_charging (-1))))]
      else [])
     ++ [IF.SetInterval
           (IF.interval_ms (IF.new_io impl radio)
              (IF.poll_interval_class (IF.new_io impl radio)));
         IF.Send (fst (IF.indication_filter_request (IF.new_io impl radio)))
           (snd (IF.indication_filter_request (IF.new_io impl radio)))
           (radio_next radio) (radio_submit_ok radio (radio_next radio));
         IF.Drop None]).
Proof.
  repeat apply conj.
  - intros ds radio setup k.
    destruct (StartCalls.started_values ds radio k) as (Hlv & Hsup & Hsent & _).
    rewrite DSMore.start_io_cases. unfold watch_installed.
    revert Hlv Hsup Hsent. generalize (DSLife.started ds radio).
    intros s Hlv Hsup Hsent.
    destruct (inotify_init_result setup <? 0); cbn [negb andb];
      [simpl; rewrite <- Hsent; by destruct s|].
    destruct (inotify_add_watch_result setup <? 0); cbn [negb andb];
      [simpl; rewrite <- Hsent; by destruct s|].
    destruct (StartCalls.poll_body_calls (first_reading setup)
                (DS.set_batman_watch_source (g_io_add_watch_result setup)
                   (DS.set_batman_screen_wd (inotify_add_watch_result setup)
                      (DS.set_batman_inotify_fd (inotify_init_result setup)
                         s))) k) as (-> & _).
    match goal with
    | |- context [DS.last_value k ?s'] =>
        replace (DS.last_value k s') with (DS.last_value k s)
          by (by destruct k, s);
        replace (DS.supported k s') with (DS.supported k s)
          by (by destruct k, s);
        replace (DS.trace s') with (DS.trace s) by (by destruct s)
    end.
    by rewrite Hsup, andb_true_r, Hsent, Hlv.
  - intros ds radio setup.
    destruct (StartCalls.started_values ds radio DS.low_data_state_sent)
      as (_ & _ & _ & Hint & Hms).
    rewrite DSMore.start_io_cases. unfold watch_installed.
    revert Hint Hms. generalize (DSLife.started ds radio). intros s Hint Hms.
    destruct (inotify_init_result setup <? 0); cbn [negb andb];
      [simpl; rewrite <- Hint; by destruct s|].
    destruct (inotify_add_watch_result setup <? 0); cbn [negb andb];
      [simpl; rewrite <- Hint; by destruct s|].
    destruct (StartCalls.poll_body_calls (first_reading setup)
                (DS.set_batman_watch_source (g_io_add_watch_result setup)
                   (DS.set_batman_screen_wd (inotify_add_watch_result setup)
                      (DS.set_batman_inotify_fd (inotify_init_result setup)
                         s))) DS.low_data_state_sent) as (_ & ->).
    rewrite <- Hint, <- Hms. by destruct s.
  - intros ds radio setup.
    rewrite <- ds_start_decisions_trace.
    unfold DS.binder_devmon_ds_start_io.
    apply (DSFacts.kept_init_watch _ (DSFacts.trace_grows_kept _)).
    by exists [].
  - intros impl radio setup. rewrite IFMore.if_start_io_cases.
    unfold watch_installed.
    destruct (IFMore.if_started_fields impl radio)
      as (_ & _ & _ & Hsh & Hlo & Htr).
    assert (IF.trace (IFLife.started impl radio) =
            [IF.SetInterval
               (IF.interval_ms (IF.new_io impl radio)
                  (IF.poll_interval_class (IF.new_io impl radio)));
             IF.Send
               (fst (IF.indication_filter_request (IF.new_io impl radio)))
               (snd (IF.indication_filter_request (IF.new_io impl radio)))
               (radio_next radio) (radio_submit_ok radio (radio_next radio));
             IF.Drop None]) as Htrace.
    { rewrite Htr, IFFacts.filter_trace. simpl. f_equal. f_equal.
      unfold IFLife.started,
        IF.binder_devmon_if_io_set_cell_info_update_interval.
      destruct (IFFacts.filter_unchanged (IF.new_io impl radio))
        as (_ & Hon & Hb & Hc & _ & Hs & Hl).
      revert Hon Hb Hc Hs Hl.
      generalize (IF.binder_devmon_if_io_set_indication_filter
                    (IF.new_io impl radio)).
      intros s2 Hon Hb Hc Hs Hl.
      unfold IF.interval_ms, IF.poll_interval_class.
      destruct s2; simpl in *. by rewrite Hon, Hb, Hc, Hs, Hl. }
    revert Hsh Hlo Htrace. generalize (IFLife.started impl radio).
    intros s Hsh Hlo Htrace.
    destruct (inotify_init_result setup <? 0); cbn [negb andb];
      [simpl; rewrite <- Htrace; by destruct s|].
    destruct (inotify_add_watch_result setup <? 0); cbn [negb andb];
      [simpl; rewrite <- Htrace; by destruct s|].
    unfold IF.handle_batman_inotify_events_if_body. cbn [snd].
    rewrite <- Htrace. unfold IF.interval_ms.
    destruct s; simpl in *. by rewrite Hsh, Hlo.
Qed.
